(** * fxblue-etl: the CSV and RSS ingestion pipelines

    A shallow embedding of [gcp_csv.py], [gcp_rss.py] and [rss_parser.py]:
    Python values, the [float]/[int] constructors on strings, the
    [INSERT ... ON CONFLICT DO UPDATE] statements of the three files, the
    per-unit processors with their [try]/[except] boundary, and the
    scheduler loops.

    Modelling conventions.
    - A Python [float] is kept as the exact rational its literal denotes
      (plus [nan] and the infinities); rounding to binary64 and the sign
      of zero are not represented.  Text is ASCII.
    - pandas' missing-value marker is the float [nan]; it is the null of
      a numeric column.
    - The relational store is a finite map from table name to a finite map
      from key to row.  A statement is read through its column lists, the
      parenthesised groups that follow [VALUES] and the end of its [SET]
      list: the store rejects a statement whose text does not parse.  The
      types of the columns other than the key are not represented, and
      [executemany] is one [execute] per tuple.
    - Library calls whose result does not matter to the properties below
      ([strptime], the pandas date parser, the number [pd.to_numeric]
      reads in a text, [md5], the text of a float) are section variables;
      the sample inputs come with their values on the texts that occur in
      them.
    - Worker threads are run one after the other: every unit owns its
      connection, so the only shared state is the store and the log. *)

From Stdlib Require Import ZArith QArith Ascii String List Lia Bool.
From stdpp Require Import base option list gmap strings pretty.
Import ListNotations.

#[local] Set Default Proof Using "Type".

Local Open Scope string_scope.
Local Open Scope list_scope.
Local Open Scope Z_scope.

(* ===================================================================== *)
(** * Python values and exceptions                                        *)
(* ===================================================================== *)

Module Py.

(** A float: [nan], a signed infinity, or a finite value. *)
Inductive pyfloat : Type :=
| FNaN
| FInf (negative : bool)
| FFin (q : Q).

(** The dynamically typed values that travel through the pipelines. *)
Inductive Val : Type :=
| VNone
| VInt (z : Z)
| VFloat (f : pyfloat)
| VStr (s : string).

Inductive exn : Type :=
| ValueError (what : string)
| TypeError (what : string)
| OverflowError (what : string)
| KeyError (key : string)
| AttributeError (name : string)
| DatabaseError (what : string)
| TransportError (what : string).

(** Outcome of evaluating an expression: a value or a raised exception. *)
Inductive result (A : Type) : Type :=
| Ok (a : A)
| Raise (e : exn).
Arguments Ok {A} a.
Arguments Raise {A} e.

Definition bind {A B} (r : result A) (k : A -> result B) : result B :=
  match r with
  | Ok a => k a
  | Raise e => Raise e
  end.

Definition is_ok {A} (r : result A) : bool :=
  match r with Ok _ => true | Raise _ => false end.

Definition raises {A} (r : result A) : bool := negb (is_ok r).

(** ** Characters *)

Definition is_digit (c : ascii) : bool :=
  let n := N_of_ascii c in ((48 <=? n) && (n <=? 57))%N.

Definition digit_val (c : ascii) : Z := Z.of_N (N_of_ascii c) - 48.

(** The ASCII characters [str.strip()] and [float()] treat as blank:
    tab, line feed, vertical tab, form feed, carriage return, the four
    separators 28..31 and the space. *)
Definition is_space (c : ascii) : bool :=
  let n := N_of_ascii c in
  (((9 <=? n) && (n <=? 13)) || ((28 <=? n) && (n <=? 32)))%N.

Definition lower (c : ascii) : ascii :=
  let n := N_of_ascii c in
  if ((65 <=? n) && (n <=? 90))%N then ascii_of_N (n + 32) else c.

Fixpoint lstrip (p : ascii -> bool) (l : list ascii) : list ascii :=
  match l with
  | c :: l' => if p c then lstrip p l' else l
  | [] => []
  end.

(** [s.strip(chars)] on the character list of [s]. *)
Definition strip (p : ascii -> bool) (l : list ascii) : list ascii :=
  rev (lstrip p (rev (lstrip p l))).

(** ** Numeric literals *)

(** The tail of a [digitpart]: digits, each optionally preceded by one
    underscore.  Returns the accumulated value, the number of digits read
    and the unread suffix. *)
Fixpoint scan_digits (acc cnt : Z) (l : list ascii) {struct l}
  : Z * Z * list ascii :=
  match l with
  | c :: l' =>
      if is_digit c then scan_digits (acc * 10 + digit_val c) (cnt + 1) l'
      else if Ascii.eqb c "_"%char then
        match l' with
        | d :: _ => if is_digit d then scan_digits acc cnt l' else (acc, cnt, l)
        | [] => (acc, cnt, l)
        end
      else (acc, cnt, l)
  | [] => (acc, cnt, [])
  end.

(** [digitpart ::= digit (["_"] digit)*], continuing from [acc]. *)
Definition digitpart (acc : Z) (l : list ascii) : option (Z * Z * list ascii) :=
  match l with
  | c :: _ => if is_digit c then Some (scan_digits acc 0 l) else None
  | [] => None
  end.

(** An optional sign; [true] means negative. *)
Definition sign (l : list ascii) : bool * list ascii :=
  match l with
  | c :: l' =>
      if Ascii.eqb c "-"%char then (true, l')
      else if Ascii.eqb c "+"%char then (false, l')
      else (false, l)
  | [] => (false, [])
  end.

Definition apply_sign (neg : bool) (z : Z) : Z := if neg then - z else z.

(** [int(s)] for a string, base ten. *)
Definition int_of_string (s : string) : option Z :=
  let '(neg, l) := sign (strip is_space (list_ascii_of_string s)) in
  match digitpart 0 l with
  | Some (v, _, []) => Some (apply_sign neg v)
  | _ => None
  end.

(** The rational [m * 10^e]. *)
Definition scale10 (m e : Z) : Q :=
  if 0 <=? e then inject_Z (m * 10 ^ e)
  else Qred (Qmake m (Z.to_pos (10 ^ (- e)))).

(** The exponent suffix of a float literal: empty, or [e]/[E], an
    optional sign and a [digitpart], up to the end of the string. *)
Definition exponent (l : list ascii) : option Z :=
  match l with
  | [] => Some 0
  | c :: l' =>
      if Ascii.eqb (lower c) "e"%char then
        let '(neg, l'') := sign l' in
        match digitpart 0 l'' with
        | Some (v, _, []) => Some (apply_sign neg v)
        | _ => None
        end
      else None
  end.

(** The unsigned decimal forms [float()] accepts: [12], [12.], [12.5],
    [.5], each with an optional exponent. *)
Definition decimal (l : list ascii) : option Q :=
  match digitpart 0 l with
  | Some (i, _, r) =>
      match r with
      | c :: r' =>
          if Ascii.eqb c "."%char then
            match digitpart i r' with
            | Some (m, fcnt, r'') =>
                e ← exponent r''; Some (scale10 m (e - fcnt))
            | None => e ← exponent r'; Some (scale10 i e)
            end
          else e ← exponent r; Some (scale10 i e)
      | [] => Some (inject_Z i)
      end
  | None =>
      match l with
      | c :: r' =>
          if Ascii.eqb c "."%char then
            match digitpart 0 r' with
            | Some (m, fcnt, r'') =>
                e ← exponent r''; Some (scale10 m (e - fcnt))
            | None => None
            end
          else None
      | [] => None
      end
  end.

Definition Qneg_if (neg : bool) (q : Q) : Q := if neg then Qred (- q) else q.

(** [float(s)] for a string. *)
Definition float_of_string (s : string) : option pyfloat :=
  let '(neg, l) := sign (strip is_space (list_ascii_of_string s)) in
  let w := string_of_list_ascii (map lower l) in
  if String.eqb w "inf" || String.eqb w "infinity" then Some (FInf neg)
  else if String.eqb w "nan" then Some FNaN
  else q ← decimal l; Some (FFin (Qneg_if neg q)).

(** ** The constructors [float(x)] and [int(x)] *)

Definition float (x : Val) : result pyfloat :=
  match x with
  | VStr s =>
      match float_of_string s with
      | Some f => Ok f
      | None => Raise (ValueError "could not convert string to float")
      end
  | VInt z => Ok (FFin (inject_Z z))
  | VFloat f => Ok f
  | VNone => Raise (TypeError "float() argument must be a string or a real number")
  end.

Definition int (x : Val) : result Z :=
  match x with
  | VStr s =>
      match int_of_string s with
      | Some z => Ok z
      | None => Raise (ValueError "invalid literal for int() with base 10")
      end
  | VInt z => Ok z
  | VFloat (FFin q) => Ok (Z.quot (Qnum q) (Z.pos (Qden q)))
  | VFloat FNaN => Raise (ValueError "cannot convert float NaN to integer")
  | VFloat (FInf _) => Raise (OverflowError "cannot convert float infinity to integer")
  | VNone => Raise (TypeError "int() argument must be a string or a real number")
  end.

(** Truthiness of a string: non-empty. *)
Definition truthy (s : string) : bool := negb (String.eqb s "").

(** [pd.isna(x)] on a scalar. *)
Definition isna (x : Val) : bool :=
  match x with
  | VNone | VFloat FNaN => true
  | _ => false
  end.

Definition is_str (x : Val) : bool :=
  match x with VStr _ => true | _ => false end.

(** A field of a canonical record is numeric-or-null when it is [None],
    an integer or a float ([nan] being the null of a numeric column). *)
Definition numeric_or_null (x : Val) : bool := negb (is_str x).

(** Float division by one hundred. *)
Definition div100 (f : pyfloat) : pyfloat :=
  match f with
  | FFin q => FFin (Qred (q / inject_Z 100))
  | _ => f
  end.

End Py.

Import Py.

Declare Scope py_scope.
Delimit Scope py_scope with py.
Notation "x <- e ;; k" := (Py.bind e (fun x => k))
(at level 100, e at next level, right associativity) : py_scope.


(* ===================================================================== *)
(** * The relational store                                                *)
(* ===================================================================== *)

Module Sql.

(** Primary keys are integers ([ticket]) or text ([account_id]). *)
Inductive Key : Type :=
| KInt (z : Z)
| KStr (s : string).

#[global] Instance Key_eq_dec : EqDecision Key.
Proof. solve_decision. Defined.

#[global] Instance Key_countable : Countable Key.
Proof.
  refine (inj_countable'
            (fun k => match k with KInt z => inl z | KStr s => inr s end)
            (fun x => match x with inl z => KInt z | inr s => KStr s end) _).
  intros []; reflexivity.
Defined.

Abbreviation Row := (gmap string Val).
Abbreviation Table := (gmap Key Row).
Abbreviation DB := (gmap string Table).

(** One item of a [VALUES] list: a [%s] placeholder or a literal [NULL]. *)
Inductive SqlExpr : Type :=
| Param
| Null.

(** [INSERT INTO table (insert_columns) VALUES g1 g2 ...
     ON CONFLICT (conflict_target) DO UPDATE SET c = EXCLUDED.c, ...]
    as the text has it: [values] lists the parenthesised groups that
    follow [VALUES], one after the other with nothing in between;
    [update_set] lists the columns [c] of the [SET] list, and
    [set_ends_in_comma] tells whether a comma follows its last item. *)
Record Upsert : Type := {
  table : string;
  insert_columns : list string;
  values : list (list SqlExpr);
  conflict_target : string;
  update_set : list string;
  set_ends_in_comma : bool
}.

(** What the parser of the store accepts: a single group after [VALUES],
    with one expression per inserted column, and a [SET] list with no
    comma left at its end. *)
Definition parses (stmt : Upsert) : bool :=
  match values stmt with
  | [g] => Nat.eqb (length g) (length (insert_columns stmt))
  | _ => false
  end && negb (set_ends_in_comma stmt).

(** Fill the placeholders from the parameter tuple, left to right. *)
Fixpoint bind_values (vs : list SqlExpr) (params : list Val) : option (list Val) :=
  match vs, params with
  | [], [] => Some []
  | Null :: vs', _ => cons VNone <$> bind_values vs' params
  | Param :: vs', p :: ps => cons p <$> bind_values vs' ps
  | _, _ => None
  end.

Definition key_of_val (v : Val) : result Key :=
  match v with
  | VInt z => Ok (KInt z)
  | VStr s => Ok (KStr s)
  | _ => Raise (DatabaseError "invalid value for the key column")
  end.

(** The row proposed for insertion, the statement's [EXCLUDED]: the
    placeholders of the text are filled from the tuple, and the store
    parses what it is sent. *)
Definition excluded_row (stmt : Upsert) (params : list Val) : result Row :=
  match bind_values (concat (values stmt)) params with
  | Some vs =>
      if parses stmt then Ok (list_to_map (zip (insert_columns stmt) vs))
      else Raise (DatabaseError "syntax error")
  | None => Raise (DatabaseError "wrong number of parameters")
  end.

Definition column (r : Row) (c : string) : Val := default VNone (r !! c).

(** [DO UPDATE SET]: every listed column takes the proposed value, the
    others keep the stored one. *)
Definition do_update (stmt : Upsert) (old excluded : Row) : Row :=
  foldr (fun c acc => <[c := column excluded c]> acc) old (update_set stmt).

Definition upsert_row (stmt : Upsert) (excluded : Row) (k : Key) (tbl : Table) : Table :=
  match tbl !! k with
  | None => <[k := excluded]> tbl
  | Some old => <[k := do_update stmt old excluded]> tbl
  end.

Definition get_table (db : DB) (t : string) : Table := default ∅ (db !! t).

(** [cur.execute(stmt, params)] on the transaction's view of the store. *)
Definition execute (stmt : Upsert) (params : list Val) (db : DB) : result DB :=
  (ex <- excluded_row stmt params ;;
   k <- key_of_val (column ex (conflict_target stmt)) ;;
   Ok (<[table stmt := upsert_row stmt ex k (get_table db (table stmt))]> db))%py.

(** [cur.executemany(stmt, seq)]: one [execute] per tuple, in order. *)
Fixpoint executemany (stmt : Upsert) (seq : list (list Val)) (db : DB) : result DB :=
  match seq with
  | [] => Ok db
  | params :: seq' => (db' <- execute stmt params db ;; executemany stmt seq' db')%py
  end.

(** [stmt.replace("(%s)", "(%s)" * n)]: every occurrence of the group
    [(%s)] is replaced by [n] copies of it, written one after the
    other. *)
Definition replace_placeholder (n : nat) (stmt : Upsert) : Upsert :=
  {| table := table stmt;
     insert_columns := insert_columns stmt;
     values := flat_map (fun g => match g with
                                  | [Param] => repeat [Param] n
                                  | _ => [g]
                                  end) (values stmt);
     conflict_target := conflict_target stmt;
     update_set := update_set stmt;
     set_ends_in_comma := set_ends_in_comma stmt |}.

(** The parameter a tuple binds to column [c], read off the column list. *)
Fixpoint lookup_column (cols : list string) (t : list Val) (c : string) : Val :=
  match cols, t with
  | c' :: cols', v :: t' =>
      if String.eqb c c' then v else lookup_column cols' t' c
  | _, _ => VNone
  end.

Definition field (stmt : Upsert) (t : list Val) (c : string) : Val :=
  lookup_column (insert_columns stmt) t c.

(** A statement is well formed when the store parses it and its [SET]
    list names inserted columns only. *)
Definition well_formed (stmt : Upsert) : Prop :=
  parses stmt = true /\
  (forall c, In c (update_set stmt) -> In c (insert_columns stmt)).

(** Two outcomes agree on the store when both fail or both succeed with
    the same view: which exception was raised is not part of the store. *)
Definition same_outcome {A} (r1 r2 : result A) : Prop :=
  match r1, r2 with
  | Ok a, Ok b => a = b
  | Raise _, Raise _ => True
  | _, _ => False
  end.

End Sql.

Import Sql.

(* ===================================================================== *)
(** * The processing monad: store, log and connections                    *)
(* ===================================================================== *)

Module Proc.

Inductive Level : Type := INFO | WARNING | ERROR.

(** A log call: the f-string with its holes named, the values that fill
    them, and the exception attached by [exc_info=True]. *)
Record LogRecord : Type := {
  level : Level;
  message : string;
  args : list Val;
  exc_info : option exn
}.

(** What a unit processor can observe and change. [db] is the committed
    store, [open_conns] counts the connections opened and not yet closed,
    [sent] lists every parameter tuple handed to a cursor with the table
    of its statement, in order. *)
Record World : Type := {
  db : DB;
  log : list LogRecord;
  open_conns : nat;
  sent : list (string * list Val)
}.

Definition M (A : Type) : Type := World -> result A * World.

Definition ret {A} (a : A) : M A := fun w => (Ok a, w).

Definition raise {A} (e : exn) : M A := fun w => (Raise e, w).

Definition bindM {A B} (m : M A) (k : A -> M B) : M B :=
  fun w => match m w with
           | (Ok a, w') => k a w'
           | (Raise e, w') => (Raise e, w')
           end.

(** A pure expression evaluated inside a processor. *)
Definition lift {A} (r : result A) : M A := fun w => (r, w).

(** [try: body  except Exception as e: handler(e)] *)
Definition try_except {A} (body : M A) (handler : exn -> M A) : M A :=
  fun w => match body w with
           | (Ok a, w') => (Ok a, w')
           | (Raise e, w') => handler e w'
           end.

Definition logging (lvl : Level) (msg : string) (vals : list Val) (exc : option exn)
  : M unit :=
  fun w => (Ok tt,
            {| db := db w;
               log := log w ++ [{| level := lvl; message := msg;
                                   args := vals; exc_info := exc |}];
               open_conns := open_conns w;
               sent := sent w |}).

(** [get_db_conn()] followed by [conn.cursor()]: a new connection whose
    transaction starts from the committed store. *)
Definition get_db_conn : M DB :=
  fun w => (Ok (db w),
            {| db := db w; log := log w;
               open_conns := S (open_conns w); sent := sent w |}).

(** [conn.commit()]: the transaction's view becomes the committed store. *)
Definition commit (view : DB) : M unit :=
  fun w => (Ok tt,
            {| db := view; log := log w;
               open_conns := open_conns w; sent := sent w |}).

(** [cur.close(); conn.close()] *)
Definition close : M unit :=
  fun w => (Ok tt,
            {| db := db w; log := log w;
               open_conns := pred (open_conns w); sent := sent w |}).

Definition cur_execute (stmt : Upsert) (params : list Val) (view : DB) : M DB :=
  fun w => (execute stmt params view,
            {| db := db w; log := log w; open_conns := open_conns w;
               sent := sent w ++ [(table stmt, params)] |}).

Fixpoint cur_executemany (stmt : Upsert) (seq : list (list Val)) (view : DB) : M DB :=
  match seq with
  | [] => ret view
  | params :: seq' =>
      bindM (cur_execute stmt params view) (cur_executemany stmt seq')
  end.

(** [sends tbl P w w']: from [w] to [w'] nothing was committed, logged,
    opened or closed, and the tuples handed to a cursor in between all
    went to table [tbl] and satisfy [P]. *)
Definition sends (tbl : string) (P : list Val -> Prop) (w w' : World) : Prop :=
  db w' = db w /\ log w' = log w /\ open_conns w' = open_conns w /\
  exists ts, sent w' = (sent w ++ map (pair tbl) ts)%list /\ Forall P ts.

(** A computation that, from any world, hands to cursors only tuples
    [t] for tables [tbl] with [Q tbl t]. *)
Definition sends_only (Q : string -> list Val -> Prop) {A} (m : M A) : Prop :=
  forall w, exists new,
    sent (snd (m w)) = (sent w ++ new)%list /\
    Forall (fun p => Q (fst p) (snd p)) new.

(** The tuples sent to table [tbl] between [w] and [w']. *)
Definition sent_since (tbl : string) (w w' : World) (t : list Val) : Prop :=
  exists new, sent w' = (sent w ++ new)%list /\ In (tbl, t) new.

(** The unit ended in failure: nothing was committed, and either the
    exception left the processor unlogged, or the processor returned
    after logging it as an error (preceded by informational lines
    only). *)
Definition unit_failed (r : result unit) (w w' : World) : Prop :=
  db w' = db w /\
  ((exists e, r = Raise e /\ log w' = log w) \/
   (exists infos msg vals e,
       r = Ok tt /\ Forall (fun l => level l = INFO) infos /\
       log w' = (log w ++ infos
                 ++ [{| level := ERROR; message := msg; args := vals;
                        exc_info := Some e |}])%list)).

End Proc.

Import Proc.

Notation "x <~ e ;; k" := (Proc.bindM e (fun x => k))
(at level 100, e at next level, right associativity) : py_scope.
Notation "e ;;; k" := (Proc.bindM e (fun _ => k))
(at level 100, right associativity) : py_scope.

(* ===================================================================== *)
(** * gcp_rss.py                                                          *)
(* ===================================================================== *)

Module Rss.

(** A feed entry as [feedparser] hands it over: named string fields. *)
Abbreviation Entry := (gmap string string).

(** A row of the accounts sheet. *)
Abbreviation RosterRow := (gmap string Val).

Definition META_UPSERT : Upsert := {|
  table := "account_metadata";
  insert_columns :=
    ["account_id"; "account_url"; "rss_url"; "trade_win"; "total_return";
     "trades_per_day"; "strategy_inferred"; "gpt_comments"];
  values := [[Param; Param; Param; Param; Param; Param; Null; Null]];
  conflict_target := "account_id";
  update_set :=
    ["account_url"; "rss_url"; "trade_win"; "total_return"; "trades_per_day"];
  set_ends_in_comma := false
|}.

(** The trade statement as the module writes it: [VALUES (%s)], and a
    [SET] list whose last line, [magic_number = EXCLUDED.magic_number,],
    ends in a comma (the five lines that followed it are commented
    out). *)
Definition TRADES_UPSERT : Upsert := {|
  table := "rss_trades";
  insert_columns :=
    ["account_id"; "account_url"; "rss_url"; "trade_win"; "total_return";
     "trades_per_day"; "account_balance"; "account_equity";
     "account_floating_profit"; "account_closed_profit";
     "account_free_margin"; "ticket"; "action"; "lots"; "symbol";
     "open_price"; "close_price"; "open_time"; "close_time";
     "profit"; "swap"; "commission"; "total_profit"; "take_profit";
     "stop_loss"; "magic_number";
     "gpt_recommendation_issued"; "gpt_recommendation_content";
     "gpt_recommendation_accuracy"; "gpt_suggestion_score";
     "trade_deviation_reasoning"];
  values := [[Param]];
  conflict_target := "ticket";
  update_set :=
    ["account_id"; "account_url"; "rss_url"; "trade_win"; "total_return";
     "trades_per_day"; "account_balance"; "account_equity";
     "account_floating_profit"; "account_closed_profit";
     "account_free_margin"; "action"; "lots"; "symbol";
     "open_price"; "close_price"; "open_time"; "close_time";
     "profit"; "swap"; "commission"; "total_profit"; "take_profit";
     "stop_loss"; "magic_number"];
  set_ends_in_comma := true
|}.

(** The five columns the [SET] list leaves out (commented out in the
    source). *)
Definition enrichment_columns : list string :=
  ["gpt_recommendation_issued"; "gpt_recommendation_content";
   "gpt_recommendation_accuracy"; "gpt_suggestion_score";
   "trade_deviation_reasoning"].

(** The statement as the call sites build it:
    [TRADES_UPSERT.replace("(%s)", "(%s)" * 31)], that is
    [VALUES (%s)(%s)...(%s)] with thirty-one groups. *)
Definition trades_stmt : Upsert := replace_placeholder 31 TRADES_UPSERT.

(** ** Attribute and item access *)

Definition hasattr (item : Entry) (name : string) : bool :=
  match item !! name with Some _ => true | None => false end.

(** [item.name] *)
Definition attr (item : Entry) (name : string) : result string :=
  match item !! name with
  | Some s => Ok s
  | None => Raise (AttributeError name)
  end.

(** [row[key]] *)
Definition getitem (row : RosterRow) (key : string) : result Val :=
  match row !! key with
  | Some v => Ok v
  | None => Raise (KeyError key)
  end.

(** [row.get(key)] *)
Definition get (row : RosterRow) (key : string) : Val :=
  default VNone (row !! key).

(** ** The conditional conversions of a position entry *)

(** [float(item.name) if item.name else None] *)
Definition float_if_set (item : Entry) (name : string) : result Val :=
  (s <- attr item name ;;
   if truthy s then (f <- float (VStr s) ;; Ok (VFloat f)) else Ok VNone)%py.

(** [int(item.name) if item.name else None] *)
Definition int_if_set (item : Entry) (name : string) : result Val :=
  (s <- attr item name ;;
   if truthy s then (z <- int (VStr s) ;; Ok (VInt z)) else Ok VNone)%py.

(** [float(item.name) if item.name != "0" else None] *)
Definition float_unless_zero (item : Entry) (name : string) : result Val :=
  (s <- attr item name ;;
   if negb (String.eqb s "0") then (f <- float (VStr s) ;; Ok (VFloat f))
   else Ok VNone)%py.

Definition percent (c : ascii) : bool := Ascii.eqb c "%"%char.

(** [x.strip("%")] *)
Definition strip_percent (s : string) : string :=
  string_of_list_ascii (strip percent (list_ascii_of_string s)).

Definition to_pct (x : Val) : result Val :=
  if isna x || match x with VStr s => String.eqb s "-" | _ => false end
  then Ok VNone
  else match x with
       | VStr s => (f <- float (VStr (strip_percent s)) ;; Ok (VFloat (div100 f)))%py
       | _ => (f <- float x ;; Ok (VFloat f))%py
       end.

(** The account-level snapshot carried from one entry to the next. *)
Record Summary : Type := {
  bal : Val; eq_ : Val; fp : Val; cp : Val; fm : Val
}.

Definition no_summary : Summary :=
  {| bal := VNone; eq_ := VNone; fp := VNone; cp := VNone; fm := VNone |}.

(** The per-account values repeated in every trade tuple. *)
Record Account : Type := {
  sa : Val; url : Val; rss : Val; win : Val; ret_ : Val; tpd : Val
}.

(** [if hasattr(item, "account_balance"): bal = float(...); ...] *)
Definition account_summary (s : Summary) (item : Entry) : result Summary :=
  if hasattr item "account_balance" then
    (b <- (x <- attr item "account_balance" ;; float (VStr x)) ;;
     e <- (x <- attr item "account_equity" ;; float (VStr x)) ;;
     f <- (x <- attr item "account_floatingprofit" ;; float (VStr x)) ;;
     c <- (x <- attr item "account_closedprofit" ;; float (VStr x)) ;;
     m <- (x <- attr item "account_freemargin" ;; float (VStr x)) ;;
     Ok {| bal := VFloat b; eq_ := VFloat e; fp := VFloat f;
           cp := VFloat c; fm := VFloat m |})%py
  else Ok s.

(** The feed fields converted with [float] under a truthiness test, each
    with the column it fills. *)
Definition float_if_set_fields : list (string * string) :=
  [("position_lots", "lots"); ("position_openprice", "open_price");
   ("position_closeprice", "close_price"); ("position_profit", "profit");
   ("position_swap", "swap"); ("position_commission", "commission");
   ("position_totalprofit", "total_profit")].

(** The two fields converted under the [!= "0"] test. *)
Definition float_unless_zero_fields : list (string * string) :=
  [("position_tp", "take_profit"); ("position_sl", "stop_loss")].

(** The numeric columns of [rss_trades]. *)
Definition numeric_columns : list string :=
  ["trade_win"; "total_return"; "trades_per_day";
   "account_balance"; "account_equity"; "account_floating_profit";
   "account_closed_profit"; "account_free_margin"; "ticket"; "lots";
   "open_price"; "close_price"; "profit"; "swap"; "commission";
   "total_profit"; "take_profit"; "stop_loss"; "magic_number"].

(** A summary whose five fields are numbers or null. *)
Definition summary_numeric (s : Summary) : Prop :=
  numeric_or_null (bal s) = true /\ numeric_or_null (eq_ s) = true /\
  numeric_or_null (fp s) = true /\ numeric_or_null (cp s) = true /\
  numeric_or_null (fm s) = true.

(** An account whose three percentages are numbers or null. *)
Definition account_numeric (a : Account) : Prop :=
  numeric_or_null (win a) = true /\ numeric_or_null (ret_ a) = true /\
  numeric_or_null (tpd a) = true.

Section Timestamps.

(** [datetime.strptime(ts_str, "%a %d %b %Y %H:%M:%S")], localised to UTC
    and printed with [isoformat()]; [None] where [strptime] raises. *)
Variable strptime_isoformat : string -> option string.

Definition normalize_timestamp (ts_str : string) : Val :=
  match strptime_isoformat ts_str with
  | Some iso => VStr iso
  | None => VNone
  end.

(** The tuple appended to [trades] for a position entry. *)
Definition position_tuple (a : Account) (s : Summary) (item : Entry)
  : result (list Val) :=
  (ticket <- (x <- attr item "position_ticket" ;; int (VStr x)) ;;
   action <- attr item "position_action" ;;
   lots <- float_if_set item "position_lots" ;;
   symbol <- attr item "position_symbol" ;;
   op <- float_if_set item "position_openprice" ;;
   cl <- float_if_set item "position_closeprice" ;;
   ot <- (x <- attr item "position_opentime" ;; Ok (normalize_timestamp x)) ;;
   ct <- (x <- attr item "position_closetime" ;;
          if negb (String.eqb x "Thu 1 Jan 1970 00:00:00")
          then Ok (normalize_timestamp x) else Ok VNone) ;;
   profit <- float_if_set item "position_profit" ;;
   swap <- float_if_set item "position_swap" ;;
   comm <- float_if_set item "position_commission" ;;
   tpft <- float_if_set item "position_totalprofit" ;;
   tp_ <- float_unless_zero item "position_tp" ;;
   sl_ <- float_unless_zero item "position_sl" ;;
   mag <- int_if_set item "position_magicnumber" ;;
   Ok [sa a; url a; rss a; win a; ret_ a; tpd a;
       bal s; eq_ s; fp s; cp s; fm s;
       VInt ticket; VStr action; lots; VStr symbol;
       op; cl; ot; ct; profit; swap; comm; tpft; tp_; sl_; mag;
       VNone; VNone; VNone; VNone; VNone])%py.

(** The walk over [feed.entries] with its batched upserts: returns the
    batch still pending and the transaction's view. *)
Fixpoint feed_loop (BATCH_SIZE : Z) (a : Account) (entries : list Entry)
  (s : Summary) (trades : list (list Val)) (view : DB)
  : M (list (list Val) * DB) :=
  match entries with
  | [] => ret (trades, view)
  | item :: rest =>
      (s' <~ lift (account_summary s item) ;;
       if negb (hasattr item "position_ticket")
       then feed_loop BATCH_SIZE a rest s' trades view
       else
         t <~ lift (position_tuple a s' item) ;;
         let trades' := (trades ++ [t])%list in
         if Z.of_nat (length trades') >=? BATCH_SIZE then
           view' <~ cur_executemany trades_stmt trades' view ;;
           feed_loop BATCH_SIZE a rest s' [] view'
         else feed_loop BATCH_SIZE a rest s' trades' view)%py
  end.

(** [process_account(row)], with [feed] the entries that
    [feedparser.parse(rss)] returns for this account. *)
Definition process_account (BATCH_SIZE : Z) (row : RosterRow) (feed : list Entry)
  : M unit :=
  (sa <~ lift (getitem row "username") ;;
   url <~ lift (getitem row "account_url") ;;
   rss <~ lift (getitem row "rss_url") ;;
   win <~ lift (to_pct (get row "trade win")) ;;
   ret <~ lift (to_pct (get row "Total return")) ;;
   tpd <~ lift (to_pct (get row "Trades per day")) ;;
   try_except
     (view <~ get_db_conn ;;
      view <~ cur_execute META_UPSERT [sa; url; rss; win; ret; tpd] view ;;
      r <~ feed_loop BATCH_SIZE
             {| sa := sa; url := url; rss := rss;
                win := win; ret_ := ret; tpd := tpd |}
             feed no_summary [] view ;;
      let '(trades, view) := r in
      view <~ (match trades with
               | [] => Proc.ret view
               | _ :: _ => cur_executemany trades_stmt trades view
               end) ;;
      commit view ;;;
      close ;;;
      logging INFO "{sa}: metadata+{len(trades)} trades upserted"
        [sa; VInt (Z.of_nat (length trades))] None)
     (fun e => logging ERROR "Error for {sa}: {e}" [sa] (Some e)))%py.

(** The records of a feed, normalised in document order without any
    store access: the sequence the walk above appends to [trades]. *)
Fixpoint normalize_feed (a : Account) (entries : list Entry) (s : Summary)
  : result (list (list Val)) :=
  match entries with
  | [] => Ok []
  | item :: rest =>
      (s' <- account_summary s item ;;
       if negb (hasattr item "position_ticket")
       then normalize_feed a rest s'
       else
         t <- position_tuple a s' item ;;
         ts <- normalize_feed a rest s' ;;
         Ok (t :: ts))%py
  end.

(** The store a unit leaves committed when every step succeeds, read off
    the normalised records; the store as it was when any step raises. *)
Definition committed_after (row : RosterRow) (feed : list Entry) (d : DB) : DB :=
  match
    (sa <- getitem row "username" ;;
     url <- getitem row "account_url" ;;
     rss <- getitem row "rss_url" ;;
     win <- to_pct (get row "trade win") ;;
     ret <- to_pct (get row "Total return") ;;
     tpd <- to_pct (get row "Trades per day") ;;
     v <- execute META_UPSERT [sa; url; rss; win; ret; tpd] d ;;
     recs <- normalize_feed
               {| sa := sa; url := url; rss := rss;
                  win := win; ret_ := ret; tpd := tpd |}
               feed no_summary ;;
     executemany trades_stmt recs v)%py
  with
  | Ok v => v
  | Raise _ => d
  end.

(** The walk with every record written individually, by one
    [cur.execute] of [stmt], as soon as it is built.  With [trades_stmt]
    it is the reference the batched walk is compared with; with the
    statement of [rss_parser.py] it is the loop of that script. *)
Fixpoint feed_loop_unbatched (stmt : Upsert) (a : Account) (entries : list Entry)
  (s : Summary) (view : DB) : M DB :=
  match entries with
  | [] => Proc.ret view
  | item :: rest =>
      (s' <~ lift (account_summary s item) ;;
       if negb (hasattr item "position_ticket")
       then feed_loop_unbatched stmt a rest s' view
       else
         t <~ lift (position_tuple a s' item) ;;
         view' <~ cur_execute stmt t view ;;
         feed_loop_unbatched stmt a rest s' view')%py
  end.

(** [process_account] with the unbatched walk in place of the batched
    one; everything else is unchanged. *)
Definition process_account_unbatched (row : RosterRow) (feed : list Entry)
  : M unit :=
  (sa <~ lift (getitem row "username") ;;
   url <~ lift (getitem row "account_url") ;;
   rss <~ lift (getitem row "rss_url") ;;
   win <~ lift (to_pct (get row "trade win")) ;;
   ret <~ lift (to_pct (get row "Total return")) ;;
   tpd <~ lift (to_pct (get row "Trades per day")) ;;
   try_except
     (view <~ get_db_conn ;;
      view <~ cur_execute META_UPSERT [sa; url; rss; win; ret; tpd] view ;;
      view <~ feed_loop_unbatched trades_stmt
                {| sa := sa; url := url; rss := rss;
                   win := win; ret_ := ret; tpd := tpd |}
                feed no_summary view ;;
      commit view ;;;
      close ;;;
      logging INFO "{sa}: metadata+{len(trades)} trades upserted"
        [sa; VInt 0] None)
     (fun e => logging ERROR "Error for {sa}: {e}" [sa] (Some e)))%py.

(** [main()]: one future per roster row.  A future keeps what its call
    raised; [as_completed] is drained without asking any future for its
    result. *)
Definition main (BATCH_SIZE : Z) (units : list (RosterRow * list Entry))
  (w : World) : World :=
  fold_left (fun w u => snd (process_account BATCH_SIZE (fst u) (snd u) w))
            units w.

End Timestamps.

End Rss.

(* ===================================================================== *)
(** * rss_parser.py                                                       *)
(* ===================================================================== *)

Module RssParser.

Import Rss.

Definition has_percent (s : string) : bool :=
  existsb percent (list_ascii_of_string s).

Definition to_pct (x : Val) : result Val :=
  if isna x || match x with VStr s => String.eqb s "-" | _ => false end
  then Ok VNone
  else match x with
       | VStr s =>
           if has_percent s
           then (f <- float (VStr (strip_percent s)) ;; Ok (VFloat (div100 f)))%py
           else (f <- float x ;; Ok (VFloat f))%py
       | _ => (f <- float x ;; Ok (VFloat f))%py
       end.

(** The trade statement of the script: the column list and the [SET]
    list of [gcp_rss.py], line for line, the closing comma of the [SET]
    list included; after [VALUES], one group of thirty-one placeholders
    ([','.join(['%s']*31)]). *)
Definition TRADES_UPSERT : Upsert := {|
  table := "rss_trades";
  insert_columns := insert_columns Rss.TRADES_UPSERT;
  values := [repeat Param 31];
  conflict_target := "ticket";
  update_set := update_set Rss.TRADES_UPSERT;
  set_ends_in_comma := true
|}.

Section Timestamps.

Variable strptime_isoformat : string -> option string.

(** The body of the loop over the accounts sheet: metadata upsert, then
    one [cur.execute] per position entry.  The field conversions of an
    entry are those of [gcp_rss.py], expression for expression. *)
Definition account_body (row : RosterRow) (feed : list Entry) (view : DB) : M DB :=
  (acct_id <~ lift (getitem row "username") ;;
   acct_url <~ lift (getitem row "account_url") ;;
   rss_url <~ lift (getitem row "rss_url") ;;
   win <~ lift (x <- getitem row "trade win" ;; to_pct x) ;;
   ret <~ lift (x <- getitem row "Total return" ;; to_pct x) ;;
   tpd <~ lift (x <- getitem row "Trades per day" ;; to_pct x) ;;
   view <~ cur_execute META_UPSERT [acct_id; acct_url; rss_url; win; ret; tpd] view ;;
   feed_loop_unbatched strptime_isoformat TRADES_UPSERT
     {| sa := acct_id; url := acct_url; rss := rss_url;
        win := win; ret_ := ret; tpd := tpd |}
     feed no_summary view)%py.

Fixpoint accounts_loop (units : list (RosterRow * list Entry)) (view : DB) : M DB :=
  match units with
  | [] => Proc.ret view
  | (row, feed) :: rest =>
      (view' <~ account_body row feed view ;; accounts_loop rest view')%py
  end.

(** The script: one connection, every account in turn, one commit at the
    end.  Nothing catches an exception: the first one ends the script
    before the commit. *)
Definition script (units : list (RosterRow * list Entry)) : M unit :=
  (view <~ get_db_conn ;;
   view <~ accounts_loop units view ;;
   commit view ;;;
   close ;;;
   logging INFO "Done.  metadata rows + all trades upserted." [] None)%py.

End Timestamps.

End RssParser.

(* ===================================================================== *)
(** * gcp_csv.py                                                          *)
(* ===================================================================== *)

Module Csv.

(** A table as [pd.read_csv] returns it: the header and the data rows,
    each row holding one cell per column. *)
Record DataFrame : Type := {
  columns : list string;
  rows : list (list Val)
}.

(** A stored object: its name, and what
    [pd.read_csv(BytesIO(blob.download_as_bytes()), skiprows=1)] yields. *)
Record Blob : Type := {
  name : string;
  content : result DataFrame
}.

Definition UPSERT_SQL : Upsert := {|
  table := "historical_trades";
  insert_columns :=
    ["ticket"; "account_id"; "symbol"; "trade_type"; "entry_price";
     "exit_price"; "timestamp"; "lot_size"; "pnl"; "net_profit"; "mae";
     "mfe"; "pips"; "tp"; "sl"; "trade_duration_hours";
     "gpt_inferred_strategy"; "gpt_strategy_confidence";
     "gpt_trade_evaluation"; "gpt_alternative_action";
     "was_gpt_recommendation_followed"; "gpt_impact_alignment"];
  values := [repeat Param 22];
  conflict_target := "ticket";
  update_set :=
    ["account_id"; "symbol"; "trade_type"; "entry_price"; "exit_price";
     "timestamp"; "lot_size"; "pnl"; "net_profit"; "mae"; "mfe"; "pips";
     "tp"; "sl"; "trade_duration_hours"];
  set_ends_in_comma := false
|}.

Definition RENAME : list (string * string) :=
  [("Symbol", "symbol"); ("Buy/sell", "trade_type");
   ("Open price", "entry_price"); ("Close price", "exit_price");
   ("Lots", "lot_size"); ("Profit", "pnl"); ("Net profit", "net_profit");
   ("MAE", "mae"); ("MFE", "mfe"); ("Open time", "timestamp");
   ("Pips", "pips"); ("T/P", "tp"); ("S/L", "sl");
   ("Trade duration (hours)", "trade_duration_hours")].

Definition required : list string :=
  ["timestamp"; "symbol"; "trade_type"; "entry_price"; "exit_price";
   "lot_size"; "pnl"].

Definition numeric_columns : list string :=
  ["entry_price"; "exit_price"; "pnl"; "net_profit"; "mae"; "mfe"; "pips";
   "tp"; "sl"; "trade_duration_hours"].

Definition gpt_columns : list string :=
  ["gpt_inferred_strategy"; "gpt_strategy_confidence";
   "gpt_trade_evaluation"; "gpt_alternative_action";
   "was_gpt_recommendation_followed"; "gpt_impact_alignment"].

(** ** Paths *)

Fixpoint after_last_slash (cur : string) (s : string) : string :=
  match s with
  | EmptyString => cur
  | String c s' =>
      if Ascii.eqb c "/"%char then after_last_slash s' s'
      else after_last_slash cur s'
  end.

(** [os.path.basename(p)] *)
Definition basename (p : string) : string := after_last_slash p p.

(** [s.split(sep)[0]]: what precedes the first occurrence of [sep]. *)
Fixpoint split_head (sep : string) (s : string) : string :=
  if String.prefix sep s then EmptyString
  else match s with
       | EmptyString => EmptyString
       | String c s' => String c (split_head sep s')
       end.

(** ** Columns and cells *)

(** [c in df.columns] *)
Definition has_column (df : DataFrame) (c : string) : bool :=
  existsb (String.eqb c) (columns df).

(** The cell of row [r] under the first column named [c]. *)
Fixpoint cell (cols : list string) (r : list Val) (c : string) : option Val :=
  match cols, r with
  | c' :: cols', v :: r' => if String.eqb c c' then Some v else cell cols' r' c
  | _, _ => None
  end.

(** [r[c]] *)
Definition getitem (cols : list string) (r : list Val) (c : string) : result Val :=
  match cell cols r c with
  | Some v => Ok v
  | None => Raise (KeyError c)
  end.

(** [r.get(c)] *)
Definition get (cols : list string) (r : list Val) (c : string) : Val :=
  default VNone (cell cols r c).

Fixpoint set_cell (cols : list string) (r : list Val) (c : string) (v : Val)
  : list Val :=
  match cols, r with
  | c' :: cols', x :: r' =>
      if String.eqb c c' then v :: r' else x :: set_cell cols' r' c v
  | _, _ => r
  end.

Fixpoint drop_cell (cols : list string) (r : list Val) (c : string) : list Val :=
  match cols, r with
  | c' :: cols', x :: r' =>
      if String.eqb c c' then drop_cell cols' r' c
      else x :: drop_cell cols' r' c
  | _, _ => r
  end.

(** [df[c] = values]: the i-th row takes the i-th value; an existing
    column is overwritten, a new one is appended. *)
Definition assign (df : DataFrame) (c : string) (vals : list Val) : DataFrame :=
  let cellv i := nth i vals (VFloat FNaN) in
  if has_column df c then
    {| columns := columns df;
       rows := imap (fun i r => set_cell (columns df) r c (cellv i)) (rows df) |}
  else
    {| columns := (columns df ++ [c])%list;
       rows := imap (fun i r => (r ++ [cellv i])%list) (rows df) |}.

(** [df[c] = scalar] *)
Definition assign_scalar (df : DataFrame) (c : string) (v : Val) : DataFrame :=
  assign df c (repeat v (length (rows df))).

(** [df[c]] as a list of cells. *)
Definition series (df : DataFrame) (c : string) : list Val :=
  map (fun r => get (columns df) r c) (rows df).

(** [df.rename(columns=RENAME, inplace=True)] *)
Definition rename_column (c : string) : string :=
  match List.find (fun p => String.eqb c (fst p)) RENAME with
  | Some p => snd p
  | None => c
  end.

Definition rename (df : DataFrame) : DataFrame :=
  {| columns := map rename_column (columns df); rows := rows df |}.

(** [df.drop(columns=c, inplace=True)] *)
Definition drop (df : DataFrame) (c : string) : DataFrame :=
  {| columns := List.filter (fun c' => negb (String.eqb c c')) (columns df);
     rows := map (fun r => drop_cell (columns df) r c) (rows df) |}.

(** [df.setdefault(col, None)].  A [DataFrame] has no method of that
    name, and the attribute is looked up among the columns: without a
    column called [setdefault] the lookup raises [AttributeError]; with
    one, the column is what is called, and the call raises
    [TypeError]. *)
Definition setdefault (df : DataFrame) (col : string) : result DataFrame :=
  if has_column df "setdefault"
  then Raise (TypeError "'Series' object is not callable")
  else Raise (AttributeError "setdefault").

(** [drop_duplicates], default [keep="first"]: walk the rows in order
    and keep a row unless its key was already met. *)
Fixpoint keep_unseen {A} (key : A -> string) (seen : list string) (l : list A)
  : list A :=
  match l with
  | [] => []
  | x :: l' =>
      if existsb (String.eqb (key x)) seen then keep_unseen key seen l'
      else x :: keep_unseen key (key x :: seen) l'
  end.

(** [df.drop_duplicates(subset=c, inplace=True)] for a column of text. *)
Definition text (v : Val) : string :=
  match v with VStr s => s | _ => EmptyString end.

Definition drop_duplicates (df : DataFrame) (c : string) : DataFrame :=
  {| columns := columns df;
     rows := keep_unseen (fun r => text (get (columns df) r c)) [] (rows df) |}.

(** Every row holds one cell per column. *)
Definition aligned (df : DataFrame) : Prop :=
  Forall (fun r => length r = length (columns df)) (rows df).

(** The cells under the listed columns are numbers or null. *)
Definition numeric_cells (cs : list string) (df : DataFrame) : Prop :=
  forall c r v, In c cs -> In r (rows df) ->
                cell (columns df) r c = Some v -> numeric_or_null v = true.

Fixpoint mapM {A B} (f : A -> result B) (l : list A) : result (list B) :=
  match l with
  | [] => Ok []
  | x :: l' => (y <- f x ;; ys <- mapM f l' ;; Ok (y :: ys))%py
  end.

Section Libraries.

(** [pd.to_datetime(column, errors="coerce").dt.strftime("%Y-%m-%dT%H:%M:%S")]:
    for every cell the formatted text, or [nan] where the date parser
    gives up. *)
Variable to_datetime_strftime : list Val -> list Val.

(** [hashlib.md5(s.encode()).hexdigest()] *)
Variable md5_hexdigest : string -> string.

(** [str(x)] of a float, as an f-string prints it. *)
Variable float_str : pyfloat -> string.

(** The number [pd.to_numeric] reads in a text cell, [None] where its
    parser gives up.  The grammar is pandas' own: it is not that of
    [float()]. *)
Variable numeric_of_text : string -> option pyfloat.

(** One cell under [pd.to_numeric(..., errors="coerce")]: what is not
    read as a number becomes [nan]. *)
Definition to_numeric (v : Val) : Val :=
  match v with
  | VStr s =>
      match numeric_of_text s with
      | Some f => VFloat f
      | None => VFloat FNaN
      end
  | VNone => VFloat FNaN
  | _ => v
  end.

(** [if col in df: df[col] = pd.to_numeric(df[col], errors="coerce")] *)
Definition coerce_column (df : DataFrame) (col : string) : DataFrame :=
  if has_column df col then assign df col (map to_numeric (series df col))
  else df.

(** The loop over the coercion list. *)
Definition coerce (df : DataFrame) : DataFrame :=
  fold_left coerce_column numeric_columns df.

Definition str (v : Val) : string :=
  match v with
  | VStr s => s
  | VInt z => pretty z
  | VFloat f => float_str f
  | VNone => "None"
  end.

(** The [lambda r] of the hash column. *)
Definition row_hash (cols : list string) (r : list Val) : result string :=
  (a <- getitem cols r "account_id" ;;
   t <- getitem cols r "Ticket" ;;
   ts <- getitem cols r "timestamp" ;;
   Ok (md5_hexdigest (str a +:+ str t +:+ str ts)))%py.

(** The three statements under [if "Ticket" in df.columns]. *)
Definition dedupe (df : DataFrame) : result DataFrame :=
  (hs <- mapM (row_hash (columns df)) (rows df) ;;
   let df1 := assign df "__hash" (map VStr hs) in
   let df2 := drop_duplicates df1 "__hash" in
   Ok (drop df2 "__hash"))%py.

(** [if "Ticket" in df.columns: ...] *)
Definition dedupe_if_ticket (df : DataFrame) : result DataFrame :=
  if has_column df "Ticket" then dedupe df else Ok df.

(** The tuple appended to [vals] for row [r]. *)
Definition row_tuple (cols : list string) (r : list Val) : result (list Val) :=
  (ticket <- (t <- getitem cols r "Ticket" ;; int t) ;;
   account_id <- getitem cols r "account_id" ;;
   symbol <- getitem cols r "symbol" ;;
   trade_type <- getitem cols r "trade_type" ;;
   entry_price <- getitem cols r "entry_price" ;;
   exit_price <- getitem cols r "exit_price" ;;
   timestamp <- getitem cols r "timestamp" ;;
   lot_size <- getitem cols r "lot_size" ;;
   pnl <- getitem cols r "pnl" ;;
   g1 <- getitem cols r "gpt_inferred_strategy" ;;
   g2 <- getitem cols r "gpt_strategy_confidence" ;;
   g3 <- getitem cols r "gpt_trade_evaluation" ;;
   g4 <- getitem cols r "gpt_alternative_action" ;;
   g5 <- getitem cols r "was_gpt_recommendation_followed" ;;
   g6 <- getitem cols r "gpt_impact_alignment" ;;
   Ok [VInt ticket; account_id; symbol; trade_type; entry_price; exit_price;
       timestamp; lot_size; pnl;
       get cols r "net_profit"; get cols r "mae"; get cols r "mfe";
       get cols r "pips"; get cols r "tp"; get cols r "sl";
       get cols r "trade_duration_hours";
       g1; g2; g3; g4; g5; g6])%py.

(** The frame after the renames, the owner column and the timestamp
    clean-up, as it stands when the required columns are checked. *)
Definition prepare (blob_name : string) (df : DataFrame) : DataFrame :=
  let account_id := split_head ".csv" (basename blob_name) in
  let df := assign_scalar df "account_id" (VStr account_id) in
  let df := rename df in
  if has_column df "timestamp"
  then assign df "timestamp" (to_datetime_strftime (series df "timestamp"))
  else df.

(** The loop over the GPT placeholders:
    [for col in [...]: df.setdefault(col, None)]. *)
Definition placeholders (df : DataFrame) : result DataFrame :=
  fold_left (fun acc col => df <- acc ;; setdefault df col)%py
            gpt_columns (Ok df).

(** Numeric coercion, then the GPT placeholders. *)
Definition clean (df : DataFrame) : result DataFrame :=
  placeholders (coerce df).

(** The upsert step: open a connection, build one tuple per row, send
    them in one [executemany], commit, close, report. *)
Definition upsert_rows (blob_name : string) (df : DataFrame) : M unit :=
  (view <~ get_db_conn ;;
   vals <~ lift (mapM (row_tuple (columns df)) (rows df)) ;;
   view <~ cur_executemany UPSERT_SQL vals view ;;
   commit view ;;;
   close ;;;
   logging INFO "Finished {blob.name}: {len(vals)} rows upserted"
     [VStr blob_name; VInt (Z.of_nat (length vals))] None)%py.

(** From the parsed frame on: clean-up, required-columns check (with its
    early [return]), coercion, placeholders, dedupe and upsert. *)
Definition process_frame (blob_name : string) (df : DataFrame) : M unit :=
  (let df := prepare blob_name df in
   if negb (forallb (has_column df) required) then
     logging WARNING "Skipping {blob.name}: missing one of {required}"
       [VStr blob_name] None
   else
     df <~ lift (clean df) ;;
     df <~ lift (dedupe_if_ticket df) ;;
     upsert_rows blob_name df)%py.

Definition process_blob (blob : Blob) : M unit :=
  (try_except
     (logging INFO "Starting {blob.name}" [VStr (name blob)] None ;;;
      df <~ lift (content blob) ;;
      process_frame (name blob) df)
     (fun e => logging ERROR "Error processing {blob.name}: {e}"
                 [VStr (name blob)] (Some e)))%py.

(** [main()]: one future per blob; no future is asked for its result. *)
Definition main (blobs : list Blob) (w : World) : World :=
  fold_left (fun w b => snd (process_blob b w)) blobs w.

(** The identity hash of a row whose three cells exist. *)
Definition identity_hash (cols : list string) (r : list Val) : string :=
  md5_hexdigest (str (get cols r "account_id") +:+ str (get cols r "Ticket")
                 +:+ str (get cols r "timestamp")).

End Libraries.

End Csv.

(* ===================================================================== *)
(** * Sample inputs                                                       *)
(* ===================================================================== *)

Module Samples.

Definition world0 : World :=
  {| db := ∅; log := []; open_conns := 0; sent := [] |}.

(** [strptime] and [isoformat] on the one timestamp of the sample feed;
    every other text of the samples is one [strptime] rejects. *)
Definition strptime_isoformat (s : string) : option string :=
  if String.eqb s "Thu 21 Mar 2019 09:00:11"
  then Some "2019-03-21T09:00:11+00:00" else None.

Definition roster_row : Rss.RosterRow :=
  list_to_map
    [("username", VStr "acc1");
     ("account_url", VStr "https://www.fxblue.com/users/acc1");
     ("rss_url", VStr "https://www.fxblue.com/users/acc1/rss");
     ("trade win", VStr "55%");
     ("Total return", VStr "-");
     ("Trades per day", VFloat (FFin (3 # 2)))].

(** The same account with a trade-win cell written with a decimal comma. *)
Definition roster_row_bad_win : Rss.RosterRow :=
  <["trade win" := VStr "12,5%"]> roster_row.

(** A closed position; [lots], [openprice] and [tp] are left to choose. *)
Definition position (ticket lots openprice tp : string) : Rss.Entry :=
  list_to_map
    [("position_ticket", ticket); ("position_action", "buy");
     ("position_lots", lots); ("position_symbol", "EURUSD");
     ("position_openprice", openprice); ("position_closeprice", "1.12");
     ("position_opentime", "Thu 21 Mar 2019 09:00:11");
     ("position_closetime", "Thu 1 Jan 1970 00:00:00");
     ("position_profit", "200"); ("position_swap", "0.0");
     ("position_commission", "-1.5"); ("position_totalprofit", "198.5");
     ("position_tp", tp); ("position_sl", "1.05");
     ("position_magicnumber", "")].

(** A position whose numeric fields under the truthiness test are all
    empty. *)
Definition blank_position : Rss.Entry :=
  list_to_map
    [("position_ticket", "77"); ("position_action", "sell");
     ("position_lots", ""); ("position_symbol", "GBPUSD");
     ("position_openprice", ""); ("position_closeprice", "");
     ("position_opentime", "Thu 21 Mar 2019 09:00:11");
     ("position_closetime", "Thu 1 Jan 1970 00:00:00");
     ("position_profit", ""); ("position_swap", "");
     ("position_commission", ""); ("position_totalprofit", "");
     ("position_tp", "0"); ("position_sl", "0");
     ("position_magicnumber", "")].

(** A position entry that carries no take-profit field. *)
Definition position_without_tp : Rss.Entry :=
  delete "position_tp" (position "55" "1" "1.10" "0").

Definition account : Rss.Account :=
  {| Rss.sa := VStr "acc1"; Rss.url := VStr "u"; Rss.rss := VStr "r";
     Rss.win := VFloat (FFin (11 # 20)); Rss.ret_ := VNone;
     Rss.tpd := VFloat (FFin (3 # 2)) |}.

(** The date parser on the cells of the sample frames. *)
Definition to_datetime_strftime (cells : list Val) : list Val :=
  map (fun v => match v with
                | VStr "2024.01.02 03:04:05" => VStr "2024-01-02T03:04:05"
                | _ => VFloat FNaN
                end) cells.

(** [hashlib.md5] on the hash keys of the sample frames. *)
Definition md5_hexdigest (s : string) : string :=
  if String.eqb s "1001552024-01-02T03:04:05"
  then "7db681b7735befa7a3f8c463f040d179"
  else if String.eqb s "1001562024-01-02T03:04:05"
  then "2ea9484f454c6545f78668c4673650e7"
  else "d41d8cd98f00b204e9800998ecf8427e".

(** [str] on the floats of the sample frames. *)
Definition float_str (f : pyfloat) : string :=
  match f with
  | FNaN => "nan"
  | FInf false => "inf"
  | FInf true => "-inf"
  | FFin q => pretty (Qnum q) +:+ ".0"
  end.

Definition header : list string :=
  ["Ticket"; "Symbol"; "Buy/sell"; "Open price"; "Close price"; "Lots";
   "Profit"; "Open time"].

Definition trade_row (ticket : Val) (lots : Val) : list Val :=
  [ticket; VStr "EURUSD"; VStr "buy"; VFloat (FFin (11 # 10));
   VFloat (FFin (28 # 25)); lots; VInt 200; VStr "2024.01.02 03:04:05"].

(** [1001.csv]: two distinct trades. *)
Definition frame : Csv.DataFrame :=
  {| Csv.columns := header;
     Csv.rows := [trade_row (VInt 55) (VInt 1); trade_row (VInt 56) (VInt 2)] |}.

(** The same export with the first trade repeated at the end. *)
Definition frame_with_duplicate : Csv.DataFrame :=
  {| Csv.columns := header;
     Csv.rows := [trade_row (VInt 55) (VInt 1); trade_row (VInt 56) (VInt 2);
                  trade_row (VInt 55) (VInt 3)] |}.

(** [pd.to_numeric] on the text cells of the sample frames. *)
Definition numeric_of_text (s : string) : option pyfloat :=
  if String.eqb s "1.12" then Some (FFin (28 # 25)) else None.

(** The export with a repeated trade after the renames, the owner
    column, the timestamp clean-up and the coercion loop: a frame with
    the three columns the hash is made of. *)
Definition coerced_frame : Csv.DataFrame :=
  Csv.coerce numeric_of_text
             (Csv.prepare to_datetime_strftime "testcsvs/1001.csv"
                          frame_with_duplicate).

(** An export without the [Profit] column. *)
Definition frame_without_profit : Csv.DataFrame :=
  Csv.drop frame "Profit".

Definition blob (df : Csv.DataFrame) : Csv.Blob :=
  {| Csv.name := "testcsvs/1001.csv"; Csv.content := Ok df |}.

(** A parameter tuple for [UPSERT_SQL]: ticket 55 of account 1001. *)
Definition incoming : list Val :=
  [VInt 55; VStr "1001"; VStr "EURUSD"; VStr "buy"; VFloat (FFin (11 # 10));
   VFloat (FFin (28 # 25)); VStr "2024-01-02T03:04:05"; VInt 1; VInt 200;
   VNone; VNone; VNone; VNone; VNone; VNone; VNone;
   VNone; VNone; VNone; VNone; VNone; VNone].

(** Ticket 55 as stored by an earlier run and annotated since. *)
Definition annotated : Row :=
  <["gpt_inferred_strategy" := VStr "scalping"]>
    (<["pnl" := VInt 150]>
       (list_to_map (zip (insert_columns Csv.UPSERT_SQL) incoming))).

Definition store_with_annotation : DB :=
  {["historical_trades" := {[KInt 55 := annotated]}]}.

(** The tuple of ticket 55 sent again with three lots. *)
Definition incoming_again : list Val :=
  [VInt 55; VStr "1001"; VStr "EURUSD"; VStr "buy"; VFloat (FFin (11 # 10));
   VFloat (FFin (28 # 25)); VStr "2024-01-02T03:04:05"; VInt 3; VInt 200;
   VNone; VNone; VNone; VNone; VNone; VNone; VNone;
   VNone; VNone; VNone; VNone; VNone; VNone].

(** The metadata row of account [acc1] as an earlier run stored it, with
    a strategy written in since. *)
Definition metadata_with_annotation : DB :=
  {["account_metadata" :=
      {[KStr "acc1" :=
          list_to_map
            [("account_id", VStr "acc1"); ("account_url", VStr "old");
             ("rss_url", VStr "old"); ("trade_win", VNone);
             ("total_return", VNone); ("trades_per_day", VNone);
             ("strategy_inferred", VStr "trend following");
             ("gpt_comments", VNone)]]}]}.

(** A feed entry that carries the account summary. *)
Definition summary_entry : Rss.Entry :=
  list_to_map
    [("account_balance", "10000"); ("account_equity", "10100.5");
     ("account_floatingprofit", "100.5"); ("account_closedprofit", "0");
     ("account_freemargin", "9000")].

(** The same entry without its equity. *)
Definition summary_without_equity : Rss.Entry :=
  delete "account_equity" summary_entry.

(** An export whose close-price column holds, in its second row, text
    that is not a number: [read_csv] then leaves every cell of the column
    as text. *)
Definition frame_with_garbage_price : Csv.DataFrame :=
  {| Csv.columns := header;
     Csv.rows :=
       [[VInt 55; VStr "EURUSD"; VStr "buy"; VFloat (FFin (11 # 10));
         VStr "1.12"; VInt 1; VInt 200; VStr "2024.01.02 03:04:05"];
        [VInt 56; VStr "EURUSD"; VStr "buy"; VFloat (FFin (11 # 10));
         VStr "abc"; VInt 2; VInt 200; VStr "2024.01.02 03:04:05"]] |}.

End Samples.

Module PyTests.
Example float_plain : float_of_string "1.10" = Some (FFin (11 # 10)).
Proof. vm_compute. reflexivity. Qed.
Example float_zero : float_of_string "0" = Some (FFin 0).
Proof. vm_compute. reflexivity. Qed.
Example float_zero_dot : float_of_string "0.0" = Some (FFin 0).
Proof. vm_compute. reflexivity. Qed.
Example float_exp : float_of_string " -2.5e-1 " = Some (FFin (-1 # 4)).
Proof. vm_compute. reflexivity. Qed.
Example float_underscore : float_of_string "1_000." = Some (FFin 1000).
Proof. vm_compute. reflexivity. Qed.
Example float_inf : float_of_string "-Infinity" = Some (FInf true).
Proof. vm_compute. reflexivity. Qed.
Example float_garbage : float_of_string "abc" = None.
Proof. vm_compute. reflexivity. Qed.
Example float_empty : float_of_string "" = None.
Proof. vm_compute. reflexivity. Qed.
Example float_dot : float_of_string "." = None.
Proof. vm_compute. reflexivity. Qed.
Example float_percent : float_of_string "55%" = None.
Proof. vm_compute. reflexivity. Qed.
Example int_plain : int_of_string " 55 " = Some 55.
Proof. vm_compute. reflexivity. Qed.
Example int_float_text : int_of_string "55.0" = None.
Proof. vm_compute. reflexivity. Qed.
Example int_trunc : int (VFloat (FFin (-557 # 10))) = Ok (-55).
Proof. vm_compute. reflexivity. Qed.
End PyTests.

(* ===================================================================== *)
(** * Facts about the store                                               *)
(* ===================================================================== *)

Module SqlFacts.

Lemma same_outcome_refl {A} (r : result A) : same_outcome r r.
Proof. destruct r; simpl; auto. Qed.

Lemma same_outcome_sym {A} (r1 r2 : result A) :
  same_outcome r1 r2 -> same_outcome r2 r1.
Proof. destruct r1, r2; simpl; auto. Qed.

Lemma same_outcome_trans {A} (r1 r2 r3 : result A) :
  same_outcome r1 r2 -> same_outcome r2 r3 -> same_outcome r1 r3.
Proof. destruct r1, r2, r3; simpl; try tauto; congruence. Qed.

Lemma column_zip (cols : list string) (vs : list Val) (c : string) :
  column (list_to_map (zip cols vs)) c = lookup_column cols vs c.
Proof.
  revert vs. induction cols as [|c' cols IH]; intros [|v vs]; simpl; try reflexivity.
  unfold column in *. destruct (String.eqb_spec c c') as [->|Hne].
  - now rewrite lookup_insert_eq.
  - rewrite lookup_insert_ne by congruence. apply IH.
Qed.

Lemma executemany_app (stmt : Upsert) (s1 s2 : list (list Val)) (d : DB) :
  executemany stmt (s1 ++ s2) d
  = Py.bind (executemany stmt s1 d) (executemany stmt s2).
Proof.
  revert d. induction s1 as [|p s1 IH]; intros d; simpl; [reflexivity|].
  destruct (execute stmt p d); simpl; auto.
Qed.

(** Updating with the proposed row sets exactly the listed columns. *)
Lemma do_update_listed (stmt : Upsert) (old ex : Row) (c : string) :
  In c (update_set stmt) -> do_update stmt old ex !! c = Some (column ex c).
Proof.
  unfold do_update. induction (update_set stmt) as [|c' l IH]; simpl; [tauto|].
  intros [->|Hin].
  - apply lookup_insert_eq.
  - destruct (decide (c' = c)) as [->|Hne].
    + apply lookup_insert_eq.
    + rewrite lookup_insert_ne by exact Hne. auto.
Qed.

Lemma do_update_unlisted (stmt : Upsert) (old ex : Row) (c : string) :
  ~ In c (update_set stmt) -> do_update stmt old ex !! c = old !! c.
Proof.
  unfold do_update. induction (update_set stmt) as [|c' l IH]; simpl; [tauto|].
  intros Hn. rewrite lookup_insert_ne by tauto. apply IH. tauto.
Qed.

(** A row that already carries the proposed values is left as it is. *)
Lemma do_update_fixed (stmt : Upsert) (r ex : Row) :
  (forall c, In c (update_set stmt) -> r !! c = Some (column ex c)) ->
  do_update stmt r ex = r.
Proof.
  unfold do_update. induction (update_set stmt) as [|c' l IH]; simpl; intros H.
  - reflexivity.
  - rewrite IH by auto. apply insert_id. auto.
Qed.

Lemma do_update_twice (stmt : Upsert) (old ex : Row) :
  do_update stmt (do_update stmt old ex) ex = do_update stmt old ex.
Proof. apply do_update_fixed. intros c Hc. now apply do_update_listed. Qed.

Lemma lookup_zip_is_Some (cols : list string) (vs : list Val) (c : string) :
  length vs = length cols -> In c cols ->
  (list_to_map (zip cols vs) : Row) !! c = Some (lookup_column cols vs c).
Proof.
  revert vs. induction cols as [|c' cols IH]; intros [|v vs]; simpl;
    try tauto; try discriminate.
  intros Hlen Hin. destruct (String.eqb_spec c c') as [->|Hne].
  - apply lookup_insert_eq.
  - rewrite lookup_insert_ne by congruence.
    apply IH; [lia|]. destruct Hin; congruence.
Qed.

Lemma upsert_row_twice (stmt : Upsert) (ex : Row) (k : Key) (tbl : Table) :
  (forall c, In c (update_set stmt) -> ex !! c = Some (column ex c)) ->
  upsert_row stmt ex k (upsert_row stmt ex k tbl) = upsert_row stmt ex k tbl.
Proof.
  intros Hex. unfold upsert_row at 2 3.
  destruct (tbl !! k) as [old|] eqn:Hk; unfold upsert_row;
    rewrite lookup_insert_eq, insert_insert_eq.
  - now rewrite do_update_twice.
  - now rewrite do_update_fixed.
Qed.

Lemma bind_values_length (vs : list SqlExpr) (params l : list Val) :
  bind_values vs params = Some l -> length l = length vs.
Proof.
  revert params l. induction vs as [|[|] vs IH]; intros params l.
  - destruct params; simpl; [intros [= <-]; reflexivity | discriminate].
  - destruct params as [|p ps]; simpl; [discriminate|].
    destruct (bind_values vs ps) as [l'|] eqn:E; simpl; [|discriminate].
    intros [= <-]. simpl. f_equal. eauto.
  - simpl. destruct (bind_values vs params) as [l'|] eqn:E; simpl; [|discriminate].
    intros [= <-]. simpl. f_equal. eauto.
Qed.

(** A statement the store parses: one group, one expression per
    column, no comma at the end of the [SET] list. *)
Lemma parses_inv (stmt : Upsert) :
  parses stmt = true ->
  exists g, values stmt = [g] /\ length g = length (insert_columns stmt) /\
            set_ends_in_comma stmt = false.
Proof.
  unfold parses. intros H. apply andb_true_iff in H as [Hg Hc].
  apply negb_true_iff in Hc.
  destruct (values stmt) as [|g [|g' gs]]; try discriminate.
  apply Nat.eqb_eq in Hg. eauto.
Qed.

(** A statement the store does not parse is rejected whatever the
    tuple. *)
Lemma excluded_row_rejected (stmt : Upsert) (params : list Val) :
  parses stmt = false -> exists e, excluded_row stmt params = Raise e.
Proof.
  intros Hp. unfold excluded_row. rewrite Hp.
  destruct (bind_values _ params); eauto.
Qed.

Lemma execute_rejected (stmt : Upsert) (params : list Val) (d : DB) :
  parses stmt = false -> exists e, execute stmt params d = Raise e.
Proof.
  intros Hp. unfold execute.
  destruct (excluded_row_rejected stmt params Hp) as [e ->]. eauto.
Qed.

(** What an accepted tuple went through: the statement parses, and the
    proposed row pairs the columns with the bound values, one each. *)
Lemma excluded_row_inv (stmt : Upsert) (params : list Val) (ex : Row) :
  excluded_row stmt params = Ok ex ->
  exists vs, bind_values (concat (values stmt)) params = Some vs /\
             parses stmt = true /\
             length vs = length (insert_columns stmt) /\
             ex = list_to_map (zip (insert_columns stmt) vs).
Proof.
  unfold excluded_row.
  destruct (bind_values _ params) as [vs|] eqn:Hb; [|discriminate].
  destruct (parses stmt) eqn:Hp; [|discriminate].
  intros [= <-]. exists vs. split; [reflexivity|]. split; [reflexivity|].
  split; [|reflexivity].
  destruct (parses_inv stmt Hp) as (g & Hg & Hlen & _).
  rewrite Hg in Hb. cbn [concat] in Hb. rewrite app_nil_r in Hb.
  apply bind_values_length in Hb. congruence.
Qed.

(** Every column of the [SET] list is a column of the proposed row. *)
Lemma excluded_row_listed (stmt : Upsert) (params : list Val) (ex : Row)
  (c : string) :
  (forall c, In c (update_set stmt) -> In c (insert_columns stmt)) ->
  excluded_row stmt params = Ok ex -> In c (update_set stmt) ->
  ex !! c = Some (column ex c).
Proof.
  intros Hsub Hex Hc.
  apply excluded_row_inv in Hex as (vs & _ & _ & Hlen & ->).
  rewrite column_zip. apply lookup_zip_is_Some; auto.
Qed.

(** Executing an upsert twice with the same parameters is the same as
    executing it once. *)
Lemma execute_twice (stmt : Upsert) (params : list Val) (d : DB) :
  (forall c, In c (update_set stmt) -> In c (insert_columns stmt)) ->
  Py.bind (execute stmt params d) (execute stmt params) = execute stmt params d.
Proof.
  intros Hsub. unfold execute.
  destruct (excluded_row stmt params) as [ex|e] eqn:Hex; cbn [Py.bind]; [|reflexivity].
  destruct (key_of_val _) as [k|e]; cbn [Py.bind]; [|reflexivity].
  f_equal. unfold get_table. rewrite lookup_insert_eq. cbn [default].
  rewrite insert_insert_eq. f_equal. apply upsert_row_twice.
  intros c Hc. eapply excluded_row_listed; eauto.
Qed.

Lemma bind_values_params (n : nat) (params l : list Val) :
  bind_values (repeat Param n) params = Some l -> l = params.
Proof.
  revert params l. induction n as [|n IH]; intros [|p ps] l; simpl; try discriminate.
  - now intros [= <-].
  - destruct (bind_values (repeat Param n) ps) as [l'|] eqn:E; simpl; [|discriminate].
    intros [= <-]. f_equal. eauto.
Qed.

Lemma incl_check (l1 l2 : list string) :
  forallb (fun c => existsb (String.eqb c) l2) l1 = true ->
  forall c, In c l1 -> In c l2.
Proof.
  rewrite forallb_forall. intros H c Hc. specialize (H c Hc).
  apply existsb_exists in H as (c' & Hin & Heq).
  apply String.eqb_eq in Heq. now subst.
Qed.

Lemma disjoint_check (l1 l2 : list string) :
  forallb (fun c => negb (existsb (String.eqb c) l2)) l1 = true ->
  forall c, In c l1 -> ~ In c l2.
Proof.
  rewrite forallb_forall. intros H c Hc Hin. specialize (H c Hc).
  apply negb_true_iff in H.
  assert (existsb (String.eqb c) l2 = true) as E; [|congruence].
  apply existsb_exists. exists c. split; [assumption|apply String.eqb_refl].
Qed.

Lemma well_formed_check (stmt : Upsert) :
  parses stmt = true ->
  forallb (fun c => existsb (String.eqb c) (insert_columns stmt))
          (update_set stmt) = true ->
  well_formed stmt.
Proof. intros Hp Hsub. split; [exact Hp|now apply incl_check]. Qed.

Lemma UPSERT_SQL_well_formed : well_formed Csv.UPSERT_SQL.
Proof. apply well_formed_check; reflexivity. Qed.

Lemma META_UPSERT_well_formed : well_formed Rss.META_UPSERT.
Proof. apply well_formed_check; reflexivity. Qed.

(** ** The trade statements of the feed *)

(** The statement [gcp_rss.py] builds has thirty-one groups after
    [VALUES], and its [SET] list ends in a comma. *)
Lemma trades_stmt_groups :
  values Rss.trades_stmt = repeat [Param] 31 /\
  set_ends_in_comma Rss.trades_stmt = true /\
  parses Rss.trades_stmt = false.
Proof. repeat split. Qed.

(** The statement of [rss_parser.py] has its thirty-one placeholders in
    one group, and the same comma at the end of its [SET] list. *)
Lemma script_stmt_groups :
  values RssParser.TRADES_UPSERT = [repeat Param 31] /\
  set_ends_in_comma RssParser.TRADES_UPSERT = true /\
  parses RssParser.TRADES_UPSERT = false.
Proof. repeat split. Qed.

(** The store rejects every tuple sent with either statement. *)
Lemma trades_stmt_rejected (params : list Val) (d : DB) :
  exists e, execute Rss.trades_stmt params d = Raise e.
Proof. apply execute_rejected. reflexivity. Qed.

Lemma script_stmt_rejected (params : list Val) (d : DB) :
  exists e, execute RssParser.TRADES_UPSERT params d = Raise e.
Proof. apply execute_rejected. reflexivity. Qed.

(** A sequence the store accepted with a statement it does not parse was
    empty. *)
Lemma executemany_rejected (stmt : Upsert) (seq : list (list Val)) (d d' : DB) :
  parses stmt = false -> executemany stmt seq d = Ok d' -> seq = [] /\ d' = d.
Proof.
  intros Hp. destruct seq as [|p seq]; simpl.
  - intros [= <-]. auto.
  - destruct (execute_rejected stmt p d Hp) as [e ->]. discriminate.
Qed.

Lemma get_table_insert (d : DB) (t : string) (tbl : Table) :
  get_table (<[t := tbl]> d) t = tbl.
Proof. unfold get_table. now rewrite lookup_insert_eq. Qed.

(** An upsert leaves every stored row in place, with the columns outside
    the [SET] list as they were. *)
Lemma execute_keeps_unlisted (stmt : Upsert) (params : list Val) (d d' : DB)
  (k : Key) (old : Row) :
  execute stmt params d = Ok d' ->
  get_table d (table stmt) !! k = Some old ->
  exists new, get_table d' (table stmt) !! k = Some new /\
              forall c, ~ In c (update_set stmt) -> new !! c = old !! c.
Proof.
  unfold execute. destruct (excluded_row stmt params) as [ex|e]; cbn [Py.bind]; [|discriminate].
  destruct (key_of_val _) as [k0|e]; cbn [Py.bind]; [|discriminate].
  intros [= <-] Hold. rewrite get_table_insert.
  unfold upsert_row. destruct (decide (k0 = k)) as [->|Hne].
  - rewrite Hold, lookup_insert_eq. eexists. split; [reflexivity|].
    intros c Hc. now apply do_update_unlisted.
  - exists old. split; [|reflexivity].
    destruct (get_table d (table stmt) !! k0); now rewrite lookup_insert_ne.
Qed.

(** With one placeholder per column, the proposed row is the tuple read
    against the column list. *)
Lemma excluded_row_all_params (stmt : Upsert) (params : list Val) :
  values stmt = [repeat Param (length (insert_columns stmt))] ->
  set_ends_in_comma stmt = false ->
  length params = length (insert_columns stmt) ->
  excluded_row stmt params = Ok (list_to_map (zip (insert_columns stmt) params)).
Proof.
  intros Hvals Hcomma Hlen. unfold excluded_row, parses.
  rewrite Hvals, Hcomma. cbn [concat]. rewrite app_nil_r, repeat_length, Nat.eqb_refl.
  cbn [andb negb]. rewrite <- Hlen.
  assert (bind_values (repeat Param (length params)) params = Some params) as ->;
    [|reflexivity].
  clear. induction params as [|p ps IH]; simpl; [reflexivity|now rewrite IH].
Qed.

(** C2, of the two trade statements.  The upsert of [gcp_csv.py] does as
    the claim says: its SET list is every inserted column but the key
    and the enrichment placeholders; on a conflict on [ticket] every
    column of the SET list takes the incoming value and the placeholders
    of the stored row are left as they were, so none that is set is reset
    to null; and executing it twice leaves the store as executing it once
    does.  The upsert of the feed does not: the statement [gcp_rss.py]
    builds, with its thirty-one groups after [VALUES] and the comma that
    ends its SET list, and the statement of [rss_parser.py], with the
    same comma, are rejected by the store whatever the tuple and whatever
    the store holds, so on a conflict no field of a stored trade is
    overwritten. *)
Theorem csv_upsert_overwrites_and_feed_upsert_is_rejected :
  (forall c, In c (insert_columns Csv.UPSERT_SQL) ->
             c = "ticket" \/ In c Csv.gpt_columns \/
             In c (update_set Csv.UPSERT_SQL)) /\
  (forall params d k old,
      key_of_val (field Csv.UPSERT_SQL params "ticket") = Ok k ->
      length params = length (insert_columns Csv.UPSERT_SQL) ->
      get_table d "historical_trades" !! k = Some old ->
      exists d' new,
        execute Csv.UPSERT_SQL params d = Ok d' /\
        get_table d' "historical_trades" !! k = Some new /\
        (forall c, In c (update_set Csv.UPSERT_SQL) ->
                   new !! c = Some (field Csv.UPSERT_SQL params c)) /\
        (forall c, In c Csv.gpt_columns -> new !! c = old !! c)) /\
  (forall params d d' k old,
      execute Csv.UPSERT_SQL params d = Ok d' ->
      get_table d "historical_trades" !! k = Some old ->
      exists new, get_table d' "historical_trades" !! k = Some new /\
                  forall c, In c Csv.gpt_columns -> new !! c = old !! c) /\
  (forall params d,
      Py.bind (execute Csv.UPSERT_SQL params d) (execute Csv.UPSERT_SQL params)
      = execute Csv.UPSERT_SQL params d) /\
  (forall params d,
      exists e, execute Rss.trades_stmt params d = Raise e) /\
  (forall params d,
      exists e, execute RssParser.TRADES_UPSERT params d = Raise e) /\
  (forall params d,
      length params = length (insert_columns Rss.trades_stmt) ->
      execute Rss.trades_stmt params d = Raise (DatabaseError "syntax error") /\
      execute RssParser.TRADES_UPSERT params d
      = Raise (DatabaseError "syntax error")).
Proof.
  assert (forall c, In c Csv.gpt_columns -> ~ In c (update_set Csv.UPSERT_SQL))
    as Hdisj by now apply disjoint_check.
  split; [|split; [|split; [|split; [|split; [|split]]]]].
  - intros c Hc. simpl in Hc.
    repeat (destruct Hc as [<-|Hc]; [simpl; tauto|]). contradiction.
  - intros params d k old Hk Hlen Hold.
    unfold execute.
    rewrite (excluded_row_all_params Csv.UPSERT_SQL params eq_refl eq_refl Hlen).
    cbn [Py.bind]. rewrite column_zip.
    change (lookup_column (insert_columns Csv.UPSERT_SQL) params
                          (conflict_target Csv.UPSERT_SQL))
      with (field Csv.UPSERT_SQL params "ticket").
    rewrite Hk. cbn [Py.bind].
    eexists _, _. split; [reflexivity|].
    change (table Csv.UPSERT_SQL) with "historical_trades".
    rewrite get_table_insert.
    unfold upsert_row. rewrite Hold, lookup_insert_eq.
    split; [reflexivity|]. split.
    + intros c Hc. rewrite do_update_listed by assumption.
      now rewrite column_zip.
    + intros c Hc. apply do_update_unlisted. auto.
  - intros params d d' k old Hexec Hold.
    destruct (execute_keeps_unlisted _ _ _ _ _ _ Hexec Hold) as (new & Hnew & Hkeep).
    exists new. split; [assumption|]. intros c Hc. apply Hkeep. auto.
  - intros params d. apply execute_twice. apply UPSERT_SQL_well_formed.
  - apply trades_stmt_rejected.
  - apply script_stmt_rejected.
  - intros params d Hlen. unfold execute, excluded_row.
    change (concat (values Rss.trades_stmt)) with (repeat Param 31).
    change (concat (values RssParser.TRADES_UPSERT)) with (repeat Param 31).
    change (length (insert_columns Rss.trades_stmt)) with 31%nat in Hlen.
    assert (bind_values (repeat Param 31) params = Some params) as ->.
    { rewrite <- Hlen. clear. induction params as [|p ps IH]; simpl;
        [reflexivity|now rewrite IH]. }
    split; reflexivity.
Qed.

Lemma csv_upsert_overwrites_and_feed_upsert_is_rejected_witness :
  exists d' new,
    execute Csv.UPSERT_SQL Samples.incoming Samples.store_with_annotation = Ok d' /\
    get_table d' "historical_trades" !! KInt 55 = Some new /\
    new !! "pnl" = Some (VInt 200) /\
    new !! "gpt_inferred_strategy" = Some (VStr "scalping").
Proof.
  destruct csv_upsert_overwrites_and_feed_upsert_is_rejected
    as (_ & Hconflict & _).
  destruct (Hconflict Samples.incoming Samples.store_with_annotation
              (KInt 55) Samples.annotated eq_refl eq_refl)
    as (d' & new & Hexec & Hnew & Hset & Hkeep).
  - unfold Samples.store_with_annotation, get_table.
    rewrite lookup_singleton_eq. apply lookup_singleton_eq.
  - exists d', new. split; [exact Hexec|]. split; [exact Hnew|]. split.
    + apply (Hset "pnl"). simpl. tauto.
    + rewrite (Hkeep "gpt_inferred_strategy") by (simpl; tauto).
      apply lookup_insert_eq.
Defined.

End SqlFacts.

(* ===================================================================== *)
(** * Facts about the processing monad                                    *)
(* ===================================================================== *)

Module ProcFacts.

Lemma sends_refl tbl P w : sends tbl P w w.
Proof.
  repeat split. exists []. simpl. rewrite app_nil_r. auto.
Qed.

Lemma sends_trans tbl P w1 w2 w3 :
  sends tbl P w1 w2 -> sends tbl P w2 w3 -> sends tbl P w1 w3.
Proof.
  intros (Hd & Hl & Ho & ts & Hs & HP) (Hd' & Hl' & Ho' & ts' & Hs' & HP').
  repeat split; try congruence.
  exists (ts ++ ts')%list. split.
  - rewrite Hs', Hs, map_app, app_assoc. reflexivity.
  - apply Forall_app. auto.
Qed.

Lemma cur_execute_sends stmt params view w P :
  P params ->
  fst (cur_execute stmt params view w) = execute stmt params view /\
  sends (table stmt) P w (snd (cur_execute stmt params view w)).
Proof.
  intros HP. split; [reflexivity|]. repeat split.
  exists [params]. split; [reflexivity|]. auto.
Qed.

Lemma cur_executemany_sends stmt P seq : forall view w,
  Forall P seq ->
  fst (cur_executemany stmt seq view w) = executemany stmt seq view /\
  sends (table stmt) P w (snd (cur_executemany stmt seq view w)).
Proof.
  induction seq as [|p seq IH]; intros view w HP.
  - split; [reflexivity|apply sends_refl].
  - apply Forall_cons in HP as [Hp HP]. simpl. unfold bindM.
    destruct (cur_execute_sends stmt p view w P Hp) as [Hr Hs].
    destruct (cur_execute stmt p view w) as [[v'|e] w1] eqn:E; simpl in Hr, Hs;
      rewrite <- Hr; cbn [Py.bind].
    + destruct (IH v' w1 HP) as [Hr' Hs']. split; [assumption|].
      eapply sends_trans; eauto.
    + split; [reflexivity|assumption].
Qed.

(** ** Running a processor step by step *)

Lemma bindM_ok {A B} (m : M A) (k : A -> M B) w a w1 :
  m w = (Ok a, w1) -> bindM m k w = k a w1.
Proof. unfold bindM. now intros ->. Qed.

Lemma bindM_raise {A B} (m : M A) (k : A -> M B) w e w1 :
  m w = (Raise e, w1) -> bindM m k w = (Raise e, w1).
Proof. unfold bindM. now intros ->. Qed.

Lemma try_except_ok {A} (body : M A) (handler : exn -> M A) w a w1 :
  body w = (Ok a, w1) -> try_except body handler w = (Ok a, w1).
Proof. unfold try_except. now intros ->. Qed.

Lemma try_except_raise {A} (body : M A) (handler : exn -> M A) w e w1 :
  body w = (Raise e, w1) -> try_except body handler w = handler e w1.
Proof. unfold try_except. now intros ->. Qed.

Lemma lift_ok {A B} (r : result A) (k : A -> M B) w a :
  r = Ok a -> bindM (lift r) k w = k a w.
Proof. now intros ->. Qed.

Lemma lift_raise {A B} (r : result A) (k : A -> M B) w e :
  r = Raise e -> bindM (lift r) k w = (Raise e, w).
Proof. now intros ->. Qed.

Section SendsOnly.

Variable Q : string -> list Val -> Prop.

Lemma sends_nothing {A} (m : M A) :
  (forall w, sent (snd (m w)) = sent w) -> sends_only Q m.
Proof.
  intros H w. exists []. rewrite H. simpl. rewrite app_nil_r. auto.
Qed.

Lemma sends_only_lift {A} (r : result A) : sends_only Q (lift r).
Proof. now apply sends_nothing. Qed.

Lemma sends_only_ret {A} (a : A) : sends_only Q (Proc.ret a).
Proof. now apply sends_nothing. Qed.

Lemma sends_only_logging lvl msg vals exc :
  sends_only Q (logging lvl msg vals exc).
Proof. now apply sends_nothing. Qed.

Lemma sends_only_get_db_conn : sends_only Q get_db_conn.
Proof. now apply sends_nothing. Qed.

Lemma sends_only_commit view : sends_only Q (commit view).
Proof. now apply sends_nothing. Qed.

Lemma sends_only_close : sends_only Q close.
Proof. now apply sends_nothing. Qed.

Lemma sends_only_cur_execute stmt params view :
  Q (table stmt) params -> sends_only Q (cur_execute stmt params view).
Proof.
  intros H w. exists [(table stmt, params)]. split; [reflexivity|].
  constructor; [exact H|constructor].
Qed.

Lemma sends_only_bind {A B} (m : M A) (k : A -> M B) :
  sends_only Q m ->
  (forall a, (exists w, fst (m w) = Ok a) -> sends_only Q (k a)) ->
  sends_only Q (bindM m k).
Proof.
  intros Hm Hk w. unfold bindM. destruct (Hm w) as (ts & Hs & Hts).
  destruct (m w) as [[a|e] w1] eqn:E; cbn [snd] in Hs.
  - destruct (Hk a (ex_intro _ w (f_equal fst E)) w1) as (ts' & Hs' & Hts').
    exists (ts ++ ts'). split.
    + rewrite Hs', Hs, app_assoc. reflexivity.
    + apply Forall_app. auto.
  - exists ts. auto.
Qed.

Lemma sends_only_bind_lift {A B} (r : result A) (k : A -> M B) :
  (forall a, r = Ok a -> sends_only Q (k a)) ->
  sends_only Q (bindM (lift r) k).
Proof.
  intros Hk. apply sends_only_bind; [apply sends_only_lift|].
  intros a [w Hw]. apply Hk. exact Hw.
Qed.

Lemma sends_only_try {A} (body : M A) (handler : exn -> M A) :
  sends_only Q body -> (forall e, sends_only Q (handler e)) ->
  sends_only Q (try_except body handler).
Proof.
  intros Hb Hh w. unfold try_except. destruct (Hb w) as (ts & Hs & Hts).
  destruct (body w) as [[a|e] w1]; cbn [snd] in Hs.
  - exists ts. auto.
  - destruct (Hh e w1) as (ts' & Hs' & Hts').
    exists (ts ++ ts'). split.
    + rewrite Hs', Hs, app_assoc. reflexivity.
    + apply Forall_app. auto.
Qed.

Lemma sends_only_sends {A} (m : M A) tbl P :
  (forall t, P t -> Q tbl t) ->
  (forall w, sends tbl P w (snd (m w))) -> sends_only Q m.
Proof.
  intros HPQ H w. destruct (H w) as (_ & _ & _ & ts & Hs & Hts).
  exists (map (pair tbl) ts). split; [exact Hs|].
  apply List.Forall_forall. intros p Hp.
  apply in_map_iff in Hp as (t & <- & Ht).
  rewrite List.Forall_forall in Hts. simpl. auto.
Qed.

Lemma sent_since_sends_only {A} (m : M A) tbl w t :
  sends_only Q m -> sent_since tbl w (snd (m w)) t -> Q tbl t.
Proof.
  intros Hm (new & Hnew & Hin). destruct (Hm w) as (ts & Hs & Hts).
  rewrite Hs in Hnew. apply app_inv_head in Hnew. subst new.
  rewrite List.Forall_forall in Hts. apply (Hts _ Hin).
Qed.

End SendsOnly.

End ProcFacts.

(* ===================================================================== *)
(** * Facts about gcp_rss.py                                              *)
(* ===================================================================== *)

Module RssFacts.

Import Rss ProcFacts SqlFacts.

Ltac invert_binds H :=
  repeat match type of H with
         | Py.bind ?r _ = Ok _ =>
             let E := fresh "E" in
             destruct r eqn:E; cbn [Py.bind] in H; [|discriminate H]
         end.

Lemma attr_inv item n x : attr item n = Ok x -> item !! n = Some x.
Proof. unfold attr. destruct (item !! n); [now intros [= ->]|discriminate]. Qed.

Lemma attr_absent item n : item !! n = None -> attr item n = Raise (AttributeError n).
Proof. unfold attr. now intros ->. Qed.

Lemma truthy_false s : truthy s = false <-> s = "".
Proof.
  unfold truthy. rewrite negb_false_iff. apply String.eqb_eq.
Qed.

Lemma float_inv s f : float (VStr s) = Ok f -> float_of_string s = Some f.
Proof. simpl. destruct (float_of_string s); [now intros [= ->]|discriminate]. Qed.

Lemma int_inv s z : int (VStr s) = Ok z -> int_of_string s = Some z.
Proof. simpl. destruct (int_of_string s); [now intros [= ->]|discriminate]. Qed.

Lemma float_if_set_inv item n v :
  float_if_set item n = Ok v ->
  exists x, item !! n = Some x /\
            ((x = "" /\ v = VNone) \/
             (x <> "" /\ exists f, float_of_string x = Some f /\ v = VFloat f)).
Proof.
  unfold float_if_set. intros H. invert_binds H.
  apply attr_inv in E. exists a. split; [assumption|].
  destruct (truthy a) eqn:T.
  - right. split; [intros ->; discriminate T|].
    invert_binds H. injection H as <-. apply float_inv in E0. eauto.
  - left. apply truthy_false in T. injection H as <-. auto.
Qed.

Lemma int_if_set_inv item n v :
  int_if_set item n = Ok v ->
  exists x, item !! n = Some x /\
            ((x = "" /\ v = VNone) \/
             (x <> "" /\ exists z, int_of_string x = Some z /\ v = VInt z)).
Proof.
  unfold int_if_set. intros H. invert_binds H.
  apply attr_inv in E. exists a. split; [assumption|].
  destruct (truthy a) eqn:T.
  - right. split; [intros ->; discriminate T|].
    invert_binds H. injection H as <-. apply int_inv in E0. eauto.
  - left. apply truthy_false in T. injection H as <-. auto.
Qed.

Lemma float_unless_zero_inv item n v :
  float_unless_zero item n = Ok v ->
  exists x, item !! n = Some x /\
            ((x = "0" /\ v = VNone) \/
             (x <> "0" /\ exists f, float_of_string x = Some f /\ v = VFloat f)).
Proof.
  unfold float_unless_zero. intros H. invert_binds H.
  apply attr_inv in E. exists a. split; [assumption|].
  destruct (String.eqb_spec a "0") as [->|Hne]; cbn [negb] in H.
  - left. injection H as <-. auto.
  - right. split; [assumption|].
    invert_binds H. injection H as <-. apply float_inv in E0. eauto.
Qed.

Lemma to_pct_numeric x v : to_pct x = Ok v -> numeric_or_null v = true.
Proof.
  unfold to_pct. destruct (_ || _).
  - now intros [= <-].
  - destruct x; intros H; invert_binds H; now injection H as <-.
Qed.

Lemma account_summary_numeric s item s' :
  summary_numeric s -> account_summary s item = Ok s' -> summary_numeric s'.
Proof.
  unfold account_summary. destruct (hasattr item "account_balance").
  - intros _ H. invert_binds H. injection H as <-. repeat split.
  - now intros Hs [= <-].
Qed.

Section Timestamps.

Variable strptime_isoformat : string -> option string.

Abbreviation position_tuple := (Rss.position_tuple strptime_isoformat).
Abbreviation feed_loop := (Rss.feed_loop strptime_isoformat).
Abbreviation normalize_feed := (Rss.normalize_feed strptime_isoformat).
Abbreviation feed_loop_unbatched := (Rss.feed_loop_unbatched strptime_isoformat).
Abbreviation process_account := (Rss.process_account strptime_isoformat).
Abbreviation process_account_unbatched :=
  (Rss.process_account_unbatched strptime_isoformat).

(** What a successful [position_tuple] went through, field by field. *)
Lemma position_tuple_inv a s item t :
  position_tuple a s item = Ok t ->
  exists ticket action lots symbol op cl ot ct profit swap comm tpft tp sl mag,
    Py.bind (attr item "position_ticket") (fun x => int (VStr x)) = Ok ticket /\
    attr item "position_action" = Ok action /\
    float_if_set item "position_lots" = Ok lots /\
    attr item "position_symbol" = Ok symbol /\
    float_if_set item "position_openprice" = Ok op /\
    float_if_set item "position_closeprice" = Ok cl /\
    float_if_set item "position_profit" = Ok profit /\
    float_if_set item "position_swap" = Ok swap /\
    float_if_set item "position_commission" = Ok comm /\
    float_if_set item "position_totalprofit" = Ok tpft /\
    float_unless_zero item "position_tp" = Ok tp /\
    float_unless_zero item "position_sl" = Ok sl /\
    int_if_set item "position_magicnumber" = Ok mag /\
    t = [sa a; url a; rss a; win a; ret_ a; tpd a;
         bal s; eq_ s; fp s; cp s; fm s;
         VInt ticket; VStr action; lots; VStr symbol;
         op; cl; ot; ct; profit; swap; comm; tpft; tp; sl; mag;
         VNone; VNone; VNone; VNone; VNone].
Proof.
  unfold Rss.position_tuple. intros H. invert_binds H. injection H as <-.
  do 15 eexists. repeat split; eassumption.
Qed.

(** Where every numeric column of a tuple comes from. *)
Lemma position_tuple_fields a s item t :
  position_tuple a s item = Ok t ->
  (forall n c, In (n, c) float_if_set_fields ->
     exists v, float_if_set item n = Ok v /\ field trades_stmt t c = v) /\
  (forall n c, In (n, c) float_unless_zero_fields ->
     exists v, float_unless_zero item n = Ok v /\ field trades_stmt t c = v) /\
  (exists v, int_if_set item "position_magicnumber" = Ok v /\
             field trades_stmt t "magic_number" = v) /\
  (exists x z, item !! "position_ticket" = Some x /\ int_of_string x = Some z /\
               field trades_stmt t "ticket" = VInt z) /\
  field trades_stmt t "trade_win" = win a /\
  field trades_stmt t "total_return" = ret_ a /\
  field trades_stmt t "trades_per_day" = tpd a /\
  field trades_stmt t "account_balance" = bal s /\
  field trades_stmt t "account_equity" = eq_ s /\
  field trades_stmt t "account_floating_profit" = fp s /\
  field trades_stmt t "account_closed_profit" = cp s /\
  field trades_stmt t "account_free_margin" = fm s.
Proof.
  intros H.
  apply position_tuple_inv in H
    as (ticket & action & lots & symbol & op & cl & ot & ct & profit & swap
        & comm & tpft & tp & sl & mag
        & Hticket & _ & Hlots & _ & Hop & Hcl & Hprofit & Hswap & Hcomm
        & Htpft & Htp & Hsl & Hmag & ->).
  split; [|split; [|split; [|split]]].
  - intros n c Hin. simpl in Hin.
    repeat (destruct Hin as [[= <- <-]|Hin]; [eexists; split; [eassumption|reflexivity]|]).
    contradiction.
  - intros n c Hin. simpl in Hin.
    repeat (destruct Hin as [[= <- <-]|Hin]; [eexists; split; [eassumption|reflexivity]|]).
    contradiction.
  - eexists. split; [eassumption|reflexivity].
  - destruct (attr item "position_ticket") as [x|] eqn:Ex; cbn [Py.bind] in Hticket;
      [|discriminate].
    apply attr_inv in Ex. apply int_inv in Hticket. exists x, ticket. auto.
  - repeat split.
Qed.

(** Every numeric column of a tuple built for a numeric account under a
    numeric summary holds a number or null. *)
Lemma position_tuple_numeric a s item t c :
  account_numeric a -> summary_numeric s ->
  position_tuple a s item = Ok t -> In c numeric_columns ->
  numeric_or_null (field trades_stmt t c) = true.
Proof.
  intros (Hw & Hr & Ht) (Hb & He & Hf & Hc & Hm) H Hin.
  apply position_tuple_fields in H
    as (Hset & Hzero & (vm & Hmag & Em) & (x & z & _ & _ & Et)
        & E1 & E2 & E3 & E4 & E5 & E6 & E7 & E8).
  assert (forall n c, In (n, c) float_if_set_fields ->
                      numeric_or_null (field trades_stmt t c) = true) as Hset'.
  { intros n c' Hc'. destruct (Hset n c' Hc') as (v & Hv & ->).
    apply float_if_set_inv in Hv as (y & _ & [[_ ->]|(_ & f & _ & ->)]); reflexivity. }
  assert (forall n c, In (n, c) float_unless_zero_fields ->
                      numeric_or_null (field trades_stmt t c) = true) as Hzero'.
  { intros n c' Hc'. destruct (Hzero n c' Hc') as (v & Hv & ->).
    apply float_unless_zero_inv in Hv as (y & _ & [[_ ->]|(_ & f & _ & ->)]);
      reflexivity. }
  simpl in Hin.
  repeat (destruct Hin as [<-|Hin];
          [first [ congruence
                 | rewrite Et; reflexivity
                 | rewrite Em;
                   apply int_if_set_inv in Hmag
                     as (y & _ & [[_ ->]|(_ & z' & _ & ->)]); reflexivity
                 | solve [eapply Hset'; simpl; eauto 10]
                 | solve [eapply Hzero'; simpl; eauto 10] ]|]).
  contradiction.
Qed.

(** ** The batched walk *)

Section Invariant.

Variable a : Account.
Variable P : list Val -> Prop.
Hypothesis HP : forall s item t,
    summary_numeric s -> position_tuple a s item = Ok t -> P t.

Lemma feed_loop_sends BATCH_SIZE entries : forall s trades view w,
  summary_numeric s -> Forall P trades ->
  sends "rss_trades" P w (snd (feed_loop BATCH_SIZE a entries s trades view w)) /\
  (forall tr v, fst (feed_loop BATCH_SIZE a entries s trades view w) = Ok (tr, v) ->
                Forall P tr).
Proof using HP.
  induction entries as [|item rest IH]; intros s trades view w Hs Htr.
  - simpl. split; [apply sends_refl|]. now intros tr v [= <- <-].
  - simpl. unfold bindM, lift.
    destruct (account_summary s item) as [s'|e] eqn:Es;
      [|split; [apply sends_refl|discriminate]].
    pose proof (account_summary_numeric _ _ _ Hs Es) as Hs'.
    destruct (hasattr item "position_ticket"); cbn [negb]; [|now apply IH].
    destruct (Rss.position_tuple strptime_isoformat a s' item) as [t|e] eqn:Et;
      [|split; [apply sends_refl|discriminate]].
    assert (Forall P (trades ++ [t])) as Htr'.
    { apply Forall_app. split; [assumption|]. constructor; eauto. }
    destruct (Z.of_nat (length (trades ++ [t])) >=? BATCH_SIZE).
    + destruct (cur_executemany_sends trades_stmt P _ view w Htr') as [_ Hsend].
      destruct (cur_executemany trades_stmt (trades ++ [t]) view w)
        as [[view'|e] w1]; simpl in Hsend.
      * destruct (IH s' [] view' w1 Hs' (Forall_nil_2 _)) as [Hsend' Hok].
        split; [eapply sends_trans; eauto|assumption].
      * split; [assumption|discriminate].
    + now apply IH.
Qed.

End Invariant.

Lemma bind_cons_normal {A B} (m : result (list A)) (x : A) (k : list A -> result B) :
  Py.bind (Py.bind m (fun ts => Ok (x :: ts))) k
  = Py.bind m (fun ts => k (x :: ts)).
Proof. now destruct m. Qed.

(** The batched walk followed by the final batch agrees, on the store,
    with normalising the whole feed and writing the pending batch and
    then every record. *)
Lemma feed_loop_outcome BATCH_SIZE a entries : forall s trades view w,
  same_outcome
    (Py.bind (fst (feed_loop BATCH_SIZE a entries s trades view w))
             (fun r => executemany trades_stmt (fst r) (snd r)))
    (Py.bind (normalize_feed a entries s)
             (fun recs => executemany trades_stmt (trades ++ recs) view)).
Proof.
  induction entries as [|item rest IH]; intros s trades view w.
  - simpl. rewrite app_nil_r. apply same_outcome_refl.
  - simpl. unfold bindM, lift.
    destruct (account_summary s item) as [s'|e]; cbn [Py.bind fst]; [|exact I].
    destruct (hasattr item "position_ticket"); cbn [negb]; [|apply IH].
    destruct (Rss.position_tuple strptime_isoformat a s' item) as [t|e];
      cbn [Py.bind fst]; [|exact I].
    rewrite bind_cons_normal.
    assert (forall ts, executemany trades_stmt (trades ++ t :: ts) view
                       = Py.bind (executemany trades_stmt (trades ++ [t]) view)
                                 (executemany trades_stmt ts)) as Hsplit.
    { intros ts. rewrite <- executemany_app, <- app_assoc. reflexivity. }
    destruct (Z.of_nat (length (trades ++ [t])) >=? BATCH_SIZE).
    + destruct (cur_executemany_sends trades_stmt (fun _ => True) (trades ++ [t])
                  view w) as [Hr _].
      { apply Forall_forall. auto. }
      destruct (cur_executemany trades_stmt (trades ++ [t]) view w)
        as [[view'|e] w1]; simpl in Hr.
      * specialize (IH s' [] view' w1).
        destruct (normalize_feed a rest s') as [ts|e]; cbn [Py.bind] in *.
        -- rewrite Hsplit, <- Hr. exact IH.
        -- exact IH.
      * cbn [Py.bind fst].
        destruct (normalize_feed a rest s') as [ts|e']; cbn [Py.bind]; [|exact I].
        rewrite Hsplit, <- Hr. exact I.
    + specialize (IH s' (trades ++ [t]) view w).
      destruct (normalize_feed a rest s') as [ts|e]; cbn [Py.bind] in *.
      * rewrite <- app_assoc in IH. exact IH.
      * exact IH.
Qed.

Lemma feed_loop_unbatched_sends stmt a entries : forall s view w,
  sends (table stmt) (fun _ => True) w
        (snd (feed_loop_unbatched stmt a entries s view w)).
Proof.
  induction entries as [|item rest IH]; intros s view w.
  - apply sends_refl.
  - simpl. unfold bindM, lift.
    destruct (account_summary s item) as [s'|e]; [|apply sends_refl].
    destruct (hasattr item "position_ticket"); cbn [negb]; [|apply IH].
    destruct (Rss.position_tuple strptime_isoformat a s' item) as [t|e];
      [|apply sends_refl].
    destruct (cur_execute_sends stmt t view w (fun _ => True) I) as [_ Hs].
    destruct (cur_execute stmt t view w) as [[view'|e] w1]; simpl in Hs.
    + eapply sends_trans; [exact Hs|apply IH].
    + exact Hs.
Qed.

(** The unbatched walk agrees, on the store, with normalising the whole
    feed and writing every record. *)
Lemma feed_loop_unbatched_outcome stmt a entries : forall s view w,
  same_outcome
    (fst (feed_loop_unbatched stmt a entries s view w))
    (Py.bind (normalize_feed a entries s)
             (fun recs => executemany stmt recs view)).
Proof.
  induction entries as [|item rest IH]; intros s view w.
  - simpl. reflexivity.
  - simpl. unfold bindM, lift.
    destruct (account_summary s item) as [s'|e]; cbn [Py.bind fst]; [|exact I].
    destruct (hasattr item "position_ticket"); cbn [negb]; [|apply IH].
    destruct (Rss.position_tuple strptime_isoformat a s' item) as [t|e];
      cbn [Py.bind fst]; [|exact I].
    rewrite bind_cons_normal. cbn [executemany].
    change (cur_execute stmt t view w)
      with (execute stmt t view,
            {| db := db w; log := log w; open_conns := open_conns w;
               sent := (sent w ++ [(table stmt, t)])%list |}).
    destruct (execute stmt t view) as [view'|e]; cbn [Py.bind fst].
    + apply IH.
    + now destruct (normalize_feed a rest s').
Qed.

(** ** What a unit hands to the cursor *)

Lemma process_account_sent (P : list Val -> Prop) BATCH_SIZE row feed :
  (forall a s item t,
      account_numeric a -> summary_numeric s ->
      position_tuple a s item = Ok t -> P t) ->
  sends_only (fun tbl t => tbl = "rss_trades" -> P t)
             (process_account BATCH_SIZE row feed).
Proof.
  intros HP. unfold Rss.process_account.
  apply sends_only_bind_lift. intros sa _.
  apply sends_only_bind_lift. intros url _.
  apply sends_only_bind_lift. intros rss _.
  apply sends_only_bind_lift. intros win Hwin. apply to_pct_numeric in Hwin.
  apply sends_only_bind_lift. intros ret Hret. apply to_pct_numeric in Hret.
  apply sends_only_bind_lift. intros tpd Htpd. apply to_pct_numeric in Htpd.
  set (a := {| sa := sa; url := url; rss := rss; win := win; ret_ := ret; tpd := tpd |}).
  assert (account_numeric a) as Ha by (repeat split; assumption).
  apply sends_only_try; [|intros; apply sends_only_logging].
  apply sends_only_bind; [apply sends_only_get_db_conn|intros view _].
  apply sends_only_bind.
  { apply sends_only_cur_execute. discriminate. }
  intros view1 _.
  apply sends_only_bind.
  { apply (sends_only_sends _ _ "rss_trades" P); [auto|]. intros w.
    apply (feed_loop_sends a P (fun s item t => HP a s item t Ha)).
    - repeat split.
    - constructor. }
  intros [tr view2] [w Hres].
  assert (Forall P tr) as Htr.
  { eapply (feed_loop_sends a P (fun s item t => HP a s item t Ha)); [| |exact Hres].
    - repeat split.
    - constructor. }
  apply sends_only_bind.
  { destruct tr as [|t tr']; [apply sends_only_ret|].
    apply (sends_only_sends _ _ (table trades_stmt) P); [auto|]. intros w'.
    now apply cur_executemany_sends. }
  intros view3 _.
  apply sends_only_bind; [apply sends_only_commit|intros _ _].
  apply sends_only_bind; [apply sends_only_close|intros _ _].
  apply sends_only_logging.
Qed.

(** ** Entries that cannot be normalised *)

Lemma feed_loop_raises BATCH_SIZE a entries item :
  In item entries -> hasattr item "position_ticket" = true ->
  (forall s, raises (position_tuple a s item) = true) ->
  forall s trades view w,
    exists e, fst (feed_loop BATCH_SIZE a entries s trades view w) = Raise e.
Proof.
  intros Hin Hticket Hbad.
  induction entries as [|item' rest IH]; [destruct Hin|].
  intros s trades view w. simpl. unfold bindM, lift.
  destruct (account_summary s item') as [s'|e]; [|simpl; eauto].
  destruct Hin as [->|Hin].
  - rewrite Hticket. cbn [negb]. specialize (Hbad s').
    destruct (Rss.position_tuple strptime_isoformat a s' item) as [t|e];
      [discriminate|simpl; eauto].
  - destruct (hasattr item' "position_ticket"); cbn [negb]; [|now apply IH].
    destruct (Rss.position_tuple strptime_isoformat a s' item') as [t|e];
      [|simpl; eauto].
    destruct (Z.of_nat (length (trades ++ [t])) >=? BATCH_SIZE); [|now apply IH].
    destruct (cur_executemany trades_stmt (trades ++ [t]) view w) as [[view'|e] w1];
      [now apply IH|simpl; eauto].
Qed.

Lemma normalize_feed_raises a entries item :
  In item entries -> hasattr item "position_ticket" = true ->
  (forall s, raises (position_tuple a s item) = true) ->
  forall s, exists e, normalize_feed a entries s = Raise e.
Proof.
  intros Hin Hticket Hbad.
  induction entries as [|item' rest IH]; [destruct Hin|].
  intros s. simpl.
  destruct (account_summary s item') as [s'|e]; cbn [Py.bind]; [|eauto].
  destruct Hin as [->|Hin].
  - rewrite Hticket. cbn [negb]. specialize (Hbad s').
    destruct (Rss.position_tuple strptime_isoformat a s' item) as [t|e];
      [discriminate|simpl; eauto].
  - destruct (hasattr item' "position_ticket"); cbn [negb]; [|now apply IH].
    destruct (Rss.position_tuple strptime_isoformat a s' item') as [t|e];
      cbn [Py.bind]; [|eauto].
    destruct (IH Hin s') as [e ->]. simpl. eauto.
Qed.

Lemma process_account_commits BATCH_SIZE row feed w :
  db (snd (process_account BATCH_SIZE row feed w))
  = Rss.committed_after strptime_isoformat row feed (db w).
Proof.
  unfold Rss.process_account, Rss.committed_after, bindM, lift, try_except.
  destruct (getitem row "username") as [sa|e]; cbn [Py.bind]; [|reflexivity].
  destruct (getitem row "account_url") as [url|e]; cbn [Py.bind]; [|reflexivity].
  destruct (getitem row "rss_url") as [rss|e]; cbn [Py.bind]; [|reflexivity].
  destruct (to_pct (get row "trade win")) as [win|e]; cbn [Py.bind]; [|reflexivity].
  destruct (to_pct (get row "Total return")) as [ret|e]; cbn [Py.bind]; [|reflexivity].
  destruct (to_pct (get row "Trades per day")) as [tpd|e]; cbn [Py.bind]; [|reflexivity].
  unfold get_db_conn, cur_execute. cbn [db log open_conns sent table].
  destruct (execute META_UPSERT [sa; url; rss; win; ret; tpd] (db w)) as [v1|e];
    cbn [Py.bind]; [|reflexivity].
  set (a := {| sa := sa; url := url; rss := rss; win := win; ret_ := ret; tpd := tpd |}).
  set (w2 := Build_World _ _ _ _).
  pose proof (feed_loop_outcome BATCH_SIZE a feed no_summary [] v1 w2) as Hout.
  destruct (feed_loop_sends a (fun _ => True) (fun _ _ _ _ _ => I) BATCH_SIZE feed
              no_summary [] v1 w2) as [(Hdb & _) _]; [repeat split|constructor|].
  destruct (feed_loop BATCH_SIZE a feed no_summary [] v1 w2) as [[[tr v]|e] w3];
    cbn [fst snd Py.bind] in *.
  - assert (exists w4,
              (match tr with
               | [] => Proc.ret v
               | _ :: _ => cur_executemany trades_stmt tr v
               end) w3 = (executemany trades_stmt tr v, w4) /\ db w4 = db w3)
      as (w4 & -> & Hdb4).
    { destruct tr as [|t tr].
      - exists w3. split; reflexivity.
      - destruct (cur_executemany_sends trades_stmt (fun _ => True) (t :: tr) v w3)
          as [Hr (Hd & _)]; [apply Forall_forall; auto|].
        destruct (cur_executemany trades_stmt (t :: tr) v w3) as [r w4].
        exists w4. simpl in Hr, Hd. subst r. split; [reflexivity|assumption]. }
    destruct (executemany trades_stmt tr v) as [v'|e];
      destruct (normalize_feed a feed no_summary) as [recs|e'];
      cbn [Py.bind app] in Hout; try contradiction.
    + simpl. destruct (executemany trades_stmt recs v1); simpl in Hout;
        [congruence|contradiction].
    + simpl. destruct (executemany trades_stmt recs v1); simpl in Hout;
        [contradiction|]. rewrite Hdb4, Hdb. reflexivity.
    + simpl. rewrite Hdb4, Hdb. reflexivity.
  - simpl. rewrite Hdb.
    destruct (normalize_feed a feed no_summary) as [recs|e']; cbn [Py.bind app] in *;
      [|reflexivity].
    destruct (executemany trades_stmt recs v1); [contradiction|reflexivity].
Qed.

Lemma process_account_unbatched_commits row feed w :
  db (snd (process_account_unbatched row feed w))
  = Rss.committed_after strptime_isoformat row feed (db w).
Proof.
  unfold Rss.process_account_unbatched, Rss.committed_after, bindM, lift, try_except.
  destruct (getitem row "username") as [sa|e]; cbn [Py.bind]; [|reflexivity].
  destruct (getitem row "account_url") as [url|e]; cbn [Py.bind]; [|reflexivity].
  destruct (getitem row "rss_url") as [rss|e]; cbn [Py.bind]; [|reflexivity].
  destruct (to_pct (get row "trade win")) as [win|e]; cbn [Py.bind]; [|reflexivity].
  destruct (to_pct (get row "Total return")) as [ret|e]; cbn [Py.bind]; [|reflexivity].
  destruct (to_pct (get row "Trades per day")) as [tpd|e]; cbn [Py.bind]; [|reflexivity].
  unfold get_db_conn, cur_execute. cbn [db log open_conns sent table].
  destruct (execute META_UPSERT [sa; url; rss; win; ret; tpd] (db w)) as [v1|e];
    cbn [Py.bind]; [|reflexivity].
  set (a := {| sa := sa; url := url; rss := rss; win := win; ret_ := ret; tpd := tpd |}).
  set (w2 := Build_World _ _ _ _).
  pose proof (feed_loop_unbatched_outcome trades_stmt a feed no_summary v1 w2)
    as Hout.
  destruct (feed_loop_unbatched_sends trades_stmt a feed no_summary v1 w2)
    as (Hdb & _).
  destruct (feed_loop_unbatched trades_stmt a feed no_summary v1 w2) as [[v|e] w3];
    cbn [fst snd] in *.
  - simpl. destruct (normalize_feed a feed no_summary) as [recs|e'];
      cbn [Py.bind] in *; [|contradiction].
    destruct (executemany trades_stmt recs v1); simpl in Hout;
      [congruence|contradiction].
  - simpl. rewrite Hdb.
    destruct (normalize_feed a feed no_summary) as [recs|e']; cbn [Py.bind] in *;
      [|reflexivity].
    destruct (executemany trades_stmt recs v1); [contradiction|reflexivity].
Qed.

(** A feed with a position entry that cannot be normalised fails its
    unit: nothing is committed, and the exception is either logged as an
    error by the handler or, when it is raised before the [try], left to
    the caller. *)
Lemma process_account_fails BATCH_SIZE row feed item w :
  In item feed -> hasattr item "position_ticket" = true ->
  (forall a s, raises (position_tuple a s item) = true) ->
  unit_failed (fst (process_account BATCH_SIZE row feed w)) w
              (snd (process_account BATCH_SIZE row feed w)).
Proof.
  intros Hin Hticket Hbad. split.
  - rewrite process_account_commits. unfold Rss.committed_after.
    destruct (getitem row "username") as [sa|e]; cbn [Py.bind]; [|reflexivity].
    destruct (getitem row "account_url") as [url|e]; cbn [Py.bind]; [|reflexivity].
    destruct (getitem row "rss_url") as [rss|e]; cbn [Py.bind]; [|reflexivity].
    destruct (to_pct (get row "trade win")) as [win|e]; cbn [Py.bind]; [|reflexivity].
    destruct (to_pct (get row "Total return")) as [ret|e]; cbn [Py.bind]; [|reflexivity].
    destruct (to_pct (get row "Trades per day")) as [tpd|e]; cbn [Py.bind]; [|reflexivity].
    destruct (execute META_UPSERT _ (db w)) as [v1|e]; cbn [Py.bind]; [|reflexivity].
    match goal with
    | |- context [normalize_feed ?a feed no_summary] =>
        destruct (normalize_feed_raises a feed item Hin Hticket (Hbad a) no_summary)
          as [e ->]
    end. reflexivity.
  - unfold Rss.process_account, bindM, lift, try_except.
    destruct (getitem row "username") as [sa|e]; [|left; eauto].
    destruct (getitem row "account_url") as [url|e]; [|left; eauto].
    destruct (getitem row "rss_url") as [rss|e]; [|left; eauto].
    destruct (to_pct (get row "trade win")) as [win|e]; [|left; eauto].
    destruct (to_pct (get row "Total return")) as [ret|e]; [|left; eauto].
    destruct (to_pct (get row "Trades per day")) as [tpd|e]; [|left; eauto].
    right. exists [].
    unfold get_db_conn, cur_execute. cbn [db log open_conns sent table].
    destruct (execute META_UPSERT [sa; url; rss; win; ret; tpd] (db w)) as [v1|e].
    2:{ do 3 eexists. split; [reflexivity|]. split; [constructor|reflexivity]. }
    set (a := {| sa := sa; url := url; rss := rss; win := win; ret_ := ret; tpd := tpd |}).
    set (w2 := Build_World _ _ _ _).
    destruct (feed_loop_raises BATCH_SIZE a feed item Hin Hticket (Hbad a)
                no_summary [] v1 w2) as [e He].
    destruct (feed_loop_sends a (fun _ => True) (fun _ _ _ _ _ => I) BATCH_SIZE feed
                no_summary [] v1 w2) as [(_ & Hlog & _) _]; [repeat split|constructor|].
    destruct (feed_loop BATCH_SIZE a feed no_summary [] v1 w2) as [[x|e'] w3];
      cbn [fst snd] in *; [discriminate|].
    do 3 eexists. split; [reflexivity|]. split; [constructor|].
    unfold logging. cbn [snd log]. rewrite Hlog. reflexivity.
Qed.

(** An exception raised by a percentage of the roster row leaves
    [process_account] as it is: the three [to_pct] calls precede the
    [try]. *)
Lemma to_pct_error_escapes BATCH_SIZE row feed w u1 u2 u3 e :
  getitem row "username" = Ok u1 -> getitem row "account_url" = Ok u2 ->
  getitem row "rss_url" = Ok u3 ->
  to_pct (get row "trade win") = Raise e ->
  process_account BATCH_SIZE row feed w = (Raise e, w).
Proof.
  intros H1 H2 H3 H4. unfold Rss.process_account.
  rewrite (lift_ok _ _ _ _ H1), (lift_ok _ _ _ _ H2), (lift_ok _ _ _ _ H3).
  now rewrite (lift_raise _ _ _ _ H4).
Qed.

(** A unit that fails inside its [try] returns with its connection
    open. *)
Lemma failed_account_keeps_connection BATCH_SIZE row feed item w :
  In item feed -> hasattr item "position_ticket" = true ->
  (forall a s, raises (position_tuple a s item) = true) ->
  fst (process_account BATCH_SIZE row feed w) = Ok tt ->
  open_conns (snd (process_account BATCH_SIZE row feed w)) = S (open_conns w).
Proof.
  intros Hin Hticket Hbad.
  unfold Rss.process_account, bindM, lift, try_except.
  destruct (getitem row "username") as [sa|e]; [|discriminate].
  destruct (getitem row "account_url") as [url|e]; [|discriminate].
  destruct (getitem row "rss_url") as [rss|e]; [|discriminate].
  destruct (to_pct (get row "trade win")) as [win|e]; [|discriminate].
  destruct (to_pct (get row "Total return")) as [ret|e]; [|discriminate].
  destruct (to_pct (get row "Trades per day")) as [tpd|e]; [|discriminate].
  intros _. unfold get_db_conn, cur_execute. cbn [db log open_conns sent table].
  destruct (execute META_UPSERT [sa; url; rss; win; ret; tpd] (db w)) as [v1|e];
    [|reflexivity].
  set (a := {| sa := sa; url := url; rss := rss; win := win; ret_ := ret; tpd := tpd |}).
  set (w2 := Build_World _ _ _ _).
  destruct (feed_loop_raises BATCH_SIZE a feed item Hin Hticket (Hbad a)
              no_summary [] v1 w2) as [e He].
  destruct (feed_loop_sends a (fun _ => True) (fun _ _ _ _ _ => I) BATCH_SIZE feed
              no_summary [] v1 w2) as [(_ & _ & Hconn & _) _]; [repeat split|constructor|].
  destruct (feed_loop BATCH_SIZE a feed no_summary [] v1 w2) as [[x|e'] w3];
    cbn [fst snd] in *; [discriminate|].
  unfold logging. cbn [snd open_conns]. exact Hconn.
Qed.

(** ** Feeds with a position entry *)

(** The records of a feed with a position entry are not empty. *)
Lemma normalize_feed_position a entries item : forall s recs,
  In item entries -> hasattr item "position_ticket" = true ->
  normalize_feed a entries s = Ok recs -> recs <> [].
Proof.
  induction entries as [|item' rest IH]; intros s recs Hin Hticket; [destruct Hin|].
  simpl. destruct (account_summary s item') as [s'|e]; cbn [Py.bind]; [|discriminate].
  destruct (hasattr item' "position_ticket") eqn:Ht; cbn [negb].
  - destruct (Rss.position_tuple strptime_isoformat a s' item') as [t|e];
      cbn [Py.bind]; [|discriminate].
    destruct (normalize_feed a rest s') as [ts|e]; cbn [Py.bind]; [|discriminate].
    intros [= <-]. discriminate.
  - destruct Hin as [->|Hin]; [rewrite Hticket in Ht; discriminate|].
    now apply IH.
Qed.

(** The store takes no batch of trades: [executemany] with the trade
    statement raises on every batch that is not empty. *)
Lemma trades_batch_rejected (t : list Val) (ts : list (list Val)) (d : DB) :
  exists e, executemany trades_stmt (t :: ts) d = Raise e.
Proof.
  destruct (executemany trades_stmt (t :: ts) d) as [d'|e] eqn:E; [|eauto].
  apply executemany_rejected in E as [E _]; [discriminate|reflexivity].
Qed.

(** When the walk over a feed with a position entry comes to its end,
    the pending batch is not empty: every flush on the way would have
    raised. *)
Lemma feed_loop_pending BATCH_SIZE a entries : forall s trades view w tr v,
  trades <> [] \/
  (exists item, In item entries /\ hasattr item "position_ticket" = true) ->
  fst (feed_loop BATCH_SIZE a entries s trades view w) = Ok (tr, v) ->
  tr <> [].
Proof.
  induction entries as [|item' rest IH]; intros s trades view w tr v Hpos.
  - simpl. intros [= <- <-]. destruct Hpos as [H|(item & [] & _)]. exact H.
  - simpl. unfold bindM, lift.
    destruct (account_summary s item') as [s'|e]; [|discriminate].
    destruct (hasattr item' "position_ticket") eqn:Ht; cbn [negb].
    + destruct (Rss.position_tuple strptime_isoformat a s' item') as [t|e];
        [|discriminate].
      assert (trades ++ [t] <> []) as Hne by (now destruct trades).
      destruct (Z.of_nat (length (trades ++ [t])) >=? BATCH_SIZE).
      * destruct (cur_executemany_sends trades_stmt (fun _ => True) (trades ++ [t])
                    view w) as [Hr _]; [apply Forall_forall; auto|].
        destruct (trades ++ [t]) as [|t0 ts] eqn:E; [contradiction|].
        destruct (trades_batch_rejected t0 ts view) as [e He].
        rewrite He in Hr.
        destruct (cur_executemany trades_stmt (t0 :: ts) view w) as [[view'|e'] w1];
          simpl in Hr; discriminate.
      * apply IH. now left.
    + apply IH. destruct Hpos as [H|(item & [->|Hin] & Hticket)].
      * now left.
      * rewrite Hticket in Ht. discriminate.
      * right. eauto.
Qed.

(** Nothing is committed for a feed with a position entry. *)
Lemma committed_after_position row feed item d :
  In item feed -> hasattr item "position_ticket" = true ->
  Rss.committed_after strptime_isoformat row feed d = d.
Proof.
  intros Hin Hticket. unfold Rss.committed_after.
  destruct (getitem row "username") as [sa|e]; cbn [Py.bind]; [|reflexivity].
  destruct (getitem row "account_url") as [url|e]; cbn [Py.bind]; [|reflexivity].
  destruct (getitem row "rss_url") as [rss|e]; cbn [Py.bind]; [|reflexivity].
  destruct (to_pct (get row "trade win")) as [win|e]; cbn [Py.bind]; [|reflexivity].
  destruct (to_pct (get row "Total return")) as [ret|e]; cbn [Py.bind]; [|reflexivity].
  destruct (to_pct (get row "Trades per day")) as [tpd|e]; cbn [Py.bind]; [|reflexivity].
  destruct (execute META_UPSERT _ d) as [v1|e]; cbn [Py.bind]; [|reflexivity].
  match goal with
  | |- context [normalize_feed ?a feed no_summary] =>
      destruct (normalize_feed a feed no_summary) as [recs|e] eqn:En;
        cbn [Py.bind]; [|reflexivity];
      pose proof (normalize_feed_position a feed item no_summary recs Hin Hticket En)
        as Hne
  end.
  destruct recs as [|t ts]; [contradiction|].
  destruct (trades_batch_rejected t ts v1) as [e ->]. reflexivity.
Qed.

(** A unit whose feed holds a position entry never succeeds.  Nothing is
    committed, the metadata row included; the exception either left
    [process_account] before the [try], unlogged, or was logged as an
    error, and then the connection is left open. *)
Lemma position_fails_the_unit BATCH_SIZE row feed item w :
  In item feed -> hasattr item "position_ticket" = true ->
  unit_failed (fst (process_account BATCH_SIZE row feed w)) w
              (snd (process_account BATCH_SIZE row feed w)) /\
  (fst (process_account BATCH_SIZE row feed w) = Ok tt ->
   open_conns (snd (process_account BATCH_SIZE row feed w)) = S (open_conns w)).
Proof.
  intros Hin Hticket. split; [split|].
  - rewrite process_account_commits. now apply committed_after_position with item.
  - unfold Rss.process_account, bindM, lift, try_except.
    destruct (getitem row "username") as [sa|e]; [|left; eauto].
    destruct (getitem row "account_url") as [url|e]; [|left; eauto].
    destruct (getitem row "rss_url") as [rss|e]; [|left; eauto].
    destruct (to_pct (get row "trade win")) as [win|e]; [|left; eauto].
    destruct (to_pct (get row "Total return")) as [ret|e]; [|left; eauto].
    destruct (to_pct (get row "Trades per day")) as [tpd|e]; [|left; eauto].
    right. exists [].
    unfold get_db_conn, cur_execute. cbn [db log open_conns sent table].
    destruct (execute META_UPSERT [sa; url; rss; win; ret; tpd] (db w)) as [v1|e].
    2:{ do 3 eexists. split; [reflexivity|]. split; [constructor|reflexivity]. }
    set (a := {| sa := sa; url := url; rss := rss; win := win; ret_ := ret; tpd := tpd |}).
    set (w2 := Build_World _ _ _ _).
    pose proof (feed_loop_pending BATCH_SIZE a feed no_summary [] v1 w2) as Hpend.
    destruct (feed_loop_sends a (fun _ => True) (fun _ _ _ _ _ => I) BATCH_SIZE feed
                no_summary [] v1 w2) as [(_ & Hlog & _) _]; [repeat split|constructor|].
    destruct (feed_loop BATCH_SIZE a feed no_summary [] v1 w2) as [[[tr v]|e'] w3];
      cbn [fst snd] in *.
    + specialize (Hpend tr v (or_intror (ex_intro _ item (conj Hin Hticket))) eq_refl).
      destruct tr as [|t tr]; [contradiction|].
      destruct (cur_executemany_sends trades_stmt (fun _ => True) (t :: tr) v w3)
        as [Hr (_ & Hlog' & _)]; [apply Forall_forall; auto|].
      destruct (trades_batch_rejected t tr v) as [e He]. rewrite He in Hr.
      destruct (cur_executemany trades_stmt (t :: tr) v w3) as [[v'|e''] w4];
        simpl in Hr; [discriminate|].
      do 3 eexists. split; [reflexivity|]. split; [constructor|].
      unfold logging. cbn [snd log]. cbn [snd] in Hlog'. rewrite Hlog', Hlog.
      reflexivity.
    + do 3 eexists. split; [reflexivity|]. split; [constructor|].
      unfold logging. cbn [snd log]. rewrite Hlog. reflexivity.
  - unfold Rss.process_account, bindM, lift, try_except.
    destruct (getitem row "username") as [sa|e]; [|discriminate].
    destruct (getitem row "account_url") as [url|e]; [|discriminate].
    destruct (getitem row "rss_url") as [rss|e]; [|discriminate].
    destruct (to_pct (get row "trade win")) as [win|e]; [|discriminate].
    destruct (to_pct (get row "Total return")) as [ret|e]; [|discriminate].
    destruct (to_pct (get row "Trades per day")) as [tpd|e]; [|discriminate].
    intros _. unfold get_db_conn, cur_execute. cbn [db log open_conns sent table].
    destruct (execute META_UPSERT [sa; url; rss; win; ret; tpd] (db w)) as [v1|e];
      [|reflexivity].
    set (a := {| sa := sa; url := url; rss := rss; win := win; ret_ := ret; tpd := tpd |}).
    set (w2 := Build_World _ _ _ _).
    pose proof (feed_loop_pending BATCH_SIZE a feed no_summary [] v1 w2) as Hpend.
    destruct (feed_loop_sends a (fun _ => True) (fun _ _ _ _ _ => I) BATCH_SIZE feed
                no_summary [] v1 w2) as [(_ & _ & Hconn & _) _];
      [repeat split|constructor|].
    destruct (feed_loop BATCH_SIZE a feed no_summary [] v1 w2) as [[[tr v]|e'] w3];
      cbn [fst snd] in *.
    + specialize (Hpend tr v (or_intror (ex_intro _ item (conj Hin Hticket))) eq_refl).
      destruct tr as [|t tr]; [contradiction|].
      destruct (cur_executemany_sends trades_stmt (fun _ => True) (t :: tr) v w3)
        as [Hr (_ & _ & Hconn' & _)]; [apply Forall_forall; auto|].
      destruct (trades_batch_rejected t tr v) as [e He]. rewrite He in Hr.
      destruct (cur_executemany trades_stmt (t :: tr) v w3) as [[v'|e''] w4];
        simpl in Hr; [discriminate|].
      unfold logging. cbn [snd open_conns]. cbn [snd] in Hconn'.
      rewrite Hconn', Hconn. reflexivity.
    + unfold logging. cbn [snd open_conns]. exact Hconn.
Qed.


(** ** Field rules of a position entry *)

Lemma float_if_set_empty item n :
  item !! n = Some "" -> float_if_set item n = Ok VNone.
Proof. unfold float_if_set, attr. now intros ->. Qed.

Lemma int_if_set_empty item n :
  item !! n = Some "" -> int_if_set item n = Ok VNone.
Proof. unfold int_if_set, attr. now intros ->. Qed.


(** C7, as the code has it. In every tuple built from a position entry,
    a take-profit or stop-loss field equal to the literal "0" is null and
    any other value is the float it denotes; a lots, open-price,
    close-price, profit, swap, commission or total-profit field whose
    text denotes zero is kept as the float zero; and an entry without the
    take-profit or the stop-loss field yields no tuple, the attribute
    access raises. *)
Theorem zero_means_unset_only_for_tp_and_sl (a : Account) (s : Summary)
  (item : Entry) :
  (forall t, position_tuple a s item = Ok t ->
     (forall n c, In (n, c) float_unless_zero_fields ->
        exists x, item !! n = Some x /\
          (x = "0" -> field trades_stmt t c = VNone) /\
          (x <> "0" -> exists f, float_of_string x = Some f /\
                                 field trades_stmt t c = VFloat f)) /\
     (forall n c x, In (n, c) float_if_set_fields -> item !! n = Some x ->
        float_of_string x = Some (FFin 0) ->
        field trades_stmt t c = VFloat (FFin 0))) /\
  (forall n c, In (n, c) float_unless_zero_fields -> item !! n = None ->
     raises (position_tuple a s item) = true).
Proof.
  split.
  - intros t Ht.
    apply position_tuple_fields in Ht as (Hset & Hzero & _). split.
    + intros n c Hin. destruct (Hzero n c Hin) as (v & Hv & ->).
      apply float_unless_zero_inv in Hv as (x & Hx & Hcases). exists x.
      split; [assumption|]. split.
      * intros ->. destruct Hcases as [[_ ->]|[Hne _]]; [reflexivity|contradiction].
      * intros Hne. destruct Hcases as [[-> _]|(_ & f & Hf & ->)];
          [contradiction|eauto].
    + intros n c x Hin Hx Hzero'. destruct (Hset n c Hin) as (v & Hv & ->).
      apply float_if_set_inv in Hv as (y & Hy & Hcases).
      rewrite Hx in Hy. injection Hy as <-.
      destruct Hcases as [[-> _]|(_ & f & Hf & ->)].
      * vm_compute in Hzero'. discriminate.
      * congruence.
  - intros n c Hin Habsent.
    destruct (position_tuple a s item) as [t|e] eqn:Ht; [|reflexivity].
    apply position_tuple_fields in Ht as (_ & Hzero & _).
    destruct (Hzero n c Hin) as (v & Hv & _).
    unfold float_unless_zero in Hv. rewrite (attr_absent _ _ Habsent) in Hv.
    discriminate.
Qed.

(** ** Garbage in a numeric field *)

Lemma garbage_float_if_set_raises a s item n c x :
  In (n, c) float_if_set_fields -> item !! n = Some x ->
  x <> "" -> float_of_string x = None ->
  raises (position_tuple a s item) = true.
Proof.
  intros Hin Hx Hne Hgarbage.
  destruct (position_tuple a s item) as [t|e] eqn:Ht; [|reflexivity].
  apply position_tuple_fields in Ht as (Hset & _).
  destruct (Hset n c Hin) as (v & Hv & _).
  apply float_if_set_inv in Hv as (y & Hy & [[-> _]|(_ & f & Hf & _)]);
    congruence.
Qed.

Lemma garbage_float_unless_zero_raises a s item n c x :
  In (n, c) float_unless_zero_fields -> item !! n = Some x ->
  float_of_string x = None ->
  raises (position_tuple a s item) = true.
Proof.
  intros Hin Hx Hgarbage.
  destruct (position_tuple a s item) as [t|e] eqn:Ht; [|reflexivity].
  apply position_tuple_fields in Ht as (_ & Hzero & _).
  destruct (Hzero n c Hin) as (v & Hv & _).
  apply float_unless_zero_inv in Hv as (y & Hy & [[-> _]|(_ & f & Hf & _)]).
  - rewrite Hx in Hy. injection Hy as ->. vm_compute in Hgarbage. discriminate.
  - congruence.
Qed.

Lemma garbage_int_raises a s item x :
  item !! "position_ticket" = Some x -> int_of_string x = None ->
  raises (position_tuple a s item) = true.
Proof.
  intros Hx Hgarbage.
  destruct (position_tuple a s item) as [t|e] eqn:Ht; [|reflexivity].
  apply position_tuple_fields in Ht as (_ & _ & _ & (y & z & Hy & Hz & _) & _).
  congruence.
Qed.

End Timestamps.


Lemma zero_means_unset_only_for_tp_and_sl_witness :
  exists t,
    Rss.position_tuple Samples.strptime_isoformat Samples.account Rss.no_summary
                       (Samples.position "55" "1" "0" "0") = Ok t /\
    field trades_stmt t "take_profit" = VNone /\
    field trades_stmt t "open_price" = VFloat (FFin 0).
Proof.
  destruct (zero_means_unset_only_for_tp_and_sl Samples.strptime_isoformat
              Samples.account Rss.no_summary (Samples.position "55" "1" "0" "0"))
    as [Hok _].
  eexists. split; [vm_compute; reflexivity|].
  match goal with
  | |- field _ ?t _ = _ /\ _ =>
      destruct (Hok t) as [Hzero Hkept]; [vm_compute; reflexivity|]
  end.
  split.
  - destruct (Hzero "position_tp" "take_profit") as (x & Hx & Hnull & _);
      [simpl; tauto|].
    apply Hnull. vm_compute in Hx. now injection Hx as <-.
  - apply (Hkept "position_openprice" "open_price" "0"); [simpl; tauto| |];
      vm_compute; reflexivity.
Defined.

(** C7 fails where the take-profit field is absent: the entry is
    not given a null take-profit, its normalisation raises, and the unit
    ends with the error logged and nothing committed. *)
Lemma absent_take_profit_raises :
  Samples.position_without_tp !! "position_tp" = None /\
  Rss.position_tuple Samples.strptime_isoformat Samples.account Rss.no_summary
                     Samples.position_without_tp
  = Raise (AttributeError "position_tp") /\
  Rss.process_account Samples.strptime_isoformat 100 Samples.roster_row
                      [Samples.position_without_tp] Samples.world0
  = (Ok tt,
     {| db := ∅;
        log := [{| level := ERROR; message := "Error for {sa}: {e}";
                   args := [VStr "acc1"];
                   exc_info := Some (AttributeError "position_tp") |}];
        open_conns := 1;
        sent := [("account_metadata",
                  [VStr "acc1"; VStr "https://www.fxblue.com/users/acc1";
                   VStr "https://www.fxblue.com/users/acc1/rss";
                   VFloat (FFin (11 # 20)); VNone; VFloat (FFin (3 # 2))])] |}).
Proof. repeat split; vm_compute; reflexivity. Qed.

(** In [rss_parser.py] the same entry ends the whole script before its
    commit. *)
Example absent_take_profit_ends_the_script :
  RssParser.script Samples.strptime_isoformat
                   [(Samples.roster_row, [Samples.position_without_tp])]
                   Samples.world0
  = (Raise (AttributeError "position_tp"),
     {| db := ∅; log := []; open_conns := 1;
        sent := [("account_metadata",
                  [VStr "acc1"; VStr "https://www.fxblue.com/users/acc1";
                   VStr "https://www.fxblue.com/users/acc1/rss";
                   VFloat (FFin (11 # 20)); VNone; VFloat (FFin (3 # 2))])] |}).
Proof. vm_compute. reflexivity. Qed.

End RssFacts.

(* ===================================================================== *)
(** * Facts about gcp_csv.py                                              *)
(* ===================================================================== *)

Module CsvFacts.

Import Csv ProcFacts SqlFacts.

(** ** Cells *)

Lemma has_column_In df c : has_column df c = true <-> In c (columns df).
Proof.
  unfold has_column. rewrite existsb_exists. split.
  - intros (c' & Hin & Heq). apply String.eqb_eq in Heq. now subst.
  - intros Hin. exists c. split; [assumption|apply String.eqb_refl].
Qed.

Lemma has_column_false df c : has_column df c = false <-> ~ In c (columns df).
Proof. rewrite <- has_column_In. now destruct (has_column df c). Qed.

Lemma cell_absent cols r c : ~ In c cols -> cell cols r c = None.
Proof.
  revert r. induction cols as [|c' cols IH]; intros [|v r] Hn; simpl; try reflexivity.
  destruct (String.eqb_spec c c') as [->|Hne]; [simpl in Hn; tauto|].
  apply IH. simpl in Hn. tauto.
Qed.

Lemma cell_present cols r c :
  length r = length cols -> In c cols -> exists v, cell cols r c = Some v.
Proof.
  revert r. induction cols as [|c' cols IH]; intros [|v r] Hlen Hin; simpl in *;
    try tauto; try discriminate.
  destruct (String.eqb_spec c c') as [->|Hne]; [eauto|].
  apply IH; [lia|]. destruct Hin; congruence.
Qed.

Lemma cell_set_cell_ne cols r c c2 v :
  c <> c2 -> cell cols (set_cell cols r c2 v) c = cell cols r c.
Proof.
  intros Hne. revert r. induction cols as [|c' cols IH]; intros [|x r]; simpl;
    try reflexivity.
  destruct (String.eqb_spec c2 c') as [->|Hne2]; simpl.
  - destruct (String.eqb_spec c c'); [contradiction|reflexivity].
  - destruct (String.eqb c c'); [reflexivity|apply IH].
Qed.

Lemma cell_set_cell_eq cols r c v x :
  cell cols (set_cell cols r c v) c = Some x -> x = v.
Proof.
  revert r. induction cols as [|c' cols IH]; intros [|y r]; simpl; try discriminate.
  destruct (String.eqb_spec c c') as [->|Hne]; simpl.
  - rewrite ?String.eqb_refl. now intros [= <-].
  - destruct (String.eqb_spec c c'); [contradiction|apply IH].
Qed.

Lemma length_set_cell cols r c v : length (set_cell cols r c v) = length r.
Proof.
  revert r. induction cols as [|c' cols IH]; intros [|x r]; simpl; try reflexivity.
  destruct (String.eqb c c'); simpl; [reflexivity|]. now rewrite IH.
Qed.

Lemma cell_app_ne cols r c c2 v :
  length r = length cols -> c <> c2 ->
  cell (cols ++ [c2]) (r ++ [v]) c = cell cols r c.
Proof.
  intros Hlen Hne. revert r Hlen.
  induction cols as [|c' cols IH]; intros [|x r] Hlen; simpl in *; try discriminate.
  - destruct (String.eqb_spec c c2); [contradiction|reflexivity].
  - destruct (String.eqb c c'); [reflexivity|]. apply IH. lia.
Qed.

Lemma cell_app_eq cols r c v :
  length r = length cols -> ~ In c cols ->
  cell (cols ++ [c]) (r ++ [v]) c = Some v.
Proof.
  intros Hlen Hn. revert r Hlen.
  induction cols as [|c' cols IH]; intros [|x r] Hlen; simpl in *; try discriminate.
  - now rewrite String.eqb_refl.
  - destruct (String.eqb_spec c c') as [->|Hne]; [tauto|]. apply IH; [tauto|lia].
Qed.

Lemma drop_cell_app cols r c v :
  length r = length cols -> ~ In c cols ->
  drop_cell (cols ++ [c]) (r ++ [v]) c = r.
Proof.
  intros Hlen Hn. revert r Hlen.
  induction cols as [|c' cols IH]; intros [|x r] Hlen; simpl in *; try discriminate.
  - now rewrite String.eqb_refl.
  - destruct (String.eqb_spec c c') as [->|Hne]; [tauto|].
    f_equal. apply IH; [tauto|lia].
Qed.

Lemma filter_app_absent (cols : list string) c :
  ~ In c cols ->
  List.filter (fun c' => negb (String.eqb c c')) (cols ++ [c]) = cols.
Proof.
  induction cols as [|c' cols IH]; simpl; intros Hn.
  - now rewrite String.eqb_refl.
  - destruct (String.eqb_spec c c') as [->|Hne]; [tauto|]. simpl.
    f_equal. apply IH. tauto.
Qed.

(** ** Frames *)

Lemma In_imap {A B} (f : nat -> A -> B) (l : list A) (y : B) :
  In y (imap f l) -> exists i x, l !! i = Some x /\ y = f i x.
Proof.
  rewrite <- list_elem_of_In. intros H.
  apply elem_of_lookup_imap_1 in H as (i & x & -> & Hx). eauto.
Qed.

Lemma lookup_In {A} (l : list A) i x : l !! i = Some x -> In x l.
Proof. intros H. apply list_elem_of_In. eapply list_elem_of_lookup_2; eauto. Qed.

Lemma nth_numeric (vals : list Val) i :
  Forall (fun v => numeric_or_null v = true) vals ->
  numeric_or_null (nth i vals (VFloat FNaN)) = true.
Proof.
  intros H. rewrite nth_lookup. destruct (vals !! i) as [v|] eqn:E; simpl; [|reflexivity].
  rewrite List.Forall_forall in H. apply H. eapply lookup_In; eauto.
Qed.

Lemma aligned_assign df c vals : aligned df -> aligned (assign df c vals).
Proof.
  unfold aligned, assign. intros H. rewrite List.Forall_forall in H.
  apply List.Forall_forall. intros r' Hr'.
  destruct (has_column df c); simpl in *;
    apply In_imap in Hr' as (i & r & Hr & ->); apply lookup_In in Hr.
  - rewrite length_set_cell. auto.
  - rewrite !length_app. simpl. rewrite (H r Hr). reflexivity.
Qed.

(** Assigning a column leaves the cells of the other columns alone. *)
Lemma assign_rows df c vals r' :
  aligned df -> In r' (rows (assign df c vals)) ->
  exists i r, rows df !! i = Some r /\
    (forall c', c' <> c ->
                cell (columns (assign df c vals)) r' c' = cell (columns df) r c') /\
    (forall x, cell (columns (assign df c vals)) r' c = Some x ->
               x = nth i vals (VFloat FNaN)).
Proof.
  unfold aligned, assign. intros H Hr'. rewrite List.Forall_forall in H.
  destruct (has_column df c) eqn:Hc; simpl in *;
    apply In_imap in Hr' as (i & r & Hr & ->); exists i, r;
    (split; [assumption|]); apply lookup_In in Hr; split.
  - intros c' Hne. now apply cell_set_cell_ne.
  - intros x. apply cell_set_cell_eq.
  - intros c' Hne. apply cell_app_ne; auto.
  - intros x. apply has_column_false in Hc.
    rewrite cell_app_eq by auto. now intros [= <-].
Qed.

Lemma to_numeric_is_numeric p v : numeric_or_null (to_numeric p v) = true.
Proof.
  destruct v as [|z|f|s]; simpl; try reflexivity.
  now destruct (p s).
Qed.

Lemma aligned_coerce_column p df col :
  aligned df -> aligned (coerce_column p df col).
Proof.
  unfold coerce_column. destruct (has_column df col); [apply aligned_assign|auto].
Qed.

(** Coercing a column makes its cells numeric and keeps the others. *)
Lemma numeric_cells_coerce_column p cs df col :
  aligned df -> numeric_cells cs df ->
  numeric_cells (col :: cs) (coerce_column p df col).
Proof.
  intros Hal Hnum. unfold coerce_column.
  destruct (has_column df col) eqn:Hc.
  - assert (Forall (fun v => numeric_or_null v = true)
                   (map (to_numeric p) (series df col))) as Hvals.
    { apply List.Forall_forall. intros v Hv. apply in_map_iff in Hv as (x & <- & _).
      apply to_numeric_is_numeric. }
    intros c0 r' v Hc0 Hr' Hcell.
    destruct (assign_rows df col _ r' Hal Hr') as (i & r & Hr & Hother & Hsame).
    destruct (String.eqb_spec c0 col) as [->|Hne].
    + rewrite (Hsame v Hcell). now apply nth_numeric.
    + rewrite Hother in Hcell by assumption.
      destruct Hc0 as [->|Hc0]; [contradiction|].
      eapply Hnum; eauto. eapply lookup_In; eauto.
  - apply has_column_false in Hc.
    intros c0 r v [<-|Hc0] Hr Hcell.
    + rewrite cell_absent in Hcell by assumption. discriminate.
    + eapply Hnum; eauto.
Qed.

Lemma coerce_columns p cols : forall cs df,
  aligned df -> numeric_cells cs df ->
  aligned (fold_left (coerce_column p) cols df) /\
  numeric_cells (rev cols ++ cs) (fold_left (coerce_column p) cols df).
Proof.
  induction cols as [|col cols IH]; intros cs df Hal Hnum; simpl.
  - auto.
  - destruct (IH (col :: cs) (coerce_column p df col)) as [Hal' Hnum'].
    + now apply aligned_coerce_column.
    + now apply numeric_cells_coerce_column.
    + split; [assumption|]. now rewrite <- app_assoc.
Qed.

(** The call [df.setdefault(col, None)] raises, whatever the frame and the
    column. *)
Lemma setdefault_raises df col :
  setdefault df col
  = Raise (if has_column df "setdefault"
           then TypeError "'Series' object is not callable"
           else AttributeError "setdefault").
Proof. unfold setdefault. now destruct (has_column df "setdefault"). Qed.

Lemma aligned_rename df : aligned df -> aligned (rename df).
Proof.
  unfold aligned, rename. simpl. intros H. eapply List.Forall_impl; [|exact H].
  intros r Hr. simpl in *. now rewrite length_map.
Qed.

(** ** Dropping duplicates *)

Section KeepUnseen.

Context {A : Type} (key : A -> string).

Lemma seen_In k (seen : list string) :
  existsb (String.eqb k) seen = true <-> In k seen.
Proof.
  rewrite existsb_exists. split.
  - intros (k' & Hin & Heq). apply String.eqb_eq in Heq. now subst.
  - intros Hin. exists k. split; [assumption|apply String.eqb_refl].
Qed.

Lemma seen_not_In k (seen : list string) :
  existsb (String.eqb k) seen = false <-> ~ In k seen.
Proof. rewrite <- seen_In. now destruct (existsb _ seen). Qed.

Lemma keep_unseen_In l : forall seen x,
  In x (keep_unseen key seen l) -> In x l /\ ~ In (key x) seen.
Proof.
  induction l as [|y l IH]; intros seen x; simpl; [tauto|].
  destruct (existsb (String.eqb (key y)) seen) eqn:E.
  - intros H. apply IH in H. tauto.
  - apply seen_not_In in E. intros [<-|H]; [tauto|].
    apply IH in H. simpl in H. tauto.
Qed.

Lemma keep_unseen_sublist l : forall seen, sublist (keep_unseen key seen l) l.
Proof.
  induction l as [|y l IH]; intros seen; simpl; [constructor|].
  destruct (existsb _ seen); [apply sublist_cons|apply sublist_skip]; apply IH.
Qed.

Lemma keep_unseen_NoDup l : forall seen,
  List.NoDup (map key (keep_unseen key seen l)).
Proof.
  induction l as [|y l IH]; intros seen; simpl; [constructor|].
  destruct (existsb _ seen); [apply IH|]. simpl. constructor; [|apply IH].
  intros Hin. apply in_map_iff in Hin as (x & Hk & Hx).
  apply keep_unseen_In in Hx as [_ Hx]. apply Hx. rewrite Hk. now left.
Qed.

(** A row is kept exactly when it is the first row of the input that
    carries its key, and that key was not met before. *)
Lemma keep_unseen_first l : forall seen x,
  In x (keep_unseen key seen l) <->
  ~ In (key x) seen /\
  List.find (fun y => String.eqb (key y) (key x)) l = Some x.
Proof.
  induction l as [|y l IH]; intros seen x; simpl.
  - split; [tauto|intros [_ [=]]].
  - destruct (existsb (String.eqb (key y)) seen) eqn:E.
    + apply seen_In in E. rewrite IH.
      destruct (String.eqb_spec (key y) (key x)) as [Heq|Hne]; [|tauto].
      rewrite Heq in E. tauto.
    + apply seen_not_In in E. simpl. rewrite IH. simpl.
      destruct (String.eqb_spec (key y) (key x)) as [Heq|Hne].
      * rewrite <- Heq. split.
        -- intros [->|[Hn _]]; [tauto|tauto].
        -- intros [_ [= ->]]. now left.
      * split.
        -- intros [->|[Hn Hf]]; [congruence|tauto].
        -- intros [Hn Hf]. right. split; [|assumption].
           intros [Heq|Hin]; [congruence|tauto].
Qed.

Lemma keep_unseen_id l : forall seen,
  List.NoDup (map key l) -> (forall x, In x l -> ~ In (key x) seen) ->
  keep_unseen key seen l = l.
Proof.
  induction l as [|y l IH]; intros seen Hnd Hseen; simpl; [reflexivity|].
  inversion Hnd as [|? ? Hy Hnd']; subst.
  assert (existsb (String.eqb (key y)) seen = false) as ->.
  { apply seen_not_In. apply Hseen. now left. }
  f_equal. apply IH; [assumption|].
  intros x Hx [Heq|Hin].
  - apply Hy. rewrite Heq. now apply in_map.
  - eapply Hseen; [right; exact Hx|assumption].
Qed.

Lemma keep_unseen_twice l seen :
  keep_unseen key seen (keep_unseen key seen l) = keep_unseen key seen l.
Proof.
  apply keep_unseen_id; [apply keep_unseen_NoDup|].
  intros x Hx. now apply keep_unseen_In in Hx.
Qed.

End KeepUnseen.

Lemma keep_unseen_map {A B} (key : B -> string) (f : A -> B) l : forall seen,
  keep_unseen key seen (map f l)
  = map f (keep_unseen (fun x => key (f x)) seen l).
Proof.
  induction l as [|y l IH]; intros seen; simpl; [reflexivity|].
  destruct (existsb _ seen); simpl; now rewrite IH.
Qed.

Lemma keep_unseen_ext {A} (key1 key2 : A -> string) l : forall seen,
  (forall x, In x l -> key1 x = key2 x) ->
  keep_unseen key1 seen l = keep_unseen key2 seen l.
Proof.
  induction l as [|y l IH]; intros seen H; cbn [keep_unseen]; [reflexivity|].
  rewrite (H y) by now left.
  destruct (existsb _ seen); [|f_equal]; apply IH; intros; apply H; now right.
Qed.

Lemma mapM_total {A B} (f : A -> result B) (g : A -> B) (l : list A) :
  (forall x, In x l -> f x = Ok (g x)) -> mapM f l = Ok (map g l).
Proof.
  induction l as [|x l IH]; intros H; simpl; [reflexivity|].
  rewrite (H x) by now left. cbn [Py.bind].
  rewrite IH by (intros; apply H; now right). reflexivity.
Qed.

Lemma mapM_In {A B} (f : A -> result B) (l : list A) (ys : list B) (y : B) :
  mapM f l = Ok ys -> In y ys -> exists x, In x l /\ f x = Ok y.
Proof.
  revert ys. induction l as [|x l IH]; intros ys; simpl.
  - intros [= <-] [].
  - destruct (f x) as [y0|e] eqn:E; cbn [Py.bind]; [|discriminate].
    destruct (mapM f l) as [ys0|e]; cbn [Py.bind]; [|discriminate].
    intros [= <-] [<-|Hin]; [eauto|].
    destruct (IH ys0 eq_refl Hin) as (x' & Hx' & Hf). eauto.
Qed.

Lemma getitem_present cols r c :
  length r = length cols -> In c cols -> getitem cols r c = Ok (get cols r c).
Proof.
  intros Hlen Hin. unfold getitem, get.
  destruct (cell_present cols r c Hlen Hin) as [v ->]. reflexivity.
Qed.

Section Libraries.

Variable to_datetime_strftime : list Val -> list Val.
Variable md5_hexdigest : string -> string.
Variable float_str : pyfloat -> string.
Variable numeric_of_text : string -> option pyfloat.

Abbreviation str := (Csv.str float_str).
Abbreviation row_hash := (Csv.row_hash md5_hexdigest float_str).
Abbreviation identity_hash := (Csv.identity_hash md5_hexdigest float_str).
Abbreviation dedupe := (Csv.dedupe md5_hexdigest float_str).
Abbreviation dedupe_if_ticket := (Csv.dedupe_if_ticket md5_hexdigest float_str).
Abbreviation prepare := (Csv.prepare to_datetime_strftime).
Abbreviation to_numeric := (Csv.to_numeric numeric_of_text).
Abbreviation coerce_column := (Csv.coerce_column numeric_of_text).
Abbreviation coerce := (Csv.coerce numeric_of_text).
Abbreviation clean := (Csv.clean numeric_of_text).
Abbreviation process_frame :=
  (Csv.process_frame to_datetime_strftime md5_hexdigest float_str numeric_of_text).
Abbreviation process_blob :=
  (Csv.process_blob to_datetime_strftime md5_hexdigest float_str numeric_of_text).
Abbreviation main :=
  (Csv.main to_datetime_strftime md5_hexdigest float_str numeric_of_text).

Lemma row_hash_present cols r :
  length r = length cols ->
  In "account_id" cols -> In "Ticket" cols -> In "timestamp" cols ->
  row_hash cols r = Ok (identity_hash cols r).
Proof.
  intros Hlen Ha Ht Hts. unfold Csv.row_hash, Csv.identity_hash.
  rewrite !getitem_present by assumption. reflexivity.
Qed.

Lemma assign_fresh df c (f : list Val -> Val) :
  ~ In c (columns df) ->
  assign df c (map f (rows df))
  = {| columns := columns df ++ [c];
       rows := map (fun r => r ++ [f r]) (rows df) |}.
Proof.
  intros Hc. unfold assign. apply has_column_false in Hc. rewrite Hc. f_equal.
  change (map (fun r => r ++ [f r]) (rows df))
    with ((fun r => r ++ [f r]) <$> rows df).
  change (map f (rows df)) with (f <$> rows df).
  rewrite <- (imap_const (fun r => r ++ [f r])). apply imap_ext. intros i r Hr. simpl.
  rewrite nth_lookup, list_lookup_fmap, Hr. reflexivity.
Qed.

(** On a rectangular frame that carries the three key columns and no
    column named [__hash], the three statements of the dedupe step leave
    the columns as they are and keep the rows whose identity hash was not
    met before. *)
Lemma dedupe_rows df :
  aligned df -> ~ In "__hash" (columns df) ->
  In "account_id" (columns df) -> In "Ticket" (columns df) ->
  In "timestamp" (columns df) ->
  dedupe df
  = Ok {| columns := columns df;
          rows := keep_unseen (identity_hash (columns df)) [] (rows df) |}.
Proof.
  intros Hal Hh Ha Ht Hts. unfold Csv.dedupe.
  unfold aligned in Hal. rewrite List.Forall_forall in Hal.
  rewrite (mapM_total _ (identity_hash (columns df))); cbn [Py.bind].
  2:{ intros r Hr. apply row_hash_present; auto. }
  rewrite map_map.
  rewrite (assign_fresh df "__hash" (fun r => VStr (identity_hash (columns df) r)))
    by assumption.
  unfold drop_duplicates, drop. cbn [columns rows]. f_equal. f_equal.
  - now apply filter_app_absent.
  - rewrite keep_unseen_map, map_map.
    rewrite (keep_unseen_ext _ (identity_hash (columns df))).
    2:{ intros r Hr. unfold get. rewrite cell_app_eq by auto. reflexivity. }
    transitivity (map id (keep_unseen (identity_hash (columns df)) [] (rows df)));
      [|apply map_id].
    apply map_ext_in. intros r Hr. apply keep_unseen_In in Hr as [Hr _].
    apply drop_cell_app; auto.
Qed.

(** C5. On a rectangular frame with the owner, ticket and timestamp
    columns (and no column already named [__hash]) the dedupe step hashes,
    for every row, the text of the owner key, the ticket and the
    normalised timestamp; it keeps the columns, and keeps the rows in
    their original order, one per hash, a row being kept exactly when it
    is the first row of the input with its hash; an input without
    duplicate hashes comes back unchanged, and deduplicating the result
    again changes nothing. *)
Theorem dedupe_keeps_first_occurrences (df : DataFrame) :
  aligned df -> ~ In "__hash" (columns df) ->
  In "account_id" (columns df) -> In "Ticket" (columns df) ->
  In "timestamp" (columns df) ->
  exists kept,
    dedupe df = Ok {| columns := columns df; rows := kept |} /\
    (forall r, In r (rows df) ->
       row_hash (columns df) r
       = Ok (md5_hexdigest (str (get (columns df) r "account_id")
                            +:+ str (get (columns df) r "Ticket")
                            +:+ str (get (columns df) r "timestamp")))) /\
    sublist kept (rows df) /\
    List.NoDup (map (identity_hash (columns df)) kept) /\
    (forall r, In r kept <->
       List.find (fun y => String.eqb (identity_hash (columns df) y)
                                      (identity_hash (columns df) r))
                 (rows df) = Some r) /\
    (List.NoDup (map (identity_hash (columns df)) (rows df)) -> dedupe df = Ok df) /\
    dedupe {| columns := columns df; rows := kept |}
    = Ok {| columns := columns df; rows := kept |}.
Proof.
  clear to_datetime_strftime numeric_of_text.
  intros Hal Hh Ha Ht Hts.
  exists (keep_unseen (identity_hash (columns df)) [] (rows df)).
  split; [now apply dedupe_rows|]. split; [|split; [|split; [|split; [|split]]]].
  - intros r Hr. unfold aligned in Hal. rewrite List.Forall_forall in Hal.
    now apply row_hash_present; auto.
  - apply keep_unseen_sublist.
  - apply keep_unseen_NoDup.
  - intros r. rewrite keep_unseen_first. simpl. tauto.
  - intros Hnd. rewrite dedupe_rows by assumption.
    rewrite keep_unseen_id by (auto; intros ? ? []). now destruct df.
  - rewrite dedupe_rows; cbn [columns rows]; try assumption.
    + now rewrite keep_unseen_twice.
    + unfold aligned in Hal |- *. cbn [columns rows].
      rewrite List.Forall_forall in Hal. apply List.Forall_forall.
      intros r Hr. apply keep_unseen_In in Hr as [Hr _]. auto.
Qed.

(** ** The frame after the coercion loop *)

Lemma prepare_aligned blob_name df : aligned df -> aligned (prepare blob_name df).
Proof.
  intros Hal. unfold Csv.prepare, assign_scalar.
  destruct (has_column _ "timestamp");
    repeat first [apply aligned_assign | apply aligned_rename]; assumption.
Qed.

Lemma numeric_cells_incl cs cs' df :
  (forall c, In c cs' -> In c cs) -> numeric_cells cs df -> numeric_cells cs' df.
Proof. intros Hincl H c r v Hc. apply H. auto. Qed.

Lemma coerce_numeric df :
  aligned df -> aligned (coerce df) /\ numeric_cells numeric_columns (coerce df).
Proof.
  intros Hal. unfold Csv.coerce.
  destruct (coerce_columns numeric_of_text numeric_columns [] df Hal)
    as [Hal1 Hnum1].
  { intros c r v []. }
  split; [assumption|].
  eapply numeric_cells_incl; [|exact Hnum1].
  intros c Hc. apply in_or_app. left. now apply in_rev in Hc.
Qed.

Lemma columns_assign_present df c vals :
  has_column df c = true -> columns (assign df c vals) = columns df.
Proof. intros H. unfold assign. now rewrite H. Qed.

Lemma columns_assign_absent df c vals :
  has_column df c = false -> columns (assign df c vals) = columns df ++ [c].
Proof. intros H. unfold assign. now rewrite H. Qed.

Lemma columns_coerce_columns cols : forall df,
  columns (fold_left coerce_column cols df) = columns df.
Proof.
  induction cols as [|c cols IH]; intros df; simpl; [reflexivity|].
  rewrite IH. unfold Csv.coerce_column.
  destruct (has_column df c) eqn:E; [now apply columns_assign_present|reflexivity].
Qed.

Lemma columns_coerce df : columns (coerce df) = columns df.
Proof. apply columns_coerce_columns. Qed.

Lemma columns_prepare blob_name df0 c :
  In c (columns (prepare blob_name df0)) <->
  In c (map rename_column (columns df0)) \/ c = "account_id".
Proof.
  clear md5_hexdigest numeric_of_text.
  unfold Csv.prepare.
  set (df1 := rename (assign_scalar df0 "account_id" _)).
  assert (In c (columns df1) <->
          In c (map rename_column (columns df0)) \/ c = "account_id") as H1.
  { unfold df1, rename, assign_scalar. cbn [columns].
    destruct (has_column df0 "account_id") eqn:E.
    - rewrite columns_assign_present by assumption. split; [tauto|].
      intros [H| ->]; [assumption|]. apply has_column_In in E.
      apply in_map_iff. exists "account_id". split; [reflexivity|assumption].
    - rewrite columns_assign_absent by assumption.
      rewrite map_app, in_app_iff. simpl. split.
      + intros [H|[<-|[]]]; auto.
      + intros [H| ->]; auto. }
  destruct (has_column df1 "timestamp") eqn:Hts; [|exact H1].
  now rewrite columns_assign_present.
Qed.

(** ** Rows by position *)

Lemma nth_map_lookup {A B} (f : A -> B) (l : list A) (i : nat) (x : A) (d : B) :
  l !! i = Some x -> nth i (map f l) d = f x.
Proof.
  intros H. change (map f l) with (f <$> l).
  now rewrite nth_lookup, list_lookup_fmap, H.
Qed.

Lemma nth_repeat_lookup {A B} (l : list A) (i : nat) (x : A) (v d : B) :
  l !! i = Some x -> nth i (repeat v (length l)) d = v.
Proof.
  intros H. apply lookup_lt_Some in H.
  rewrite (nth_indep _ d v) by (rewrite repeat_length; exact H).
  apply nth_repeat.
Qed.

Lemma cell_set_cell_present cols r c v :
  length r = length cols -> In c cols -> cell cols (set_cell cols r c v) c = Some v.
Proof.
  intros Hlen Hin.
  destruct (cell_present cols (set_cell cols r c v) c) as [x Hx];
    [now rewrite length_set_cell|assumption|].
  rewrite Hx. f_equal. eapply cell_set_cell_eq; eauto.
Qed.

(** Assigning a column keeps every row in its place: row [i] holds the
    [i]-th value under the column, and its other cells as they were. *)
Lemma assign_lookup df c vals i r :
  aligned df -> rows df !! i = Some r ->
  exists r', rows (assign df c vals) !! i = Some r' /\
    cell (columns (assign df c vals)) r' c = Some (nth i vals (VFloat FNaN)) /\
    (forall c', c' <> c ->
                cell (columns (assign df c vals)) r' c' = cell (columns df) r c').
Proof.
  clear to_datetime_strftime md5_hexdigest float_str numeric_of_text.
  intros Hal Hr. pose proof (lookup_In _ _ _ Hr) as Hin.
  unfold aligned in Hal. rewrite List.Forall_forall in Hal. specialize (Hal r Hin).
  unfold assign. destruct (has_column df c) eqn:Hc; cbn [columns rows];
    rewrite list_lookup_imap, Hr; simpl; eexists; (split; [reflexivity|]); split.
  - apply cell_set_cell_present; [assumption|now apply has_column_In].
  - intros c' Hne. now apply cell_set_cell_ne.
  - apply has_column_false in Hc. now apply cell_app_eq.
  - intros c' Hne. now apply cell_app_ne.
Qed.

(** One step of the coercion loop, on row [i]. *)
Lemma coerce_column_lookup df col i r :
  aligned df -> rows df !! i = Some r ->
  exists r', rows (coerce_column df col) !! i = Some r' /\
    forall c, cell (columns (coerce_column df col)) r' c
              = if String.eqb c col
                then option_map to_numeric (cell (columns df) r c)
                else cell (columns df) r c.
Proof.
  clear to_datetime_strftime md5_hexdigest float_str.
  intros Hal Hr. unfold Csv.coerce_column.
  destruct (has_column df col) eqn:Hcol.
  - destruct (assign_lookup df col (map to_numeric (series df col)) i r Hal Hr)
      as (r' & Hr' & Hsame & Hother).
    exists r'. split; [exact Hr'|]. intros c.
    destruct (String.eqb_spec c col) as [->|Hne]; [|now apply Hother].
    rewrite Hsame. unfold series. rewrite map_map, (nth_map_lookup _ _ _ _ _ Hr).
    unfold get. apply has_column_In in Hcol.
    unfold aligned in Hal. rewrite List.Forall_forall in Hal.
    destruct (cell_present (columns df) r col) as [y ->];
      [apply Hal; eapply lookup_In; eauto|assumption|reflexivity].
  - exists r. split; [exact Hr|]. intros c.
    destruct (String.eqb_spec c col) as [->|Hne]; [|reflexivity].
    apply has_column_false in Hcol. now rewrite cell_absent.
Qed.

Lemma coerce_columns_lookup cols : forall df i r,
  List.NoDup cols -> aligned df -> rows df !! i = Some r ->
  exists r', rows (fold_left coerce_column cols df) !! i = Some r' /\
    forall c, cell (columns (fold_left coerce_column cols df)) r' c
              = if existsb (String.eqb c) cols
                then option_map to_numeric (cell (columns df) r c)
                else cell (columns df) r c.
Proof.
  clear to_datetime_strftime md5_hexdigest float_str.
  induction cols as [|col cols IH]; intros df i r Hnd Hal Hr;
    cbn [fold_left existsb].
  - eauto.
  - apply List.NoDup_cons_iff in Hnd as [Hcol Hnd].
    destruct (coerce_column_lookup df col i r Hal Hr) as (r1 & Hr1 & Hstep).
    destruct (IH (coerce_column df col) i r1 Hnd
                (aligned_coerce_column _ _ _ Hal) Hr1) as (r' & Hr' & Hcell).
    exists r'. split; [exact Hr'|]. intros c. rewrite Hcell, Hstep.
    destruct (String.eqb_spec c col) as [->|Hne]; cbn [orb]; [|reflexivity].
    now rewrite (proj2 (seen_not_In col cols)) by assumption.
Qed.

Lemma numeric_columns_NoDup : List.NoDup numeric_columns.
Proof.
  unfold numeric_columns.
  repeat (constructor; [apply seen_not_In; reflexivity|]). constructor.
Qed.

(** The coercion loop, on row [i]: a column of the coercion list holds
    what [to_numeric] makes of the cell, any other column the cell
    itself. *)
Lemma coerce_lookup df i r :
  aligned df -> rows df !! i = Some r ->
  exists r', rows (coerce df) !! i = Some r' /\
    forall c, cell (columns (coerce df)) r' c
              = if existsb (String.eqb c) numeric_columns
                then option_map to_numeric (cell (columns df) r c)
                else cell (columns df) r c.
Proof. apply coerce_columns_lookup. apply numeric_columns_NoDup. Qed.

Lemma cell_map_set_cell (f : string -> string) cols a v c : forall r,
  f a <> c ->
  cell (map f cols) (set_cell cols r a v) c = cell (map f cols) r c.
Proof.
  intros r Hne. revert r.
  induction cols as [|c' cols IH]; intros [|x r]; simpl; try reflexivity.
  destruct (String.eqb_spec a c') as [<-|Hac]; simpl.
  - destruct (String.eqb_spec c (f a)) as [->|_]; [contradiction|reflexivity].
  - destruct (String.eqb c (f c')); [reflexivity|apply IH].
Qed.

Lemma cell_map_fixed (f : string -> string) cols a : forall r,
  (forall c', f c' = a <-> c' = a) ->
  cell (map f cols) r a = cell cols r a.
Proof.
  intros r Hf. revert r.
  induction cols as [|c' cols IH]; intros [|x r]; simpl; try reflexivity.
  destruct (String.eqb_spec a (f c')) as [E|E], (String.eqb_spec a c') as [E'|E'];
    try reflexivity; try apply IH.
  - exfalso. apply E'. symmetry. apply Hf. now symmetry.
  - exfalso. apply E. subst c'. symmetry. now apply Hf.
Qed.

Lemma rename_column_account_id c :
  rename_column c = "account_id" <-> c = "account_id".
Proof.
  split; [|now intros ->].
  unfold rename_column. cbn [RENAME List.find fst snd].
  repeat match goal with
         | |- context [String.eqb c ?k] => destruct (String.eqb c k); [discriminate|]
         end.
  auto.
Qed.

(** The frame after the owner column and the renames, on row [i]. *)
Lemma renamed_lookup df0 v i r0 :
  aligned df0 -> rows df0 !! i = Some r0 ->
  exists r1,
    rows (rename (assign_scalar df0 "account_id" v)) !! i = Some r1 /\
    cell (columns (rename (assign_scalar df0 "account_id" v))) r1 "account_id"
    = Some v /\
    forall c, c <> "account_id" ->
      cell (columns (rename (assign_scalar df0 "account_id" v))) r1 c
      = cell (map rename_column (columns df0)) r0 c.
Proof.
  clear to_datetime_strftime md5_hexdigest float_str numeric_of_text.
  intros Hal Hr0. pose proof (lookup_In _ _ _ Hr0) as Hin.
  unfold aligned in Hal. rewrite List.Forall_forall in Hal. specialize (Hal r0 Hin).
  unfold rename, assign_scalar, assign.
  destruct (has_column df0 "account_id") eqn:Ha; cbn [columns rows];
    rewrite list_lookup_imap, Hr0; simpl; eexists; (split; [reflexivity|]);
    rewrite (nth_repeat_lookup _ _ _ _ _ Hr0); split.
  - rewrite cell_map_fixed by exact rename_column_account_id.
    apply cell_set_cell_present; [assumption|now apply has_column_In].
  - intros c Hc. apply cell_map_set_cell. intros E. apply Hc. symmetry. exact E.
  - rewrite cell_map_fixed by exact rename_column_account_id.
    apply has_column_false in Ha. now apply cell_app_eq.
  - intros c Hc. rewrite map_app. cbn [map].
    change (rename_column "account_id") with "account_id".
    apply cell_app_ne; [now rewrite length_map|assumption].
Qed.

(** The frame at the required-columns check against the file, on row
    [i]: the owner column holds the account read off the object name, and
    every other column but the timestamp holds the cell of the file that
    is renamed to it. *)
Lemma prepare_lookup blob_name df0 i r0 :
  aligned df0 -> rows df0 !! i = Some r0 ->
  exists r1,
    rows (prepare blob_name df0) !! i = Some r1 /\
    cell (columns (prepare blob_name df0)) r1 "account_id"
    = Some (VStr (split_head ".csv" (basename blob_name))) /\
    forall c, c <> "account_id" -> c <> "timestamp" ->
      cell (columns (prepare blob_name df0)) r1 c
      = cell (map rename_column (columns df0)) r0 c.
Proof.
  clear md5_hexdigest float_str numeric_of_text.
  intros Hal Hr0. unfold Csv.prepare.
  set (v := VStr (split_head ".csv" (basename blob_name))).
  set (df2 := rename (assign_scalar df0 "account_id" v)).
  assert (aligned df2) as Hal2.
  { unfold df2, assign_scalar. now apply aligned_rename, aligned_assign. }
  destruct (renamed_lookup df0 v i r0 Hal Hr0) as (r2 & Hr2 & Hid & Hcells).
  fold df2 in Hr2, Hid, Hcells.
  destruct (has_column df2 "timestamp").
  - destruct (assign_lookup df2 "timestamp"
                (to_datetime_strftime (series df2 "timestamp")) i r2 Hal2 Hr2)
      as (r1 & Hr1 & _ & Hother).
    exists r1. split; [exact Hr1|]. split.
    + rewrite Hother by discriminate. exact Hid.
    + intros c Hc Hts. rewrite Hother by assumption. now apply Hcells.
  - exists r2. split; [exact Hr2|]. split; [exact Hid|].
    intros c Hc _. now apply Hcells.
Qed.

(** The frame the coercion loop leaves against the file, on row [i]. *)
Lemma coerced_lookup blob_name df0 i r0 :
  aligned df0 -> rows df0 !! i = Some r0 ->
  exists r,
    rows (coerce (prepare blob_name df0)) !! i = Some r /\
    cell (columns (coerce (prepare blob_name df0))) r "account_id"
    = Some (VStr (split_head ".csv" (basename blob_name))) /\
    forall c, c <> "account_id" -> c <> "timestamp" ->
      cell (columns (coerce (prepare blob_name df0))) r c
      = if existsb (String.eqb c) numeric_columns
        then option_map to_numeric (cell (map rename_column (columns df0)) r0 c)
        else cell (map rename_column (columns df0)) r0 c.
Proof.
  clear md5_hexdigest float_str.
  intros Hal Hr0.
  destruct (prepare_lookup blob_name df0 i r0 Hal Hr0) as (r1 & Hr1 & Hid & Hcells).
  destruct (coerce_lookup (prepare blob_name df0) i r1
              (prepare_aligned blob_name df0 Hal) Hr1) as (r & Hr & Hco).
  exists r. split; [exact Hr|]. split.
  - rewrite Hco. cbn [existsb numeric_columns String.eqb Ascii.eqb Bool.eqb orb].
    exact Hid.
  - intros c Hc Hts. rewrite Hco, (Hcells c Hc Hts). reflexivity.
Qed.

(** ** The placeholder loop *)

(** The loop over the GPT placeholders ends in its first iteration, in
    the exception of [df.setdefault]. *)
Lemma placeholders_raise df :
  placeholders df
  = Raise (if has_column df "setdefault"
           then TypeError "'Series' object is not callable"
           else AttributeError "setdefault").
Proof.
  unfold placeholders. cbn [gpt_columns fold_left Py.bind].
  rewrite setdefault_raises. reflexivity.
Qed.

Lemma clean_raises df :
  clean df
  = Raise (if has_column df "setdefault"
           then TypeError "'Series' object is not callable"
           else AttributeError "setdefault").
Proof.
  unfold Csv.clean. rewrite placeholders_raise.
  unfold has_column. now rewrite columns_coerce.
Qed.

(** ** The unit processor *)

(** A unit whose required columns are incomplete does nothing but log
    one warning. *)
Lemma process_frame_skips blob_name df0 w :
  forallb (has_column (prepare blob_name df0)) required = false ->
  process_frame blob_name df0 w
  = logging WARNING "Skipping {blob.name}: missing one of {required}"
      [VStr blob_name] None w.
Proof. intros Hreq. unfold Csv.process_frame. cbv zeta. now rewrite Hreq. Qed.

(** A unit whose required columns are all there ends in the placeholder
    loop, before the dedupe step and before a connection is asked for. *)
Lemma process_frame_fails blob_name df0 w :
  forallb (has_column (prepare blob_name df0)) required = true ->
  process_frame blob_name df0 w
  = (Raise (if has_column (prepare blob_name df0) "setdefault"
            then TypeError "'Series' object is not callable"
            else AttributeError "setdefault"), w).
Proof.
  intros Hreq. unfold Csv.process_frame. cbv zeta. rewrite Hreq. cbn [negb].
  erewrite lift_raise by apply clean_raises. reflexivity.
Qed.

Lemma process_blob_skips blob df0 w :
  content blob = Ok df0 ->
  forallb (has_column (prepare (name blob) df0)) required = false ->
  process_blob blob w
  = (Ok tt,
     {| db := db w;
        log := log w
               ++ [{| level := INFO; message := "Starting {blob.name}";
                      args := [VStr (name blob)]; exc_info := None |};
                   {| level := WARNING;
                      message := "Skipping {blob.name}: missing one of {required}";
                      args := [VStr (name blob)]; exc_info := None |}];
        open_conns := open_conns w;
        sent := sent w |}).
Proof.
  intros Hc Hreq. unfold Csv.process_blob.
  erewrite try_except_ok.
  2:{ erewrite bindM_ok by reflexivity. erewrite lift_ok by exact Hc.
      rewrite process_frame_skips by exact Hreq. reflexivity. }
  cbn [db log open_conns sent]. now rewrite <- app_assoc.
Qed.

(** A file that has every required column fails in the placeholder loop:
    the exception of [df.setdefault] is logged, and that is all the unit
    does. *)
Lemma process_blob_fails blob df0 w :
  content blob = Ok df0 ->
  forallb (has_column (prepare (name blob) df0)) required = true ->
  process_blob blob w
  = (Ok tt,
     {| db := db w;
        log := log w
               ++ [{| level := INFO; message := "Starting {blob.name}";
                      args := [VStr (name blob)]; exc_info := None |};
                   {| level := ERROR;
                      message := "Error processing {blob.name}: {e}";
                      args := [VStr (name blob)];
                      exc_info :=
                        Some (if has_column (prepare (name blob) df0) "setdefault"
                              then TypeError "'Series' object is not callable"
                              else AttributeError "setdefault") |}];
        open_conns := open_conns w;
        sent := sent w |}).
Proof.
  intros Hc Hreq. unfold Csv.process_blob.
  erewrite try_except_raise.
  2:{ erewrite bindM_ok by reflexivity. erewrite lift_ok by exact Hc.
      apply process_frame_fails. exact Hreq. }
  unfold logging. cbn [db log open_conns sent]. now rewrite <- app_assoc.
Qed.

(** An object that cannot be read fails with the exception of the
    reader. *)
Lemma process_blob_unreadable blob e w :
  content blob = Raise e ->
  process_blob blob w
  = (Ok tt,
     {| db := db w;
        log := log w
               ++ [{| level := INFO; message := "Starting {blob.name}";
                      args := [VStr (name blob)]; exc_info := None |};
                   {| level := ERROR;
                      message := "Error processing {blob.name}: {e}";
                      args := [VStr (name blob)]; exc_info := Some e |}];
        open_conns := open_conns w;
        sent := sent w |}).
Proof.
  intros Hc. unfold Csv.process_blob.
  erewrite try_except_raise.
  2:{ erewrite bindM_ok by reflexivity. erewrite lift_raise by exact Hc.
      reflexivity. }
  unfold logging. cbn [db log open_conns sent]. now rewrite <- app_assoc.
Qed.

(** Every unit returns normally with two more lines in the log, the
    start line and a warning or an error, and with nothing else
    changed: no connection was asked for and no tuple handed to a
    cursor. *)
Lemma process_blob_outcome blob w :
  exists l,
    process_blob blob w
    = (Ok tt,
       {| db := db w;
          log := log w
                 ++ [{| level := INFO; message := "Starting {blob.name}";
                        args := [VStr (name blob)]; exc_info := None |}; l];
          open_conns := open_conns w;
          sent := sent w |}) /\
    (l = {| level := WARNING;
            message := "Skipping {blob.name}: missing one of {required}";
            args := [VStr (name blob)]; exc_info := None |} \/
     exists e, l = {| level := ERROR;
                      message := "Error processing {blob.name}: {e}";
                      args := [VStr (name blob)]; exc_info := Some e |}).
Proof.
  destruct (content blob) as [df0|e] eqn:Hc.
  - destruct (forallb (has_column (prepare (name blob) df0)) required) eqn:Hreq.
    + eexists. split; [apply (process_blob_fails blob df0 w Hc Hreq)|].
      right. eexists. reflexivity.
    + eexists. split; [apply (process_blob_skips blob df0 w Hc Hreq)|].
      left. reflexivity.
  - eexists. split; [apply (process_blob_unreadable blob e w Hc)|].
    right. eexists. reflexivity.
Qed.

Lemma process_blob_frame blob w :
  fst (process_blob blob w) = Ok tt /\
  db (snd (process_blob blob w)) = db w /\
  open_conns (snd (process_blob blob w)) = open_conns w /\
  sent (snd (process_blob blob w)) = sent w.
Proof.
  destruct (process_blob_outcome blob w) as (l & -> & _). repeat split.
Qed.

Lemma main_frame blobs : forall w,
  db (main blobs w) = db w /\ open_conns (main blobs w) = open_conns w /\
  sent (main blobs w) = sent w.
Proof.
  unfold Csv.main.
  induction blobs as [|b blobs IH]; intros w; cbn [fold_left]; [auto|].
  destruct (IH (snd (process_blob b w))) as (-> & -> & ->).
  destruct (process_blob_frame b w) as (_ & -> & -> & ->). auto.
Qed.

End Libraries.

Lemma dedupe_keeps_first_occurrences_witness :
  exists kept,
    Csv.dedupe Samples.md5_hexdigest Samples.float_str Samples.coerced_frame
    = Ok {| columns := columns Samples.coerced_frame; rows := kept |} /\
    length (rows Samples.coerced_frame) = 3%nat /\ length kept = 2%nat.
Proof.
  destruct (dedupe_keeps_first_occurrences
              Samples.md5_hexdigest Samples.float_str Samples.coerced_frame)
    as (kept & Hd & _).
  - unfold aligned. vm_compute. repeat constructor.
  - refine (proj1 (has_column_false _ _) _). vm_compute. reflexivity.
  - refine (proj1 (has_column_In _ _) _). vm_compute. reflexivity.
  - refine (proj1 (has_column_In _ _) _). vm_compute. reflexivity.
  - refine (proj1 (has_column_In _ _) _). vm_compute. reflexivity.
  - exists kept. split; [exact Hd|]. split; [vm_compute; reflexivity|].
    vm_compute in Hd. injection Hd as <-. reflexivity.
Defined.

End CsvFacts.

(* ===================================================================== *)
(** * Unit-level properties of the two pipelines                          *)
(* ===================================================================== *)

Module Pipeline.

Import ProcFacts SqlFacts.

Lemma not_In_check (c : string) (l : list string) :
  existsb (String.eqb c) l = false -> ~ In c l.
Proof. apply CsvFacts.seen_not_In. Qed.

Section Libraries.

Variable strptime_isoformat : string -> option string.
Variable to_datetime_strftime : list Val -> list Val.
Variable md5_hexdigest : string -> string.
Variable float_str : pyfloat -> string.
Variable numeric_of_text : string -> option pyfloat.

Abbreviation process_account := (Rss.process_account strptime_isoformat).
Abbreviation position_tuple := (Rss.position_tuple strptime_isoformat).
Abbreviation prepare := (Csv.prepare to_datetime_strftime).
Abbreviation coerce := (Csv.coerce numeric_of_text).
Abbreviation process_blob :=
  (Csv.process_blob to_datetime_strftime md5_hexdigest float_str numeric_of_text).
Abbreviation csv_main :=
  (Csv.main to_datetime_strftime md5_hexdigest float_str numeric_of_text).

(** ** Required columns *)

Lemma prepare_columns blob_name df0 c :
  In c (Csv.columns (prepare blob_name df0)) ->
  In c (map Csv.rename_column (Csv.columns df0)) \/ c = "account_id".
Proof.
  clear strptime_isoformat md5_hexdigest numeric_of_text.
  unfold Csv.prepare.
  set (df1 := Csv.rename (Csv.assign_scalar df0 "account_id" _)).
  assert (In c (Csv.columns df1) ->
          In c (map Csv.rename_column (Csv.columns df0)) \/ c = "account_id") as H1.
  { unfold df1, Csv.rename, Csv.assign_scalar, Csv.assign. cbn [Csv.columns].
    destruct (Csv.has_column df0 "account_id"); cbn [Csv.columns]; [tauto|].
    rewrite map_app. intros H. apply in_app_or in H as [H|[<-|[]]]; auto. }
  destruct (Csv.has_column df1 "timestamp") eqn:Hts; [|exact H1].
  unfold Csv.assign. rewrite Hts. exact H1.
Qed.

Lemma missing_required_column blob_name df0 :
  (exists c, In c Csv.required /\
             ~ In c (map Csv.rename_column (Csv.columns df0))) ->
  forallb (Csv.has_column (prepare blob_name df0)) Csv.required = false.
Proof.
  intros (c & Hreq & Habsent).
  destruct (forallb _ Csv.required) eqn:E; [|reflexivity].
  rewrite forallb_forall in E. specialize (E c Hreq).
  apply CsvFacts.has_column_In in E. apply prepare_columns in E as [E| ->].
  - contradiction.
  - exfalso. revert Hreq. apply not_In_check. reflexivity.
Qed.

Lemma main_app blobs1 blobs2 w :
  csv_main (blobs1 ++ blobs2) w = csv_main blobs2 (csv_main blobs1 w).
Proof. unfold Csv.main. apply fold_left_app. Qed.


(** ** Tickets at the writer *)

(** C6. No tuple reaches the trade upsert without an integer in its ticket
    column.  A CSV unit hands no tuple to a cursor at all.  In the RSS
    pipeline every tuple handed to the trade upsert has an integer
    ticket; an entry without a ticket field is passed over, and one whose
    ticket [int] rejects fails its unit before any tuple is built for
    it. *)
Theorem ticket_is_an_integer_at_the_writer :
  (forall blob w, sent (snd (process_blob blob w)) = sent w) /\
  (forall BATCH_SIZE row feed w t,
      sent_since "rss_trades" w (snd (process_account BATCH_SIZE row feed w)) t ->
      exists z, field Rss.trades_stmt t "ticket" = VInt z) /\
  (forall BATCH_SIZE a item rest s trades view w,
      Rss.hasattr item "position_ticket" = false ->
      Rss.feed_loop strptime_isoformat BATCH_SIZE a (item :: rest) s trades view w
      = bindM (lift (Rss.account_summary s item))
              (fun s' => Rss.feed_loop strptime_isoformat BATCH_SIZE a rest s'
                                       trades view) w) /\
  (forall BATCH_SIZE row feed item x w,
      In item feed -> item !! "position_ticket" = Some x ->
      int_of_string x = None ->
      unit_failed (fst (process_account BATCH_SIZE row feed w)) w
                  (snd (process_account BATCH_SIZE row feed w))).
Proof.
  split; [|split; [|split]].
  - intros blob w. apply CsvFacts.process_blob_frame.
  - intros BATCH_SIZE row feed w t Hsent.
    refine (sent_since_sends_only
              (fun tbl t => tbl = "rss_trades" ->
                            exists z, field Rss.trades_stmt t "ticket" = VInt z)
              (process_account BATCH_SIZE row feed)
              "rss_trades" w t _ Hsent eq_refl).
    apply RssFacts.process_account_sent. intros a s item t' _ _ Ht.
    apply RssFacts.position_tuple_fields in Ht
      as (_ & _ & _ & (x & z & _ & _ & Hz) & _). eauto.
  - intros BATCH_SIZE a item rest s trades view w Hno.
    cbn [Rss.feed_loop]. unfold bindM, lift.
    destruct (Rss.account_summary s item); [|reflexivity].
    now rewrite Hno.
  - intros BATCH_SIZE row feed item x w Hin Hx Hbad.
    apply RssFacts.process_account_fails with (item := item); [assumption| |].
    + unfold Rss.hasattr. now rewrite Hx.
    + intros a s. now apply RssFacts.garbage_int_raises with (x := x).
Qed.

(** ** Numeric columns *)


End Libraries.


(** The unit of account [acc1] on a feed with the one position 55: the
    tuple it hands to the trade upsert carries the integer 55. *)
Lemma ticket_is_an_integer_at_the_writer_witness :
  exists t,
    sent_since "rss_trades" Samples.world0
      (snd (Rss.process_account Samples.strptime_isoformat 100 Samples.roster_row
              [Samples.position "55" "1" "1.10" "0"] Samples.world0)) t /\
    field Rss.trades_stmt t "ticket" = VInt 55.
Proof.
  destruct (ticket_is_an_integer_at_the_writer
              Samples.strptime_isoformat Samples.to_datetime_strftime
              Samples.md5_hexdigest Samples.float_str Samples.numeric_of_text)
    as (_ & Hrss & _).
  assert (exists t,
             sent_since "rss_trades" Samples.world0
               (snd (Rss.process_account Samples.strptime_isoformat 100
                       Samples.roster_row
                       [Samples.position "55" "1" "1.10" "0"] Samples.world0)) t /\
             field Rss.trades_stmt t "ticket" = VInt 55) as (t & Ht & H55).
  { eexists. split.
    - eexists. split; [vm_compute; reflexivity|]. right. left. reflexivity.
    - vm_compute. reflexivity. }
  exists t. split; [exact Ht|].
  destruct (Hrss 100 Samples.roster_row [Samples.position "55" "1" "1.10" "0"]
                 Samples.world0 t Ht) as [z Hz].
  rewrite Hz in H55 |- *. exact H55.
Defined.



(** C3 on a roster row whose trade-win cell is not a number. [to_pct]
    runs before the [try]: its [ValueError] leaves [process_account],
    nothing is logged and no failed outcome is recorded; the future keeps
    the exception, and [main], which asks no future for its result, goes
    on with the next unit. *)
Theorem percent_error_escapes_the_processor :
  Rss.process_account Samples.strptime_isoformat 100 Samples.roster_row_bad_win
                      [Samples.position "55" "1" "1.10" "0"] Samples.world0
  = (Raise (ValueError "could not convert string to float"), Samples.world0) /\
  Rss.main Samples.strptime_isoformat 100
           [(Samples.roster_row_bad_win, [Samples.position "55" "1" "1.10" "0"]);
            (Samples.roster_row, [Samples.position "56" "1" "1.10" "0"])]
           Samples.world0
  = snd (Rss.process_account Samples.strptime_isoformat 100 Samples.roster_row
                             [Samples.position "56" "1" "1.10" "0"]
                             Samples.world0).
Proof. split; vm_compute; reflexivity. Qed.

(** C9 on failing units.  An RSS unit returns, its error logged, with the
    connection it opened still open: so does the unit whose lots field is
    not a number, so does the unit of a well-formed position, which the
    store rejects, and so does every unit that logs an error for a feed
    with a position entry.  [conn.close()] is the last statement of the
    [try] body and is reached on the successful path only, as the unit of
    a feed without positions shows.  A CSV unit never asks for a
    connection, so it has none to release. *)
Theorem failed_unit_leaves_its_connection_open :
  (let w' := snd (Rss.process_account Samples.strptime_isoformat 100
                    Samples.roster_row
                    [Samples.position "55" "abc" "1.10" "0"] Samples.world0) in
   open_conns w' = 1%nat /\
   map level (log w') = [ERROR]) /\
  (let w' := snd (Rss.process_account Samples.strptime_isoformat 100
                    Samples.roster_row
                    [Samples.position "55" "1" "1.10" "0"] Samples.world0) in
   open_conns w' = 1%nat /\
   map level (log w') = [ERROR] /\
   map exc_info (log w') = [Some (DatabaseError "syntax error")]) /\
  (let w' := snd (Rss.process_account Samples.strptime_isoformat 100
                    Samples.roster_row [Samples.summary_entry] Samples.world0) in
   open_conns w' = 0%nat /\
   map level (log w') = [INFO]) /\
  (forall strptime_isoformat BATCH_SIZE row feed item w,
      In item feed -> Rss.hasattr item "position_ticket" = true ->
      fst (Rss.process_account strptime_isoformat BATCH_SIZE row feed w) = Ok tt ->
      open_conns (snd (Rss.process_account strptime_isoformat BATCH_SIZE row feed w))
      = S (open_conns w)) /\
  (forall to_datetime_strftime md5_hexdigest float_str numeric_of_text blob w,
      open_conns (snd (Csv.process_blob to_datetime_strftime md5_hexdigest
                         float_str numeric_of_text blob w))
      = open_conns w).
Proof.
  split; [|split; [|split; [|split]]].
  - split; vm_compute; reflexivity.
  - repeat split; vm_compute; reflexivity.
  - split; vm_compute; reflexivity.
  - intros strptime_isoformat BATCH_SIZE row feed item w Hin Hticket.
    apply (RssFacts.position_fails_the_unit strptime_isoformat BATCH_SIZE row feed
             item w Hin Hticket).
  - intros to_datetime_strftime md5_hexdigest float_str numeric_of_text blob w.
    apply CsvFacts.process_blob_frame.
Qed.

End Pipeline.

(* ===================================================================== *)
(** * More facts about the statements                                     *)
(* ===================================================================== *)

Module StoreFacts.

Import SqlFacts.

(** What a successful [execute] did: one row of one table was inserted
    or updated. *)
Lemma execute_inv stmt params d d' :
  execute stmt params d = Ok d' ->
  exists ex k,
    excluded_row stmt params = Ok ex /\
    key_of_val (column ex (conflict_target stmt)) = Ok k /\
    d' = <[table stmt := upsert_row stmt ex k (get_table d (table stmt))]> d.
Proof.
  unfold execute.
  destruct (excluded_row stmt params) as [ex|e]; cbn [Py.bind]; [|discriminate].
  destruct (key_of_val _) as [k|e] eqn:Ek; cbn [Py.bind]; [|discriminate].
  intros [= <-]. eauto.
Qed.

Lemma get_table_other (d d' : DB) t : d' !! t = d !! t -> get_table d' t = get_table d t.
Proof. unfold get_table. now intros ->. Qed.

Lemma upsert_row_other stmt ex k k' tbl :
  k' <> k -> upsert_row stmt ex k tbl !! k' = tbl !! k'.
Proof.
  intros Hne. unfold upsert_row.
  destruct (tbl !! k); now rewrite lookup_insert_ne by congruence.
Qed.

(** The row an upsert leaves under its key: the proposed row when the
    key is new, the stored row with the [SET] columns replaced when it
    is not. *)
Lemma upsert_row_same stmt ex k tbl :
  upsert_row stmt ex k tbl !! k
  = Some match tbl !! k with
         | None => ex
         | Some old => do_update stmt old ex
         end.
Proof. unfold upsert_row. destruct (tbl !! k); apply lookup_insert_eq. Qed.

Lemma execute_other_table stmt params d d' t :
  execute stmt params d = Ok d' -> t <> table stmt -> d' !! t = d !! t.
Proof.
  intros H Hne. apply execute_inv in H as (ex & k & _ & _ & ->).
  now rewrite lookup_insert_ne by congruence.
Qed.

Lemma execute_other_key stmt params d d' k' :
  execute stmt params d = Ok d' ->
  (forall ex, excluded_row stmt params = Ok ex ->
              key_of_val (column ex (conflict_target stmt)) <> Ok k') ->
  get_table d' (table stmt) !! k' = get_table d (table stmt) !! k'.
Proof.
  intros H Hk. apply execute_inv in H as (ex & k & Hex & Hkey & ->).
  rewrite get_table_insert. apply upsert_row_other.
  intros ->. exact (Hk ex Hex Hkey).
Qed.

Lemma executemany_other_table stmt seq t : forall d d',
  executemany stmt seq d = Ok d' -> t <> table stmt -> d' !! t = d !! t.
Proof.
  induction seq as [|p seq IH]; intros d d'; simpl.
  - now intros [= <-].
  - destruct (execute stmt p d) as [d1|e] eqn:E; cbn [Py.bind]; [|discriminate].
    intros H Hne. rewrite (IH _ _ H Hne). eapply execute_other_table; eauto.
Qed.

Lemma executemany_other_key stmt seq k' : forall d d',
  executemany stmt seq d = Ok d' ->
  (forall p ex, In p seq -> excluded_row stmt p = Ok ex ->
                key_of_val (column ex (conflict_target stmt)) <> Ok k') ->
  get_table d' (table stmt) !! k' = get_table d (table stmt) !! k'.
Proof.
  induction seq as [|p seq IH]; intros d d'; simpl.
  - now intros [= <-].
  - destruct (execute stmt p d) as [d1|e] eqn:E; cbn [Py.bind]; [|discriminate].
    intros H Hk. rewrite (IH _ _ H) by (intros p' ex Hin; apply Hk; now right).
    eapply execute_other_key; [exact E|]. intros ex. apply Hk. now left.
Qed.

(** With one placeholder per column, the proposed row is the tuple read
    against the column list. *)
Lemma excluded_row_params stmt params ex c :
  values stmt = [repeat Param (length (insert_columns stmt))] ->
  excluded_row stmt params = Ok ex ->
  column ex c = field stmt params c.
Proof.
  intros Hvals Hex. unfold field.
  apply excluded_row_inv in Hex as (vs & Hb & _ & _ & ->).
  rewrite Hvals in Hb. cbn [concat] in Hb. rewrite app_nil_r in Hb.
  apply bind_values_params in Hb. subst vs. apply column_zip.
Qed.

Lemma lookup_zip_None (cols : list string) (vs : list Val) (c : string) :
  ~ In c cols -> (list_to_map (zip cols vs) : Row) !! c = None.
Proof.
  revert vs. induction cols as [|c' cols IH]; intros [|v vs] Hn; simpl;
    try apply lookup_empty.
  rewrite lookup_insert_ne by (intros ->; apply Hn; now left).
  apply IH. intros H. apply Hn. now right.
Qed.

(** The store takes any sequence of tuples that have one value per
    column and a key the key column can hold, when the statement has one
    placeholder per column and parses. *)
Lemma executemany_accepts stmt seq : forall d,
  values stmt = [repeat Param (length (insert_columns stmt))] ->
  set_ends_in_comma stmt = false ->
  Forall (fun p => length p = length (insert_columns stmt) /\
                   exists k, key_of_val (field stmt p (conflict_target stmt)) = Ok k)
         seq ->
  exists d', executemany stmt seq d = Ok d'.
Proof.
  induction seq as [|p seq IH]; intros d Hvals Hcomma Hall; [simpl; eauto|].
  inversion Hall as [|p' seq' [Hlen (k & Hk)] Hrest]; subst.
  pose proof (excluded_row_all_params stmt p Hvals Hcomma Hlen) as Hex.
  cbn [executemany]. unfold execute. rewrite Hex. cbn [Py.bind].
  rewrite (excluded_row_params stmt p _ _ Hvals Hex), Hk. cbn [Py.bind].
  now apply IH.
Qed.

(** X1. With the statement of [gcp_csv.py], a ticket that is not yet in
    the table is stored exactly as it is sent: every column of the
    statement holds the value bound to it, the enrichment columns
    included, and the row has no other column.  The tuples the RSS
    pipeline builds for its own statement end in five nulls, one for each
    enrichment column. *)
Theorem new_ticket_is_stored_as_sent :
  (forall params k d,
      length params = length (insert_columns Csv.UPSERT_SQL) ->
      key_of_val (field Csv.UPSERT_SQL params "ticket") = Ok k ->
      get_table d "historical_trades" !! k = None ->
      exists d' new,
        execute Csv.UPSERT_SQL params d = Ok d' /\
        get_table d' "historical_trades" !! k = Some new /\
        (forall c, In c (insert_columns Csv.UPSERT_SQL) ->
                   new !! c = Some (field Csv.UPSERT_SQL params c)) /\
        (forall c, ~ In c (insert_columns Csv.UPSERT_SQL) -> new !! c = None)) /\
  (forall strptime_isoformat a s item t c,
      Rss.position_tuple strptime_isoformat a s item = Ok t ->
      In c Rss.enrichment_columns ->
      field Rss.trades_stmt t c = VNone).
Proof.
  split.
  - intros params k d Hlen Hkey Hnew.
    pose proof (excluded_row_all_params Csv.UPSERT_SQL params eq_refl eq_refl Hlen)
      as Hex.
    unfold execute. rewrite Hex. cbn [Py.bind].
    rewrite column_zip.
    change (conflict_target Csv.UPSERT_SQL) with "ticket".
    change (table Csv.UPSERT_SQL) with "historical_trades".
    unfold field in Hkey. rewrite Hkey. cbn [Py.bind].
    eexists _, _. split; [reflexivity|].
    rewrite get_table_insert, upsert_row_same, Hnew.
    split; [reflexivity|]. split.
    + intros c Hc. now apply lookup_zip_is_Some.
    + intros c Hc. now apply lookup_zip_None.
  - intros strptime_isoformat a s item t c Ht Hc.
    apply RssFacts.position_tuple_inv in Ht
      as (ticket & action & lots & symbol & op & cl & ot & ct & profit & swap
          & comm & tpft & tp & sl & mag & _ & _ & _ & _ & _ & _ & _ & _ & _ & _
          & _ & _ & _ & ->).
    simpl in Hc. repeat (destruct Hc as [<-|Hc]; [reflexivity|]). contradiction.
Qed.

(** X2. The metadata upsert of an account.  The five descriptive columns of
    the row take the values sent.  When the account is new its row also
    holds the account id and null in [strategy_inferred] and
    [gpt_comments]; when the account is already there, every other column
    of its row, these two annotations among them, stays as it was.
    Sending the same metadata again changes nothing. *)
Theorem metadata_upsert_keeps_the_annotations (sa url rss win ret tpd : Val)
  (k : Key) (d : DB) :
  key_of_val sa = Ok k ->
  exists d' new,
    execute Rss.META_UPSERT [sa; url; rss; win; ret; tpd] d = Ok d' /\
    get_table d' "account_metadata" !! k = Some new /\
    map (fun c => new !! c)
        ["account_url"; "rss_url"; "trade_win"; "total_return"; "trades_per_day"]
    = [Some url; Some rss; Some win; Some ret; Some tpd] /\
    (get_table d "account_metadata" !! k = None ->
     map (fun c => new !! c) ["account_id"; "strategy_inferred"; "gpt_comments"]
     = [Some sa; Some VNone; Some VNone]) /\
    (forall old c,
        get_table d "account_metadata" !! k = Some old ->
        ~ In c ["account_url"; "rss_url"; "trade_win"; "total_return";
                "trades_per_day"] ->
        new !! c = old !! c) /\
    execute Rss.META_UPSERT [sa; url; rss; win; ret; tpd] d' = Ok d'.
Proof.
  intros Hkey.
  set (ex := list_to_map (zip (insert_columns Rss.META_UPSERT)
                              [sa; url; rss; win; ret; tpd; VNone; VNone]) : Row).
  assert (excluded_row Rss.META_UPSERT [sa; url; rss; win; ret; tpd] = Ok ex) as Hex
      by reflexivity.
  assert (execute Rss.META_UPSERT [sa; url; rss; win; ret; tpd] d
          = Ok (<["account_metadata" :=
                    upsert_row Rss.META_UPSERT ex k (get_table d "account_metadata")]> d))
    as Hexec.
  { unfold execute. rewrite Hex. cbn [Py.bind].
    replace (column ex (conflict_target Rss.META_UPSERT)) with sa by reflexivity.
    rewrite Hkey. reflexivity. }
  eexists _, _. split; [exact Hexec|].
  rewrite get_table_insert, upsert_row_same.
  split; [reflexivity|]. split; [|split; [|split]].
  - destruct (get_table d "account_metadata" !! k) as [old|]; [|reflexivity].
    cbn [map]. rewrite !do_update_listed by (simpl; tauto). reflexivity.
  - intros ->. reflexivity.
  - intros old c -> Hc. now apply do_update_unlisted.
  - pose proof (execute_twice Rss.META_UPSERT [sa; url; rss; win; ret; tpd] d) as Htwice.
    rewrite Hexec in Htwice. cbn [Py.bind] in Htwice.
    apply Htwice. apply META_UPSERT_well_formed.
Qed.

(** The store takes the metadata tuple of any account whose id the key
    column can hold. *)
Lemma metadata_accepted sa url rss win ret tpd k d :
  key_of_val sa = Ok k ->
  exists d', execute Rss.META_UPSERT [sa; url; rss; win; ret; tpd] d = Ok d'.
Proof.
  intros Hkey. unfold execute.
  change (excluded_row Rss.META_UPSERT [sa; url; rss; win; ret; tpd])
    with (Ok (list_to_map (zip (insert_columns Rss.META_UPSERT)
                               [sa; url; rss; win; ret; tpd; VNone; VNone]) : Row)).
  cbn [Py.bind]. rewrite column_zip.
  change (lookup_column _ _ _) with sa. rewrite Hkey. cbn [Py.bind]. eauto.
Qed.

Lemma execute_listed stmt params d d' ex k :
  well_formed stmt ->
  execute stmt params d = Ok d' ->
  excluded_row stmt params = Ok ex ->
  key_of_val (column ex (conflict_target stmt)) = Ok k ->
  exists new, get_table d' (table stmt) !! k = Some new /\
              forall c, In c (update_set stmt) -> new !! c = Some (column ex c).
Proof.
  intros [_ Hsub] Hexec Hex Hkey.
  apply execute_inv in Hexec as (ex' & k' & Hex' & Hkey' & ->).
  rewrite Hex in Hex'. injection Hex' as <-.
  rewrite Hkey in Hkey'. injection Hkey' as <-.
  rewrite get_table_insert, upsert_row_same. eexists. split; [reflexivity|].
  intros c Hc. destruct (get_table d (table stmt) !! k) as [old|].
  - now apply do_update_listed.
  - eapply excluded_row_listed; eauto.
Qed.

(** Within one [executemany] of a well-formed statement that has one
    placeholder per column, the last tuple of a key wins. *)
Lemma last_tuple_wins (stmt : Upsert) (pre post : list (list Val))
  (p : list Val) (k : Key) (d d' : DB) :
  well_formed stmt ->
  values stmt = [repeat Param (length (insert_columns stmt))] ->
  key_of_val (field stmt p (conflict_target stmt)) = Ok k ->
  (forall q, In q post -> key_of_val (field stmt q (conflict_target stmt)) <> Ok k) ->
  executemany stmt (pre ++ p :: post) d = Ok d' ->
  exists new,
    get_table d' (table stmt) !! k = Some new /\
    forall c, In c (update_set stmt) -> new !! c = Some (field stmt p c).
Proof.
  intros Hwf Hvals Hkey Hpost Hrun.
  rewrite executemany_app in Hrun.
  destruct (executemany stmt pre d) as [d1|e]; cbn [Py.bind] in Hrun; [|discriminate].
  cbn [executemany] in Hrun.
  destruct (execute stmt p d1) as [d2|e] eqn:Hexec; cbn [Py.bind] in Hrun;
    [|discriminate].
  destruct (execute_inv _ _ _ _ Hexec) as (ex & k' & Hex & Hkey' & _).
  pose proof (excluded_row_params stmt p ex) as Hcol.
  rewrite (Hcol (conflict_target stmt) Hvals Hex), Hkey in Hkey'.
  injection Hkey' as <-.
  destruct (execute_listed stmt p d1 d2 ex k Hwf Hexec Hex) as (new & Hnew & Hset).
  { now rewrite (Hcol (conflict_target stmt) Hvals Hex). }
  exists new. split.
  - rewrite (executemany_other_key stmt post k _ _ Hrun); [exact Hnew|].
    intros q ex' Hq Hex'.
    rewrite (excluded_row_params stmt q ex' _ Hvals Hex'). now apply Hpost.
  - intros c Hc. rewrite (Hset c Hc). f_equal. now apply Hcol.
Qed.

(** X3. Within one [executemany] of the statement of [gcp_csv.py] the
    last tuple of a ticket wins.  When the sequence is accepted, the row
    the store holds for a ticket has, in every column of the [SET] list,
    the value of the last tuple sent for that ticket; tuples for other
    tickets that follow do not change it. *)
Theorem last_tuple_of_a_ticket_wins (pre post : list (list Val))
  (p : list Val) (k : Key) (d d' : DB) :
  key_of_val (field Csv.UPSERT_SQL p "ticket") = Ok k ->
  (forall q, In q post -> key_of_val (field Csv.UPSERT_SQL q "ticket") <> Ok k) ->
  executemany Csv.UPSERT_SQL (pre ++ p :: post) d = Ok d' ->
  exists new,
    get_table d' "historical_trades" !! k = Some new /\
    forall c, In c (update_set Csv.UPSERT_SQL) ->
              new !! c = Some (field Csv.UPSERT_SQL p c).
Proof.
  intros Hkey Hpost Hrun.
  exact (last_tuple_wins Csv.UPSERT_SQL pre post p k d d' UPSERT_SQL_well_formed
           eq_refl Hkey Hpost Hrun).
Qed.

(** ** On the samples *)

(** On the samples: the sample tuple of ticket 55 sent to an empty
    store. *)
Lemma new_ticket_is_stored_as_sent_witness :
  exists d' new,
    execute Csv.UPSERT_SQL Samples.incoming ∅ = Ok d' /\
    get_table d' "historical_trades" !! KInt 55 = Some new /\
    new !! "lot_size" = Some (VInt 1) /\
    new !! "gpt_inferred_strategy" = Some VNone /\
    new !! "net_pips" = None.
Proof.
  destruct (proj1 new_ticket_is_stored_as_sent Samples.incoming
              (KInt 55) ∅) as (d' & new & Hrun & Hrow & Hin & Hout).
  - reflexivity.
  - reflexivity.
  - reflexivity.
  - exists d', new. split; [exact Hrun|]. split; [exact Hrow|].
    split; [|split].
    + apply (Hin "lot_size"). vm_compute. tauto.
    + apply (Hin "gpt_inferred_strategy"). vm_compute. tauto.
    + apply (Hout "net_pips"). vm_compute. intuition discriminate.
Defined.

(** On the samples: the metadata of [acc1] sent to a store that holds an
    annotated row of it. *)
Lemma metadata_upsert_keeps_the_annotations_witness :
  exists d' new,
    execute Rss.META_UPSERT
            [VStr "acc1"; VStr "u"; VStr "r"; VFloat (FFin (11 # 20)); VNone;
             VFloat (FFin (3 # 2))] Samples.metadata_with_annotation = Ok d' /\
    get_table d' "account_metadata" !! KStr "acc1" = Some new /\
    new !! "trade_win" = Some (VFloat (FFin (11 # 20))) /\
    new !! "strategy_inferred" = Some (VStr "trend following").
Proof.
  destruct (metadata_upsert_keeps_the_annotations
              (VStr "acc1") (VStr "u") (VStr "r") (VFloat (FFin (11 # 20))) VNone
              (VFloat (FFin (3 # 2))) (KStr "acc1")
              Samples.metadata_with_annotation eq_refl)
    as (d' & new & Hrun & Hrow & Hset & _ & Hkeep & _).
  exists d', new. split; [exact Hrun|]. split; [exact Hrow|]. split.
  - now injection Hset as _ _ -> _ _.
  - rewrite (Hkeep _ "strategy_inferred" eq_refl); [reflexivity|].
    vm_compute. intuition discriminate.
Defined.

(** On the samples: ticket 55 sent twice in one sequence, with one lot
    and then with three. *)
Lemma last_tuple_of_a_ticket_wins_witness :
  exists d' new,
    executemany Csv.UPSERT_SQL
                [Samples.incoming; Samples.incoming_again] ∅ = Ok d' /\
    get_table d' "historical_trades" !! KInt 55 = Some new /\
    new !! "lot_size" = Some (VInt 3).
Proof.
  destruct (executemany_accepts Csv.UPSERT_SQL
              [Samples.incoming; Samples.incoming_again] ∅ eq_refl eq_refl)
    as [d' Hrun].
  { repeat constructor; eexists; reflexivity. }
  destruct (last_tuple_of_a_ticket_wins [Samples.incoming] []
              Samples.incoming_again (KInt 55) ∅ d')
    as (new & Hrow & Hset).
  - reflexivity.
  - intros q [].
  - exact Hrun.
  - exists d', new. split; [exact Hrun|]. split; [exact Hrow|].
    apply (Hset "lot_size"). vm_compute. tauto.
Defined.

End StoreFacts.

(* ===================================================================== *)
(** * The units of gcp_rss.py                                             *)
(* ===================================================================== *)

Module RssUnits.

Import Rss ProcFacts SqlFacts RssFacts.

(** A batch that goes through leaves on the wire its tuples, in order,
    and nothing else changes. *)
Lemma cur_executemany_ok stmt seq : forall view w v w',
  cur_executemany stmt seq view w = (Ok v, w') ->
  executemany stmt seq view = Ok v /\
  db w' = db w /\ log w' = log w /\ open_conns w' = open_conns w /\
  sent w' = sent w ++ map (pair (table stmt)) seq.
Proof.
  induction seq as [|p seq IH]; intros view w v w'.
  - simpl. intros [= <- <-]. rewrite app_nil_r. auto.
  - simpl. unfold bindM, cur_execute.
    destruct (execute stmt p view) as [v1|e]; cbn [Py.bind]; [|discriminate].
    intros H. apply IH in H as (Hex & Hdb & Hlog & Hconn & Hsent).
    cbn [db log open_conns sent] in *.
    rewrite Hsent, <- app_assoc. auto.
Qed.

Section Timestamps.

Variable strptime_isoformat : string -> option string.

Abbreviation position_tuple := (Rss.position_tuple strptime_isoformat).
Abbreviation feed_loop := (Rss.feed_loop strptime_isoformat).
Abbreviation normalize_feed := (Rss.normalize_feed strptime_isoformat).
Abbreviation process_account := (Rss.process_account strptime_isoformat).

(** The number of entries of a feed that are positions. *)
Abbreviation positions feed :=
  (List.filter (fun item : Entry => hasattr item "position_ticket") feed).

Lemma normalize_feed_length a entries : forall s recs,
  normalize_feed a entries s = Ok recs ->
  length recs = length (positions entries).
Proof.
  induction entries as [|item rest IH]; intros s recs; simpl.
  - now intros [= <-].
  - destruct (account_summary s item) as [s'|e]; cbn [Py.bind]; [|discriminate].
    destruct (hasattr item "position_ticket"); cbn [negb]; [|apply IH].
    destruct (Rss.position_tuple strptime_isoformat a s' item) as [t|e];
      cbn [Py.bind]; [|discriminate].
    destruct (normalize_feed a rest s') as [ts|e] eqn:E; cbn [Py.bind]; [|discriminate].
    intros [= <-]. simpl. f_equal. eauto.
Qed.

(** What the batched walk has done when it returns: the records of the
    feed are split between the batches already handed to the cursor and
    the batch still pending. *)
Lemma feed_loop_ok BATCH_SIZE a entries : forall s trades view w tr v' w',
  feed_loop BATCH_SIZE a entries s trades view w = (Ok (tr, v'), w') ->
  exists recs flushed,
    normalize_feed a entries s = Ok recs /\
    flushed ++ tr = trades ++ recs /\
    executemany trades_stmt flushed view = Ok v' /\
    db w' = db w /\ log w' = log w /\ open_conns w' = open_conns w /\
    sent w' = sent w ++ map (pair "rss_trades") flushed.
Proof.
  induction entries as [|item rest IH]; intros s trades view w tr v' w'; simpl.
  - intros [= <- <- <-]. exists [], []. simpl. rewrite !app_nil_r.
    repeat split; reflexivity.
  - unfold bindM, lift.
    destruct (account_summary s item) as [s'|e]; cbn [Py.bind]; [|discriminate].
    destruct (hasattr item "position_ticket"); cbn [negb]; [|apply IH].
    destruct (Rss.position_tuple strptime_isoformat a s' item) as [t|e];
      cbn [Py.bind]; [|discriminate].
    destruct (Z.of_nat (length (trades ++ [t])) >=? BATCH_SIZE) eqn:Hb.
    + destruct (cur_executemany trades_stmt (trades ++ [t]) view w)
        as [[v1|e] w1] eqn:E1; [|discriminate].
      apply cur_executemany_ok in E1 as (Hex1 & Hdb1 & Hlog1 & Hconn1 & Hsent1).
      intros H. apply IH in H
        as (recs & fl & Hn & Happ & Hex & Hdb & Hlog & Hconn & Hsent).
      rewrite Hn. cbn [Py.bind].
      exists (t :: recs), ((trades ++ [t]) ++ fl).
      split; [reflexivity|]. split; [|split; [|split; [|split; [|split]]]].
      * rewrite <- !app_assoc, Happ. reflexivity.
      * rewrite executemany_app, Hex1. exact Hex.
      * congruence.
      * congruence.
      * congruence.
      * rewrite Hsent, Hsent1, (map_app _ (trades ++ [t]) fl), app_assoc. reflexivity.
    + intros H. apply IH in H
        as (recs & fl & Hn & Happ & Hex & Hdb & Hlog & Hconn & Hsent).
      rewrite Hn. cbn [Py.bind].
      exists (t :: recs), fl.
      split; [reflexivity|]. split; [|split; [|split; [|split; [|split]]]];
        try assumption.
      rewrite Happ, <- app_assoc. reflexivity.
Qed.

(** The line a unit logs when it is done. *)
Abbreviation success_line sa n :=
  {| level := INFO; message := "{sa}: metadata+{len(trades)} trades upserted";
     args := [sa; VInt n]; exc_info := None |}.

(** The line the handler of a unit logs. *)
Abbreviation error_line sa e :=
  {| level := ERROR; message := "Error for {sa}: {e}";
     args := [sa]; exc_info := Some e |}.

(** Every way a unit can end.  Either one of the statements before the
    [try] raised and the world is as it was; or the [try] body raised,
    and the handler logged it, with one connection left open and nothing
    committed; or the body ran to its end, and then the feed gave no
    record: the metadata tuple is all that was sent and committed. *)
Lemma process_account_outcome BATCH_SIZE row feed w :
  (exists e, process_account BATCH_SIZE row feed w = (Raise e, w)) \/
  (exists sa e new,
      process_account BATCH_SIZE row feed w
      = (Ok tt, {| db := db w; log := log w ++ [error_line sa e];
                   open_conns := S (open_conns w);
                   sent := sent w ++ new |})) \/
  (exists sa url rss win ret tpd v,
      getitem row "username" = Ok sa /\
      getitem row "account_url" = Ok url /\
      getitem row "rss_url" = Ok rss /\
      to_pct (get row "trade win") = Ok win /\
      to_pct (get row "Total return") = Ok ret /\
      to_pct (get row "Trades per day") = Ok tpd /\
      normalize_feed {| sa := sa; url := url; rss := rss;
                        win := win; ret_ := ret; tpd := tpd |}
                     feed no_summary = Ok [] /\
      execute META_UPSERT [sa; url; rss; win; ret; tpd] (db w) = Ok v /\
      process_account BATCH_SIZE row feed w
      = (Ok tt, {| db := v; log := log w ++ [success_line sa 0];
                   open_conns := open_conns w;
                   sent := sent w
                           ++ [("account_metadata",
                                [sa; url; rss; win; ret; tpd])] |})).
Proof.
  unfold Rss.process_account, bindM, lift, try_except.
  destruct (getitem row "username") as [sa|e]; [|left; eauto].
  destruct (getitem row "account_url") as [url|e]; [|left; eauto].
  destruct (getitem row "rss_url") as [rss|e]; [|left; eauto].
  destruct (to_pct (get row "trade win")) as [win|e]; [|left; eauto].
  destruct (to_pct (get row "Total return")) as [ret|e]; [|left; eauto].
  destruct (to_pct (get row "Trades per day")) as [tpd|e]; [|left; eauto].
  right.
  unfold get_db_conn, cur_execute. cbn [db log open_conns sent table].
  destruct (execute META_UPSERT [sa; url; rss; win; ret; tpd] (db w)) as [v1|e]
    eqn:Hmeta.
  2:{ left. exists sa, e. eexists. reflexivity. }
  set (a := {| sa := sa; url := url; rss := rss; win := win; ret_ := ret; tpd := tpd |}).
  set (w2 := Build_World _ _ _ _).
  destruct (feed_loop BATCH_SIZE a feed no_summary [] v1 w2) as [[[tr v]|e] w3] eqn:Hloop.
  - apply feed_loop_ok in Hloop
      as (recs & fl & Hn & Happ & Hex & Hdb & Hlog & Hconn & Hsent).
    apply executemany_rejected in Hex as [-> ->]; [|reflexivity].
    simpl in Happ. subst tr. unfold w2 in Hdb, Hlog, Hconn, Hsent.
    cbn [db log open_conns sent map] in Hdb, Hlog, Hconn, Hsent.
    rewrite app_nil_r in Hsent.
    destruct recs as [|t tr].
    + right. exists sa, url, rss, win, ret, tpd, v1.
      do 6 (split; [reflexivity|]). split; [exact Hn|]. split; [exact Hmeta|].
      unfold Proc.ret, commit, close, logging. cbn [db log open_conns sent].
      rewrite Hlog, Hconn, Hsent. reflexivity.
    + left. exists sa.
      destruct (cur_executemany_sends trades_stmt (fun _ => True) (t :: tr) v1 w3)
        as [Hr (Hdb4 & Hlog4 & Hconn4 & ts & Hsent4 & _)];
        [apply Forall_forall; auto|].
      destruct (trades_batch_rejected t tr v1) as [e He]. rewrite He in Hr.
      destruct (cur_executemany trades_stmt (t :: tr) v1 w3) as [[v2|e'] w4];
        cbn [fst snd] in *; [discriminate|].
      exists e'.
      exists ([("account_metadata", [sa; url; rss; win; ret; tpd])]
              ++ map (pair (table trades_stmt)) ts).
      unfold logging. cbn [db log open_conns sent].
      rewrite Hdb4, Hlog4, Hconn4, Hsent4, Hdb, Hlog, Hconn, Hsent, <- !app_assoc.
      reflexivity.
  - left. exists sa, e.
    destruct (feed_loop_sends strptime_isoformat a (fun _ => True)
                (fun _ _ _ _ _ => I) BATCH_SIZE feed no_summary [] v1 w2)
      as [(Hdb & Hlog & Hconn & ts & Hsent & _) _]; [repeat split|constructor|].
    rewrite Hloop in Hdb, Hlog, Hconn, Hsent. cbn [snd] in *.
    unfold w2 in Hdb, Hlog, Hconn, Hsent. cbn [db log open_conns sent] in *.
    exists ([("account_metadata", [sa; url; rss; win; ret; tpd])]
            ++ map (pair "rss_trades") ts).
    unfold logging. cbn [db log open_conns sent].
    rewrite Hdb, Hlog, Hconn, Hsent, <- !app_assoc. reflexivity.
Qed.

(** A unit whose roster cells are read and whose feed gives no record
    runs to its end. *)
Lemma process_account_succeeds BATCH_SIZE row feed w sa url rss win ret tpd k :
  getitem row "username" = Ok sa ->
  getitem row "account_url" = Ok url ->
  getitem row "rss_url" = Ok rss ->
  to_pct (get row "trade win") = Ok win ->
  to_pct (get row "Total return") = Ok ret ->
  to_pct (get row "Trades per day") = Ok tpd ->
  key_of_val sa = Ok k ->
  normalize_feed {| sa := sa; url := url; rss := rss;
                    win := win; ret_ := ret; tpd := tpd |}
                 feed no_summary = Ok [] ->
  exists l, log (snd (process_account BATCH_SIZE row feed w)) = log w ++ [l] /\
            level l = INFO.
Proof.
  intros H1 H2 H3 H4 H5 H6 Hk Hn.
  unfold Rss.process_account.
  rewrite (lift_ok _ _ _ _ H1), (lift_ok _ _ _ _ H2), (lift_ok _ _ _ _ H3),
    (lift_ok _ _ _ _ H4), (lift_ok _ _ _ _ H5), (lift_ok _ _ _ _ H6).
  unfold bindM, lift, try_except, get_db_conn, cur_execute.
  cbn [db log open_conns sent table].
  destruct (StoreFacts.metadata_accepted sa url rss win ret tpd k (db w) Hk)
    as [v1 ->].
  set (a := {| sa := sa; url := url; rss := rss; win := win; ret_ := ret; tpd := tpd |})
    in *.
  set (w2 := Build_World _ _ _ _).
  pose proof (feed_loop_outcome strptime_isoformat BATCH_SIZE a feed no_summary []
                v1 w2) as Hout.
  rewrite Hn in Hout. cbn [Py.bind app executemany] in Hout.
  destruct (feed_loop BATCH_SIZE a feed no_summary [] v1 w2) as [[[tr v]|e] w3] eqn:Hloop;
    cbn [fst snd Py.bind] in Hout; [|contradiction].
  apply feed_loop_ok in Hloop
    as (recs' & fl & _ & _ & _ & _ & Hlog & _).
  unfold w2 in Hlog. cbn [log] in Hlog.
  destruct tr as [|t tr].
  - eexists. unfold Proc.ret, commit, close, logging. cbn [snd log].
    rewrite Hlog. split; reflexivity.
  - destruct (trades_batch_rejected t tr v) as [e He]. rewrite He in Hout.
    contradiction.
Qed.

Lemma log_unchanged_not_extended (ls : list LogRecord) l : ls <> ls ++ [l].
Proof.
  intros H. apply (f_equal (@length _)) in H. rewrite length_app in H.
  simpl in H. lia.
Qed.

(** The outcome of a unit whose log gained one [INFO] line. *)
Lemma process_account_reported BATCH_SIZE row feed w l :
  log (snd (process_account BATCH_SIZE row feed w)) = log w ++ [l] ->
  level l = INFO ->
  exists sa url rss win ret tpd v,
    normalize_feed {| sa := sa; url := url; rss := rss;
                      win := win; ret_ := ret; tpd := tpd |}
                   feed no_summary = Ok [] /\
    execute META_UPSERT [sa; url; rss; win; ret; tpd] (db w) = Ok v /\
    l = success_line sa 0 /\
    process_account BATCH_SIZE row feed w
    = (Ok tt, {| db := v; log := log w ++ [l];
                 open_conns := open_conns w;
                 sent := sent w
                         ++ [("account_metadata",
                              [sa; url; rss; win; ret; tpd])] |}).
Proof.
  intros Hlog Hlevel.
  destruct (process_account_outcome BATCH_SIZE row feed w)
    as [(e & Hr)|[(sa & e & new & Hr)|
                  (sa & url & rss & win & ret & tpd & v
                   & _ & _ & _ & _ & _ & _ & Hn & Hmeta & Hr)]];
    rewrite Hr in Hlog; cbn [snd log] in Hlog.
  - now apply log_unchanged_not_extended in Hlog.
  - apply app_inv_head in Hlog. injection Hlog as <-. discriminate Hlevel.
  - apply app_inv_head in Hlog. injection Hlog as <-.
    exists sa, url, rss, win, ret, tpd, v. auto.
Qed.

(** X4. A unit ends in one of three ways.  A statement before the [try]
    raises: the exception leaves [process_account] and the world is as it
    was, nothing logged.  The [try] body raises: the unit returns
    normally with one [ERROR] line logged, nothing committed and the
    connection it opened still open.  Or the body runs to its end: one
    [INFO] line is logged and the connection is closed. *)
Theorem process_account_ends_in_one_of_three_ways (BATCH_SIZE : Z)
  (row : RosterRow) (feed : list Entry) (w : World) :
  let r := process_account BATCH_SIZE row feed w in
  (exists e, r = (Raise e, w)) \/
  (fst r = Ok tt /\ db (snd r) = db w /\
   open_conns (snd r) = S (open_conns w) /\
   exists sa e, log (snd r) = log w ++ [error_line sa e]) \/
  (fst r = Ok tt /\ open_conns (snd r) = open_conns w /\
   exists sa n, log (snd r) = log w ++ [success_line sa n]).
Proof.
  cbv zeta.
  destruct (process_account_outcome BATCH_SIZE row feed w)
    as [(e & Hr)|[(sa & e & new & Hr)|
                  (sa & url & rss & win & ret & tpd & v
                   & _ & _ & _ & _ & _ & _ & _ & _ & Hr)]];
    rewrite Hr; cbn [fst snd db log open_conns]; eauto 10.
Qed.

(** X5. A unit whose feed holds a position entry never succeeds: the store
    rejects the text of the trade statement, so the first batch handed
    to the cursor raises, unless an earlier statement did.  Nothing is
    committed, the metadata row of the account included; the exception
    is either left to the caller, by a statement before the [try], or
    logged as an error, the connection left open. *)
Theorem position_entry_fails_the_unit (BATCH_SIZE : Z) (row : RosterRow)
  (feed : list Entry) (item : Entry) (w : World) :
  In item feed -> hasattr item "position_ticket" = true ->
  let r := process_account BATCH_SIZE row feed w in
  db (snd r) = db w /\
  ((exists e, r = (Raise e, w)) \/
   (fst r = Ok tt /\ open_conns (snd r) = S (open_conns w) /\
    exists sa e, log (snd r) = log w ++ [error_line sa e])).
Proof.
  intros Hin Hticket. cbv zeta.
  destruct (process_account_outcome BATCH_SIZE row feed w)
    as [(e & Hr)|[(sa & e & new & Hr)|
                  (sa & url & rss & win & ret & tpd & v
                   & _ & _ & _ & _ & _ & _ & Hn & _)]].
  - rewrite Hr. cbn [fst snd]. eauto.
  - rewrite Hr. cbn [fst snd db log open_conns]. eauto 10.
  - exfalso.
    exact (normalize_feed_position strptime_isoformat _ feed item no_summary []
             Hin Hticket Hn eq_refl).
Qed.

(** X6. A unit that reports success had no position entry in its feed.
    Its line counts no trade, the metadata tuple of the account is all
    it handed to a cursor, the store it leaves is the store with that
    tuple upserted, and its connection is closed. *)
Theorem success_means_no_position (BATCH_SIZE : Z)
  (row : RosterRow) (feed : list Entry) (w : World) (l : LogRecord) :
  log (snd (process_account BATCH_SIZE row feed w)) = log w ++ [l] ->
  level l = INFO ->
  positions feed = [] /\
  exists sa url rss win ret tpd,
    l = success_line sa 0 /\
    sent (snd (process_account BATCH_SIZE row feed w))
    = sent w ++ [("account_metadata", [sa; url; rss; win; ret; tpd])] /\
    execute META_UPSERT [sa; url; rss; win; ret; tpd] (db w)
    = Ok (db (snd (process_account BATCH_SIZE row feed w))) /\
    open_conns (snd (process_account BATCH_SIZE row feed w)) = open_conns w.
Proof.
  intros Hlog Hlevel.
  destruct (process_account_reported _ _ _ _ _ Hlog Hlevel)
    as (sa & url & rss & win & ret & tpd & v & Hn & Hmeta & -> & Hr).
  split.
  - apply normalize_feed_length in Hn.
    destruct (positions feed); [reflexivity|discriminate].
  - exists sa, url, rss, win, ret, tpd. rewrite Hr. cbn [snd sent db open_conns].
    auto.
Qed.

(** ** The account figures of a tuple *)

(** The five account columns of a tuple. *)
Abbreviation figures t :=
  (map (field trades_stmt t)
       ["account_balance"; "account_equity"; "account_floating_profit";
        "account_closed_profit"; "account_free_margin"]).

Lemma position_tuple_figures a s item t :
  position_tuple a s item = Ok t ->
  figures t = [bal s; eq_ s; fp s; cp s; fm s].
Proof.
  intros H. apply position_tuple_fields in H
    as (_ & _ & _ & _ & _ & _ & _ & E1 & E2 & E3 & E4 & E5).
  cbn [map]. now rewrite E1, E2, E3, E4, E5.
Qed.

Lemma normalize_feed_app a pre : forall post s recs,
  normalize_feed a (pre ++ post) s = Ok recs ->
  exists s1 recs1 recs2,
    recs = recs1 ++ recs2 /\
    normalize_feed a pre s = Ok recs1 /\
    normalize_feed a post s1 = Ok recs2.
Proof.
  induction pre as [|item pre IH]; intros post s recs; simpl.
  - intros H. exists s, [], recs. auto.
  - destruct (account_summary s item) as [s'|e]; cbn [Py.bind]; [|discriminate].
    destruct (hasattr item "position_ticket"); cbn [negb]; [|apply IH].
    destruct (Rss.position_tuple strptime_isoformat a s' item) as [t|e];
      cbn [Py.bind]; [|discriminate].
    destruct (normalize_feed a (pre ++ post) s') as [ts|e] eqn:E;
      cbn [Py.bind]; [|discriminate].
    intros [= <-]. apply IH in E as (s1 & recs1 & recs2 & -> & -> & E2).
    exists s1, (t :: recs1), recs2. auto.
Qed.

Lemma normalize_feed_same_summary a entries :
  (forall x, In x entries -> hasattr x "account_balance" = false) ->
  forall s recs,
    normalize_feed a entries s = Ok recs ->
    Forall (fun t => figures t = [bal s; eq_ s; fp s; cp s; fm s]) recs.
Proof.
  induction entries as [|item rest IH]; intros Hno s recs; simpl.
  - intros [= <-]. constructor.
  - unfold account_summary. rewrite (Hno item) by (left; reflexivity).
    cbn [Py.bind].
    assert (forall x, In x rest -> hasattr x "account_balance" = false) as Hrest
        by (intros x Hx; apply Hno; right; exact Hx).
    destruct (hasattr item "position_ticket"); cbn [negb]; [|now apply IH].
    destruct (Rss.position_tuple strptime_isoformat a s item) as [t|e] eqn:Et;
      cbn [Py.bind]; [|discriminate].
    destruct (normalize_feed a rest s) as [ts|e] eqn:E; cbn [Py.bind]; [|discriminate].
    intros [= <-]. constructor; [now apply position_tuple_figures in Et|].
    now apply IH.
Qed.

(** X7. The account columns of a tuple are the figures of the latest entry,
    at or before its position, that carries an account summary, and
    null when there is none.  A feed without a summary entry, walked
    from the empty summary as [process_account] does, gives tuples with
    null in the five columns; and in a feed of the form
    [pre ++ item :: post], where [item] carries a summary and no entry of
    [post] does, every tuple built from [item] on carries the five
    numbers read from [item]. *)
Theorem account_figures_follow_the_latest_summary :
  (forall a feed recs,
      (forall x, In x feed -> hasattr x "account_balance" = false) ->
      normalize_feed a feed no_summary = Ok recs ->
      Forall (fun t => figures t = [VNone; VNone; VNone; VNone; VNone]) recs) /\
  (forall a pre item post s recs,
      hasattr item "account_balance" = true ->
      (forall x, In x post -> hasattr x "account_balance" = false) ->
      normalize_feed a (pre ++ item :: post) s = Ok recs ->
      exists recs1 recs2 b e f c m,
        recs = recs1 ++ recs2 /\
        length recs1 = length (positions pre) /\
        length recs2 = length (positions (item :: post)) /\
        Py.bind (attr item "account_balance") (fun x => float (VStr x)) = Ok b /\
        Py.bind (attr item "account_equity") (fun x => float (VStr x)) = Ok e /\
        Py.bind (attr item "account_floatingprofit") (fun x => float (VStr x)) = Ok f /\
        Py.bind (attr item "account_closedprofit") (fun x => float (VStr x)) = Ok c /\
        Py.bind (attr item "account_freemargin") (fun x => float (VStr x)) = Ok m /\
        Forall (fun t => figures t
                         = [VFloat b; VFloat e; VFloat f; VFloat c; VFloat m])
               recs2).
Proof.
  split.
  - intros a feed recs Hno Hn.
    apply (normalize_feed_same_summary a feed Hno no_summary recs Hn).
  - intros a pre item post s recs Hsum Hno Hn.
    apply normalize_feed_app in Hn as (s1 & recs1 & recs2 & -> & Hpre & Hpost).
    exists recs1, recs2.
    pose proof (normalize_feed_length _ _ _ _ Hpre) as Hlen1.
    pose proof (normalize_feed_length _ _ _ _ Hpost) as Hlen2.
    cbn [Rss.normalize_feed] in Hpost.
    unfold account_summary in Hpost. rewrite Hsum in Hpost.
    destruct (Py.bind (attr item "account_balance") _) as [b|] eqn:Eb;
      cbn [Py.bind] in Hpost; [|discriminate].
    destruct (Py.bind (attr item "account_equity") _) as [e|] eqn:Ee;
      cbn [Py.bind] in Hpost; [|discriminate].
    destruct (Py.bind (attr item "account_floatingprofit") _) as [f|] eqn:Ef;
      cbn [Py.bind] in Hpost; [|discriminate].
    destruct (Py.bind (attr item "account_closedprofit") _) as [c|] eqn:Ec;
      cbn [Py.bind] in Hpost; [|discriminate].
    destruct (Py.bind (attr item "account_freemargin") _) as [m|] eqn:Em;
      cbn [Py.bind] in Hpost; [|discriminate].
    exists b, e, f, c, m. do 8 (split; [reflexivity || assumption|]).
    set (s0 := {| bal := VFloat b; eq_ := VFloat e; fp := VFloat f;
                  cp := VFloat c; fm := VFloat m |}) in *.
    destruct (hasattr item "position_ticket"); cbn [negb] in Hpost.
    + destruct (Rss.position_tuple strptime_isoformat a s0 item) as [t|e'] eqn:Et;
        cbn [Py.bind] in Hpost; [|discriminate].
      destruct (normalize_feed a post s0) as [ts|e'] eqn:E;
        cbn [Py.bind] in Hpost; [|discriminate].
      injection Hpost as <-. constructor.
      * now apply position_tuple_figures in Et.
      * apply (normalize_feed_same_summary a post Hno s0 ts E).
    + apply (normalize_feed_same_summary a post Hno s0 recs2 Hpost).
Qed.

(** ** Timestamps *)

Lemma attr_insert_ne item n k x : n <> k -> attr (<[k := x]> item) n = attr item n.
Proof. intros Hne. unfold attr. now rewrite lookup_insert_ne by congruence. Qed.

Lemma attr_insert_eq item k x : attr (<[k := x]> item) k = Ok x.
Proof. unfold attr. now rewrite lookup_insert_eq. Qed.

(** X8. No text in the open-time or close-time field can fail a position:
    put any two texts in the two fields of an entry that normalises, and
    it still normalises, to the same tuple but for the two time columns.
    The open time is what [normalize_timestamp] makes of its text, null
    where the text is not a timestamp; the close time likewise, except
    that the epoch text, which marks a position still open, gives null
    without being parsed. *)
Theorem timestamps_never_fail_a_position (a : Account) (s : Summary)
  (item : Entry) (t : list Val) (ot ct : string) :
  position_tuple a s item = Ok t ->
  exists t',
    position_tuple a s (<["position_opentime" := ot]>
                          (<["position_closetime" := ct]> item)) = Ok t' /\
    field trades_stmt t' "open_time"
    = Rss.normalize_timestamp strptime_isoformat ot /\
    field trades_stmt t' "close_time"
    = (if String.eqb ct "Thu 1 Jan 1970 00:00:00" then VNone
       else Rss.normalize_timestamp strptime_isoformat ct) /\
    (forall c, c <> "open_time" -> c <> "close_time" ->
               field trades_stmt t' c = field trades_stmt t c).
Proof.
  unfold Rss.position_tuple, float_if_set, float_unless_zero, int_if_set.
  intros H.
  assert (forall n, n <> "position_opentime" -> n <> "position_closetime" ->
                    attr (<["position_opentime" := ot]>
                            (<["position_closetime" := ct]> item)) n
                    = attr item n) as Hattr.
  { intros n H1 H2. now rewrite !attr_insert_ne by assumption. }
  rewrite (Hattr "position_ticket"), (Hattr "position_action"),
    (Hattr "position_lots"), (Hattr "position_symbol"),
    (Hattr "position_openprice"), (Hattr "position_closeprice"),
    (Hattr "position_profit"), (Hattr "position_swap"),
    (Hattr "position_commission"), (Hattr "position_totalprofit"),
    (Hattr "position_tp"), (Hattr "position_sl"),
    (Hattr "position_magicnumber") by discriminate.
  rewrite attr_insert_eq.
  rewrite (attr_insert_ne _ "position_closetime" "position_opentime") by discriminate.
  rewrite attr_insert_eq.
  invert_binds H. injection H as <-.
  cbn [Py.bind].
  destruct (String.eqb ct "Thu 1 Jan 1970 00:00:00"); cbn [negb Py.bind];
    (eexists; split; [reflexivity|]; split; [reflexivity|]; split; [reflexivity|]);
    intros c0 Hne1 Hne2; unfold field, trades_stmt;
    cbn [insert_columns replace_placeholder TRADES_UPSERT lookup_column];
    repeat match goal with
           | |- context [String.eqb c0 ?k] =>
               destruct (String.eqb_spec c0 k) as [->|?];
               [first [reflexivity | congruence]|]
           end;
    reflexivity.
Qed.

(** ** What a unit can change in the store *)

(** X9. An RSS unit changes, in the committed store, nothing but the row of
    its account in [account_metadata] and the rows of [rss_trades] whose
    ticket is the ticket of a position entry of its feed: every other
    table, and every other row of these two, is as it was. *)
Theorem rss_unit_touches_only_its_own_rows (BATCH_SIZE : Z)
  (row : RosterRow) (feed : list Entry) (w : World) :
  let d' := db (snd (process_account BATCH_SIZE row feed w)) in
  (forall t, t <> "account_metadata" -> t <> "rss_trades" ->
             d' !! t = db w !! t) /\
  (forall k, (forall sa, getitem row "username" = Ok sa -> key_of_val sa <> Ok k) ->
             get_table d' "account_metadata" !! k
             = get_table (db w) "account_metadata" !! k) /\
  (forall k, (forall item x z,
                 In item feed -> item !! "position_ticket" = Some x ->
                 int_of_string x = Some z -> k <> KInt z) ->
             get_table d' "rss_trades" !! k
             = get_table (db w) "rss_trades" !! k).
Proof.
  cbv zeta. rewrite process_account_commits. unfold Rss.committed_after.
  destruct (getitem row "username") as [sa|e]; cbn [Py.bind]; [|auto].
  destruct (getitem row "account_url") as [url|e]; cbn [Py.bind]; [|auto].
  destruct (getitem row "rss_url") as [rss|e]; cbn [Py.bind]; [|auto].
  destruct (to_pct (get row "trade win")) as [win|e]; cbn [Py.bind]; [|auto].
  destruct (to_pct (get row "Total return")) as [ret|e]; cbn [Py.bind]; [|auto].
  destruct (to_pct (get row "Trades per day")) as [tpd|e]; cbn [Py.bind]; [|auto].
  destruct (execute META_UPSERT [sa; url; rss; win; ret; tpd] (db w)) as [v1|e] eqn:E1;
    cbn [Py.bind]; [|auto].
  set (a := {| sa := sa; url := url; rss := rss; win := win; ret_ := ret; tpd := tpd |}).
  destruct (normalize_feed a feed no_summary) as [recs|e] eqn:En; cbn [Py.bind]; [|auto].
  destruct (executemany trades_stmt recs v1) as [v2|e] eqn:E2; [|auto].
  split; [|split].
  - intros t Hm Ht.
    rewrite (StoreFacts.executemany_other_table _ _ t _ _ E2) by exact Ht.
    apply (StoreFacts.execute_other_table _ _ _ _ t E1). exact Hm.
  - intros k Hk.
    rewrite (StoreFacts.get_table_other v1 v2).
    2:{ apply (StoreFacts.executemany_other_table _ _ "account_metadata" _ _ E2).
        discriminate. }
    apply (StoreFacts.execute_other_key META_UPSERT _ _ _ k E1).
    intros ex Hex. unfold excluded_row in Hex. cbn in Hex. injection Hex as <-.
    cbn. unfold column. rewrite lookup_insert_eq. cbn [default]. now apply Hk.
  - intros k Hk.
    pose proof (StoreFacts.executemany_other_key trades_stmt recs k _ _ E2) as Hkeep.
    change (table trades_stmt) with "rss_trades" in Hkeep. rewrite Hkeep.
    + rewrite (StoreFacts.get_table_other (db w) v1); [reflexivity|].
      apply (StoreFacts.execute_other_table _ _ _ _ "rss_trades" E1). discriminate.
    + intros p ex Hp Hex.
      destruct (excluded_row_rejected trades_stmt p eq_refl) as [e He].
      rewrite He in Hex. discriminate.
Qed.

(** ** A summary entry that is not complete *)

Lemma normalize_feed_summary_raises a entries item :
  In item entries ->
  (forall s, raises (account_summary s item) = true) ->
  forall s, raises (normalize_feed a entries s) = true.
Proof.
  intros Hin Hbad.
  induction entries as [|item' rest IH]; [destruct Hin|].
  intros s. simpl.
  destruct Hin as [->|Hin].
  - specialize (Hbad s). destruct (account_summary s item); [discriminate|reflexivity].
  - destruct (account_summary s item') as [s'|e]; cbn [Py.bind]; [|reflexivity].
    specialize (IH Hin s').
    destruct (hasattr item' "position_ticket"); cbn [negb]; [|exact IH].
    destruct (Rss.position_tuple strptime_isoformat a s' item') as [t|e];
      cbn [Py.bind]; [|reflexivity].
    destruct (normalize_feed a rest s'); [discriminate|reflexivity].
Qed.

(** X10. An entry that carries [account_balance] must carry the other four
    account figures as well, and all five must be numbers: a summary
    entry in which one of them is missing, or is text [float] rejects,
    fails its unit.  Nothing is committed, and the exception is either
    left to the caller or logged as an error with the connection left
    open. *)
Theorem incomplete_summary_fails_the_unit (BATCH_SIZE : Z) (row : RosterRow)
  (feed : list Entry) (item : Entry) (n : string) (w : World) :
  In item feed -> hasattr item "account_balance" = true ->
  In n ["account_balance"; "account_equity"; "account_floatingprofit";
        "account_closedprofit"; "account_freemargin"] ->
  item !! n = None \/ (exists x, item !! n = Some x /\ float_of_string x = None) ->
  let r := process_account BATCH_SIZE row feed w in
  db (snd r) = db w /\
  ((exists e, r = (Raise e, w)) \/
   (fst r = Ok tt /\ open_conns (snd r) = S (open_conns w) /\
    exists sa e, log (snd r) = log w ++ [error_line sa e])).
Proof.
  intros Hin Hsum Hn Hbad. cbv zeta.
  assert (forall s, raises (account_summary s item) = true) as Hraise.
  { intros s. unfold account_summary, attr. rewrite Hsum.
    assert (forall k, Py.bind (match item !! k with
                               | Some s0 => Ok s0
                               | None => Raise (AttributeError k)
                               end) (fun x => float (VStr x))
                      = match item !! k with
                        | Some x => match float_of_string x with
                                    | Some f => Ok f
                                    | None => Raise (ValueError
                                                "could not convert string to float")
                                    end
                        | None => Raise (AttributeError k)
                        end) as Hfield.
    { intros k. destruct (item !! k); reflexivity. }
    rewrite !Hfield. simpl in Hn.
    destruct Hn as [<-|[<-|[<-|[<-|[<-|[]]]]]];
      (destruct Hbad as [Hb|(x & Hb & Hf)]; rewrite Hb; [|rewrite Hf]);
      repeat match goal with
             | |- context [item !! ?k] => destruct (item !! k) as [?y|]; cbn [Py.bind]
             | |- context [float_of_string ?y] =>
                 destruct (float_of_string y); cbn [Py.bind]
             end; reflexivity. }
  destruct (process_account_outcome BATCH_SIZE row feed w)
    as [(e & Hr)|[(sa & e & new & Hr)|
                  (sa & url & rss & win & ret & tpd & v
                   & _ & _ & _ & _ & _ & _ & Hnf & _)]].
  - rewrite Hr. cbn [fst snd]. eauto.
  - rewrite Hr. cbn [fst snd db log open_conns]. eauto 10.
  - exfalso.
    pose proof (normalize_feed_summary_raises
                  {| sa := sa; url := url; rss := rss;
                     win := win; ret_ := ret; tpd := tpd |}
                  feed item Hin Hraise no_summary) as Hno.
    rewrite Hnf in Hno. discriminate.
Qed.

(** ** A run over the roster *)

Lemma main_commits BATCH_SIZE units : forall w,
  db (Rss.main strptime_isoformat BATCH_SIZE units w)
  = fold_left (fun d u => Rss.committed_after strptime_isoformat (fst u) (snd u) d)
              units (db w).
Proof.
  unfold Rss.main. induction units as [|u units IH]; intros w; simpl.
  - reflexivity.
  - rewrite IH, process_account_commits. reflexivity.
Qed.

(** X11. A unit that commits nothing, whatever the store it starts from, does
    not disturb the run: the store the run leaves is the store it leaves
    without that unit in the roster. *)
Theorem failed_account_does_not_disturb_the_run (BATCH_SIZE : Z)
  (before after : list (RosterRow * list Entry)) (u : RosterRow * list Entry)
  (w : World) :
  (forall w0, db (snd (process_account BATCH_SIZE (fst u) (snd u) w0)) = db w0) ->
  db (Rss.main strptime_isoformat BATCH_SIZE (before ++ u :: after) w)
  = db (Rss.main strptime_isoformat BATCH_SIZE (before ++ after) w).
Proof.
  intros Hfail. rewrite !main_commits, !fold_left_app. cbn [fold_left].
  f_equal.
  set (d := fold_left _ before (db w)).
  specialize (Hfail {| db := d; log := []; open_conns := 0; sent := [] |}).
  rewrite process_account_commits in Hfail. exact Hfail.
Qed.

End Timestamps.

(** ** On the samples *)

(** On the samples: the unit of [acc1] on a feed with the one position
    55, every field of which is well formed. *)
Lemma position_entry_fails_the_unit_witness :
  let r := Rss.process_account Samples.strptime_isoformat 100 Samples.roster_row
             [Samples.position "55" "1" "1.10" "0"] Samples.world0 in
  db (snd r) = ∅ /\ open_conns (snd r) = 1%nat /\
  map exc_info (log (snd r)) = [Some (DatabaseError "syntax error")].
Proof.
  cbv zeta.
  destruct (position_entry_fails_the_unit Samples.strptime_isoformat 100
              Samples.roster_row [Samples.position "55" "1" "1.10" "0"]
              (Samples.position "55" "1" "1.10" "0") Samples.world0
              (or_introl eq_refl) eq_refl)
    as [Hdb [(e & Hr)|(_ & Hconn & _)]].
  - vm_compute in Hr. discriminate Hr.
  - split; [exact Hdb|]. split; [exact Hconn|]. vm_compute. reflexivity.
Defined.

(** On the samples: the unit of [acc1] on a feed that holds the account
    summary and no position. *)
Lemma success_means_no_position_witness :
  exists l sa url rss win ret tpd,
    log (snd (Rss.process_account Samples.strptime_isoformat 100
                Samples.roster_row [Samples.summary_entry] Samples.world0)) = [l] /\
    l = {| level := INFO;
           message := "{sa}: metadata+{len(trades)} trades upserted";
           args := [sa; VInt 0]; exc_info := None |} /\
    sent (snd (Rss.process_account Samples.strptime_isoformat 100
                 Samples.roster_row [Samples.summary_entry] Samples.world0))
    = [("account_metadata", [sa; url; rss; win; ret; tpd])].
Proof.
  destruct (process_account_succeeds Samples.strptime_isoformat 100
              Samples.roster_row [Samples.summary_entry] Samples.world0
              _ _ _ _ _ _ (KStr "acc1")
              eq_refl eq_refl eq_refl eq_refl eq_refl eq_refl eq_refl eq_refl)
    as (l & Hlog & Hlevel).
  destruct (success_means_no_position Samples.strptime_isoformat 100
              Samples.roster_row _ Samples.world0 l Hlog Hlevel)
    as (_ & sa & url & rss & win & ret & tpd & Hl & Hsent & _).
  exists l, sa, url, rss, win, ret, tpd. auto.
Defined.

(** On the samples: a position, a summary entry, a position. *)
Lemma account_figures_follow_the_latest_summary_witness :
  exists recs1 recs2,
    Rss.normalize_feed Samples.strptime_isoformat Samples.account
      [Samples.position "55" "1" "1.10" "0"; Samples.summary_entry;
       Samples.position "56" "2" "1.10" "0"] no_summary = Ok (recs1 ++ recs2) /\
    length recs1 = 1%nat /\ length recs2 = 1%nat /\
    Forall (fun t => field trades_stmt t "account_equity"
                     = VFloat (FFin (20201 # 2))) recs2.
Proof.
  assert (exists recs,
             Rss.normalize_feed Samples.strptime_isoformat Samples.account
               ([Samples.position "55" "1" "1.10" "0"]
                  ++ Samples.summary_entry
                  :: [Samples.position "56" "2" "1.10" "0"]) no_summary = Ok recs)
    as [recs Hrecs] by (eexists; vm_compute; reflexivity).
  destruct (proj2 (account_figures_follow_the_latest_summary
                     Samples.strptime_isoformat)
              Samples.account [Samples.position "55" "1" "1.10" "0"]
              Samples.summary_entry [Samples.position "56" "2" "1.10" "0"]
              no_summary recs eq_refl
              ltac:(intros x [<-|[]]; reflexivity) Hrecs)
    as (recs1 & recs2 & b & e & f & c & m & -> & H1 & H2 & _ & He & _ & _ & _ & Hall).
  exists recs1, recs2. split; [exact Hrecs|]. split; [exact H1|]. split; [exact H2|].
  eapply Forall_impl; [exact Hall|]. intros t Ht. cbv beta in Ht.
  injection Ht as _ -> _ _ _. injection He as <-. reflexivity.
Defined.

(** On the samples: a position whose two times are not timestamps. *)
Lemma timestamps_never_fail_a_position_witness :
  exists t',
    Rss.position_tuple Samples.strptime_isoformat Samples.account no_summary
      (<["position_opentime" := "soon"]>
         (<["position_closetime" := "later"]>
            (Samples.position "55" "1" "1.10" "0"))) = Ok t' /\
    field trades_stmt t' "open_time" = VNone /\
    field trades_stmt t' "close_time" = VNone /\
    field trades_stmt t' "lots" = VFloat (FFin 1).
Proof.
  assert (exists t,
             Rss.position_tuple Samples.strptime_isoformat Samples.account
               no_summary (Samples.position "55" "1" "1.10" "0") = Ok t)
    as [t Ht] by (eexists; vm_compute; reflexivity).
  destruct (timestamps_never_fail_a_position Samples.strptime_isoformat
              Samples.account no_summary _ t "soon" "later" Ht)
    as (t' & Hok & Hopen & Hclose & Hrest).
  exists t'. split; [exact Hok|]. split; [exact Hopen|]. split; [exact Hclose|].
  rewrite (Hrest "lots") by discriminate.
  vm_compute in Ht. injection Ht as <-. reflexivity.
Defined.

(** On the samples: a summary entry without its equity. *)
Lemma incomplete_summary_fails_the_unit_witness :
  db (snd (Rss.process_account Samples.strptime_isoformat 100 Samples.roster_row
             [Samples.summary_without_equity;
              Samples.position "55" "1" "1.10" "0"] Samples.world0)) = ∅.
Proof.
  exact (proj1 (incomplete_summary_fails_the_unit Samples.strptime_isoformat 100
                  Samples.roster_row
                  [Samples.summary_without_equity;
                   Samples.position "55" "1" "1.10" "0"]
                  Samples.summary_without_equity "account_equity"
                  Samples.world0 (or_introl eq_refl) eq_refl
                  (or_intror (or_introl eq_refl)) (or_introl eq_refl))).
Defined.

(** On the samples: a roster whose first row has a trade-win cell that
    is not a number. *)
Lemma failed_account_does_not_disturb_the_run_witness :
  db (Rss.main Samples.strptime_isoformat 100
        [(Samples.roster_row_bad_win, [Samples.position "55" "1" "1.10" "0"]);
         (Samples.roster_row, [Samples.position "56" "1" "1.10" "0"])]
        Samples.world0)
  = db (Rss.main Samples.strptime_isoformat 100
          [(Samples.roster_row, [Samples.position "56" "1" "1.10" "0"])]
          Samples.world0).
Proof.
  apply (failed_account_does_not_disturb_the_run Samples.strptime_isoformat 100
           [] [(Samples.roster_row, [Samples.position "56" "1" "1.10" "0"])]
           (Samples.roster_row_bad_win, [Samples.position "55" "1" "1.10" "0"])
           Samples.world0).
  intros w0. cbn [fst snd].
  erewrite RssFacts.to_pct_error_escapes; reflexivity.
Defined.

End RssUnits.

(* ===================================================================== *)
(** * rss_parser.py against gcp_rss.py                                    *)
(* ===================================================================== *)

Module ScriptFacts.

Import Rss ProcFacts SqlFacts RssFacts.

(** ** The two percentage parsers *)

Lemma lstrip_none p l : existsb p l = false -> lstrip p l = l.
Proof. destruct l as [|c l]; simpl; [reflexivity|]. now destruct (p c). Qed.

Lemma existsb_rev {A} (p : A -> bool) l : existsb p (rev l) = existsb p l.
Proof.
  destruct (existsb p l) eqn:E.
  - apply existsb_exists in E as (x & Hin & Hx). apply existsb_exists.
    exists x. split; [now apply in_rev in Hin|assumption].
  - destruct (existsb p (rev l)) eqn:E'; [|reflexivity].
    apply existsb_exists in E' as (x & Hin & Hx). apply in_rev in Hin.
    assert (existsb p l = true) as E2 by (apply existsb_exists; eauto).
    congruence.
Qed.

Lemma strip_none p l : existsb p l = false -> strip p l = l.
Proof.
  intros H. unfold strip. rewrite (lstrip_none p l H).
  rewrite lstrip_none by now rewrite existsb_rev. apply rev_involutive.
Qed.

Lemma strip_percent_none s :
  RssParser.has_percent s = false -> strip_percent s = s.
Proof.
  unfold RssParser.has_percent, strip_percent. intros H.
  rewrite strip_none by exact H. apply string_of_list_ascii_of_string.
Qed.

Lemma to_pct_agree x :
  (forall s, x = VStr s -> s = "-" \/ RssParser.has_percent s = true) ->
  Rss.to_pct x = RssParser.to_pct x.
Proof.
  destruct x as [|z|f|s]; intros Hx; try reflexivity.
  destruct (Hx s eq_refl) as [->|Hp]; [reflexivity|].
  unfold Rss.to_pct, RssParser.to_pct. now rewrite Hp.
Qed.

(** X12. The percentage parser of [gcp_rss.py] and that of [rss_parser.py]
    agree on every cell that is not text, on the dash, and on text with a
    percent sign in it.  On text without a percent sign they differ: the
    script reads the number as it stands, the Cloud version divides it by
    one hundred as well. *)
Theorem to_pct_versions_differ_on_text_without_percent :
  (forall x,
      (forall s, x = VStr s -> s = "-" \/ RssParser.has_percent s = true) ->
      Rss.to_pct x = RssParser.to_pct x) /\
  (forall s f,
      s <> "-" -> RssParser.has_percent s = false ->
      float_of_string s = Some f ->
      RssParser.to_pct (VStr s) = Ok (VFloat f) /\
      Rss.to_pct (VStr s) = Ok (VFloat (div100 f))).
Proof.
  split; [exact to_pct_agree|].
  intros s f Hne Hp Hf. unfold Rss.to_pct, RssParser.to_pct.
  rewrite Hp, (strip_percent_none s Hp). cbn [isna orb].
  destruct (String.eqb_spec s "-") as [->|_]; [contradiction|].
  cbn [float Py.bind]. rewrite Hf. auto.
Qed.

Section Timestamps.

Variable strptime_isoformat : string -> option string.

Abbreviation account_body := (RssParser.account_body strptime_isoformat).
Abbreviation accounts_loop := (RssParser.accounts_loop strptime_isoformat).
Abbreviation script := (RssParser.script strptime_isoformat).

(** Between two worlds nothing was committed, logged, opened or closed. *)
Abbreviation quiet w w' :=
  (db w' = db w /\ log w' = log w /\ open_conns w' = open_conns w).

Lemma account_body_quiet row feed view w :
  quiet w (snd (account_body row feed view w)).
Proof.
  unfold RssParser.account_body, bindM, lift.
  destruct (getitem row "username") as [sa|e]; [|auto].
  destruct (getitem row "account_url") as [url|e]; [|auto].
  destruct (getitem row "rss_url") as [rss|e]; [|auto].
  destruct (Py.bind (getitem row "trade win") _) as [win|e]; [|auto].
  destruct (Py.bind (getitem row "Total return") _) as [ret|e]; [|auto].
  destruct (Py.bind (getitem row "Trades per day") _) as [tpd|e]; [|auto].
  unfold cur_execute.
  destruct (execute META_UPSERT _ view) as [v1|e]; [|cbn; auto].
  match goal with
  | |- context [Rss.feed_loop_unbatched _ ?stmt ?a feed no_summary v1 ?w2] =>
      destruct (feed_loop_unbatched_sends strptime_isoformat stmt a feed
                  no_summary v1 w2) as (Hdb & Hlog & Hconn & _)
  end.
  cbn [db log open_conns] in *. auto.
Qed.

Lemma accounts_loop_quiet units : forall view w,
  quiet w (snd (accounts_loop units view w)).
Proof.
  induction units as [|[row feed] units IH]; intros view w; simpl; [auto|].
  unfold bindM.
  destruct (account_body_quiet row feed view w) as (Hdb & Hlog & Hconn).
  destruct (account_body row feed view w) as [[v1|e] w1]; cbn [snd] in *; [|auto].
  destruct (IH v1 w1) as (Hdb' & Hlog' & Hconn').
  repeat split; congruence.
Qed.

(** X13. The script commits everything or nothing.  When any statement of
    any account raises, the exception ends the script before its single
    [commit]: the store is as it was before the run, rows of the accounts
    already walked included, and the connection is still open.  When
    nothing raises, the connection is closed and the closing message is
    the only line written. *)
Theorem script_commits_all_or_nothing (units : list (RosterRow * list Entry))
  (w : World) :
  (forall e, fst (script units w) = Raise e ->
             db (snd (script units w)) = db w /\
             log (snd (script units w)) = log w /\
             open_conns (snd (script units w)) = S (open_conns w)) /\
  (fst (script units w) = Ok tt ->
   open_conns (snd (script units w)) = open_conns w /\
   exists l, log (snd (script units w)) = log w ++ [l] /\ level l = INFO).
Proof.
  unfold RssParser.script, bindM, get_db_conn.
  set (w1 := Build_World _ _ _ _).
  destruct (accounts_loop_quiet units (db w) w1) as (Hdb & Hlog & Hconn).
  destruct (accounts_loop units (db w) w1) as [[v|e] w2]; cbn [snd] in *.
  - unfold commit, close, logging. cbn [fst snd db log open_conns]. split.
    + intros e. discriminate.
    + intros _. rewrite Hconn, Hlog. unfold w1. cbn [open_conns log].
      split; [reflexivity|]. eexists. split; reflexivity.
  - cbn [fst snd]. split; [|discriminate]. intros e0 _.
    rewrite Hdb, Hlog, Hconn. unfold w1. cbn. auto.
Qed.

(** ** The script against the Cloud version *)

(** The percentage cells of a roster row on which the two parsers
    agree: the three columns are there, and none holds text without a
    percent sign (other than the dash). *)
Abbreviation plain_percentages row :=
  (forall k, In k ["trade win"; "Total return"; "Trades per day"] ->
     exists x, (row : RosterRow) !! k = Some x /\
               forall s, x = VStr s -> s = "-" \/ RssParser.has_percent s = true).

Lemma to_pct_getitem row k :
  In k ["trade win"; "Total return"; "Trades per day"] ->
  plain_percentages row ->
  Py.bind (getitem row k) (fun x => RssParser.to_pct x) = Rss.to_pct (get row k).
Proof.
  intros Hk Hrow. destruct (Hrow k Hk) as (x & Hx & Hplain).
  unfold getitem, get. rewrite Hx. cbn [Py.bind default].
  symmetry. now apply to_pct_agree.
Qed.

(** The body of an account that comes to its end met no position entry:
    the store rejects the trade statement of the script whatever the
    tuple.  What it leaves in the transaction is what the Cloud version
    commits for the account. *)
Lemma account_body_commits row feed view w v' w' :
  plain_percentages row ->
  account_body row feed view w = (Ok v', w') ->
  Rss.committed_after strptime_isoformat row feed view = v' /\
  List.filter (fun item : Entry => hasattr item "position_ticket") feed = [].
Proof.
  intros Hrow. unfold RssParser.account_body, Rss.committed_after, bindM, lift.
  rewrite !to_pct_getitem by (assumption || (simpl; tauto)).
  destruct (getitem row "username") as [sa|e]; cbn [Py.bind]; [|discriminate].
  destruct (getitem row "account_url") as [url|e]; cbn [Py.bind]; [|discriminate].
  destruct (getitem row "rss_url") as [rss|e]; cbn [Py.bind]; [|discriminate].
  destruct (Rss.to_pct (get row "trade win")) as [win|e]; cbn [Py.bind]; [|discriminate].
  destruct (Rss.to_pct (get row "Total return")) as [ret|e]; cbn [Py.bind]; [|discriminate].
  destruct (Rss.to_pct (get row "Trades per day")) as [tpd|e]; cbn [Py.bind];
    [|discriminate].
  unfold cur_execute.
  destruct (execute META_UPSERT _ view) as [v1|e]; cbn [Py.bind]; [|discriminate].
  match goal with
  | |- Rss.feed_loop_unbatched _ ?stmt ?a feed no_summary v1 ?w2 = _ -> _ =>
      pose proof (feed_loop_unbatched_outcome strptime_isoformat stmt a feed
                    no_summary v1 w2) as Hout
  end.
  intros H. rewrite H in Hout. cbn [fst] in Hout.
  destruct (Rss.normalize_feed _ _ feed no_summary) as [recs|e] eqn:Hn;
    cbn [Py.bind] in *; [|contradiction].
  destruct (executemany RssParser.TRADES_UPSERT recs v1) as [v2|e] eqn:E;
    [|contradiction].
  simpl in Hout. subst v2.
  apply executemany_rejected in E as [-> ->]; [|reflexivity].
  split; [reflexivity|].
  apply RssUnits.normalize_feed_length in Hn.
  destruct (List.filter _ feed); [reflexivity|discriminate].
Qed.

Lemma accounts_loop_commits units : forall view w v w',
  Forall (fun u => plain_percentages (fst u)) units ->
  accounts_loop units view w = (Ok v, w') ->
  fold_left (fun d u => Rss.committed_after strptime_isoformat (fst u) (snd u) d)
            units view = v /\
  Forall (fun u => List.filter (fun item : Entry => hasattr item "position_ticket")
                               (snd u) = []) units.
Proof.
  induction units as [|[row feed] units IH]; intros view w v w' Hall; simpl.
  - intros [= <- <-]. auto.
  - apply Forall_cons in Hall as [Hrow Hall]. unfold bindM.
    destruct (account_body row feed view w) as [[v1|e] w1] eqn:E; [|discriminate].
    intros H. cbn [fst snd].
    destruct (account_body_commits row feed view w v1 w1 Hrow E) as [-> Hpos].
    destruct (IH _ _ _ _ Hall H) as [Hv Hrest].
    split; [exact Hv|]. constructor; [exact Hpos|exact Hrest].
Qed.

(** X14. On a roster whose percentage cells the two parsers read alike, a
    run of the script that ends normally leaves the store that the Cloud
    version leaves when it takes the same accounts, with the same feeds,
    in roster order: one transaction for the whole roster or one
    transaction per account, batches or single statements, the rows
    stored are the same.  The store rejects the trade statement of the
    script, so a run ends normally only when no feed of the roster holds
    a position entry: the rows stored are metadata rows. *)
Theorem script_and_cloud_run_leave_the_same_store (BATCH_SIZE : Z)
  (units : list (RosterRow * list Entry)) (w : World) :
  Forall (fun u => plain_percentages (fst u)) units ->
  fst (script units w) = Ok tt ->
  db (snd (script units w))
  = db (Rss.main strptime_isoformat BATCH_SIZE units w) /\
  Forall (fun u => List.filter (fun item : Entry => hasattr item "position_ticket")
                               (snd u) = []) units.
Proof.
  intros Hall. rewrite RssUnits.main_commits.
  unfold RssParser.script, bindM, get_db_conn.
  set (w1 := Build_World _ _ _ _).
  destruct (accounts_loop units (db w) w1) as [[v|e] w2] eqn:E; [|discriminate].
  intros _. unfold commit, close, logging. cbn [snd db].
  destruct (accounts_loop_commits units (db w) w1 v w2 Hall E) as [Hv Hpos].
  split; [symmetry; exact Hv|exact Hpos].
Qed.

End Timestamps.

(** ** On the samples *)

(** On the samples: the cell [0.5]. *)
Lemma to_pct_versions_differ_on_text_without_percent_witness :
  RssParser.to_pct (VStr "0.5") = Ok (VFloat (FFin (1 # 2))) /\
  Rss.to_pct (VStr "0.5") = Ok (VFloat (div100 (FFin (1 # 2)))).
Proof.
  apply (proj2 to_pct_versions_differ_on_text_without_percent "0.5").
  - discriminate.
  - reflexivity.
  - vm_compute. reflexivity.
Defined.

(** On the samples: a roster of two accounts with one position each; the
    first trade statement is rejected. *)
Lemma script_commits_all_or_nothing_witness :
  db (snd (RssParser.script Samples.strptime_isoformat
             [(Samples.roster_row, [Samples.position "55" "1" "1.10" "0"]);
              (Samples.roster_row, [Samples.position_without_tp])]
             Samples.world0)) = ∅ /\
  open_conns (snd (RssParser.script Samples.strptime_isoformat
                     [(Samples.roster_row, [Samples.position "55" "1" "1.10" "0"]);
                      (Samples.roster_row, [Samples.position_without_tp])]
                     Samples.world0)) = 1%nat.
Proof.
  destruct (proj1 (script_commits_all_or_nothing Samples.strptime_isoformat
                     [(Samples.roster_row, [Samples.position "55" "1" "1.10" "0"]);
                      (Samples.roster_row, [Samples.position_without_tp])]
                     Samples.world0)
              (DatabaseError "syntax error"))
    as (Hdb & _ & Hconn).
  - vm_compute. reflexivity.
  - split; [exact Hdb|exact Hconn].
Defined.

(** On the samples: the sample account with a feed that holds the account
    summary and no position. *)
Lemma script_and_cloud_run_leave_the_same_store_witness :
  fst (RssParser.script Samples.strptime_isoformat
         [(Samples.roster_row, [Samples.summary_entry])] Samples.world0) = Ok tt /\
  db (snd (RssParser.script Samples.strptime_isoformat
             [(Samples.roster_row, [Samples.summary_entry])] Samples.world0))
  = db (Rss.main Samples.strptime_isoformat 100
          [(Samples.roster_row, [Samples.summary_entry])] Samples.world0).
Proof.
  assert (fst (RssParser.script Samples.strptime_isoformat
                 [(Samples.roster_row, [Samples.summary_entry])] Samples.world0)
          = Ok tt) as Hok by (vm_compute; reflexivity).
  split; [exact Hok|].
  apply (script_and_cloud_run_leave_the_same_store Samples.strptime_isoformat 100).
  - constructor; [|constructor]. cbn [fst]. intros k Hk.
    destruct Hk as [<-|[<-|[<-|[]]]]; eexists; (split; [reflexivity|]);
      intros s Hs; try discriminate Hs.
    + injection Hs as <-. right. reflexivity.
    + injection Hs as <-. left. reflexivity.
  - exact Hok.
Defined.

End ScriptFacts.

(* ===================================================================== *)
(** * The units of gcp_csv.py                                             *)
(* ===================================================================== *)

Module CsvUnits.

Import Csv ProcFacts SqlFacts CsvFacts.

Section Libraries.

Variable to_datetime_strftime : list Val -> list Val.
Variable md5_hexdigest : string -> string.
Variable float_str : pyfloat -> string.
Variable numeric_of_text : string -> option pyfloat.

Abbreviation prepare := (Csv.prepare to_datetime_strftime).
Abbreviation to_numeric := (Csv.to_numeric numeric_of_text).
Abbreviation coerce := (Csv.coerce numeric_of_text).
Abbreviation process_blob :=
  (Csv.process_blob to_datetime_strftime md5_hexdigest float_str numeric_of_text).
Abbreviation main :=
  (Csv.main to_datetime_strftime md5_hexdigest float_str numeric_of_text).

(** The lines a unit logs. *)
Abbreviation starting n :=
  {| level := INFO; message := "Starting {blob.name}";
     args := [VStr n]; exc_info := None |}.
Abbreviation skipping n :=
  {| level := WARNING;
     message := "Skipping {blob.name}: missing one of {required}";
     args := [VStr n]; exc_info := None |}.
Abbreviation failed n e :=
  {| level := ERROR; message := "Error processing {blob.name}: {e}";
     args := [VStr n]; exc_info := Some e |}.

Lemma two_lines_inv (ls : list LogRecord) a l l' : ls ++ [a; l] = ls ++ [a; l'] -> l = l'.
Proof. intros H. apply app_inv_head in H. now injection H. Qed.

(** X15. A CSV unit never raises.  Whatever the object holds, [process_blob]
    returns normally and adds exactly two lines to the log: its start
    line and one outcome line.  Unless the outcome line is the [INFO]
    line of a finished unit, nothing was committed.  When it is, or a
    warning, the unit holds no connection when it returns; after an
    error at most one connection is left open. *)
Theorem process_blob_never_raises (blob : Blob) (w : World) :
  fst (process_blob blob w) = Ok tt /\
  exists l,
    log (snd (process_blob blob w)) = log w ++ [starting (name blob); l] /\
    (level l <> INFO -> db (snd (process_blob blob w)) = db w) /\
    (level l <> ERROR ->
     open_conns (snd (process_blob blob w)) = open_conns w) /\
    (open_conns (snd (process_blob blob w)) = open_conns w \/
     open_conns (snd (process_blob blob w)) = S (open_conns w)).
Proof.
  destruct (process_blob_outcome to_datetime_strftime md5_hexdigest float_str
              numeric_of_text blob w) as (l & -> & _).
  split; [reflexivity|]. exists l. cbn [fst snd db log open_conns].
  split; [reflexivity|]. split; [reflexivity|]. split; [reflexivity|].
  left. reflexivity.
Qed.

(** X16. No CSV unit reaches the store.  The unit of any object returns
    with its start line and one outcome line logged, and nothing else
    changed: no connection was opened, no tuple handed to a cursor,
    nothing committed.  The outcome line is the warning of a skipped
    file or an error; it is never the line of a finished unit.  So a
    whole run leaves the store as it found it. *)
Theorem csv_unit_never_reaches_the_store (blob : Blob) (blobs : list Blob)
  (w : World) :
  (exists l,
      process_blob blob w
      = (Ok tt,
         {| db := db w; log := log w ++ [starting (name blob); l];
            open_conns := open_conns w; sent := sent w |}) /\
      (l = skipping (name blob) \/ exists e, l = failed (name blob) e)) /\
  db (main blobs w) = db w /\
  open_conns (main blobs w) = open_conns w /\
  sent (main blobs w) = sent w.
Proof.
  split.
  - apply process_blob_outcome.
  - apply main_frame.
Qed.

Lemma forallb_false {A} (f : A -> bool) (l : list A) :
  forallb f l = false -> exists x, In x l /\ f x = false.
Proof.
  induction l as [|x l IH]; simpl; [discriminate|].
  destruct (f x) eqn:E; simpl.
  - intros H. destruct (IH H) as (y & Hy & Hf). eauto.
  - eauto.
Qed.

(** The required columns are all there exactly when each is the new name
    of a column of the file. *)
Lemma required_columns_present blob_name df0 :
  forallb (has_column (prepare blob_name df0)) required = true <->
  (forall c, In c required -> In c (map rename_column (columns df0))).
Proof.
  clear md5_hexdigest float_str numeric_of_text.
  rewrite forallb_forall. split.
  - intros H c Hc. specialize (H c Hc).
    apply has_column_In, columns_prepare in H as [H| ->]; [exact H|].
    exfalso. revert Hc. apply seen_not_In. reflexivity.
  - intros H c Hc. apply has_column_In, columns_prepare. left. now apply H.
Qed.



(** X19. A CSV unit changes nothing in the committed store but rows of
    [historical_trades] whose ticket is the ticket of a tuple it handed
    to the cursor. *)
Theorem csv_unit_touches_only_its_own_rows (blob : Blob) (w : World) :
  let w' := snd (process_blob blob w) in
  (forall t, t <> "historical_trades" -> db w' !! t = db w !! t) /\
  (forall k,
      (forall tu z, sent_since "historical_trades" w w' tu ->
                    field UPSERT_SQL tu "ticket" = VInt z -> k <> KInt z) ->
      get_table (db w') "historical_trades" !! k
      = get_table (db w) "historical_trades" !! k).
Proof.
  cbv zeta.
  destruct (process_blob_frame to_datetime_strftime md5_hexdigest float_str
              numeric_of_text blob w) as (_ & -> & _).
  split; reflexivity.
Qed.

(** X20. A file whose unit commits nothing, whatever the store it starts
    from (one that is skipped, say, or cannot be read), does not disturb
    the run: the store the run leaves is the store it leaves without that
    file in the bucket. *)
Theorem failed_file_does_not_disturb_the_run (before after : list Blob)
  (blob : Blob) (w : World) :
  (forall w0, db (snd (process_blob blob w0)) = db w0) ->
  db (main (before ++ blob :: after) w) = db (main (before ++ after) w).
Proof.
  intros _.
  rewrite (proj1 (main_frame _ _ _ _ (before ++ blob :: after) w)).
  rewrite (proj1 (main_frame _ _ _ _ (before ++ after) w)). reflexivity.
Qed.

(** ** The account of a file *)

Lemma after_last_slash_none s : forall cur,
  (forall ch, In ch (list_ascii_of_string s) -> ch <> "/"%char) ->
  after_last_slash cur s = cur.
Proof.
  induction s as [|c s IH]; intros cur Hno; simpl; [reflexivity|].
  destruct (Ascii.eqb_spec c "/"%char) as [->|_].
  - exfalso. apply (Hno "/"%char); [now left|reflexivity].
  - apply IH. intros ch Hch. apply Hno. now right.
Qed.

Lemma after_last_slash_app dir rest : forall cur,
  (forall ch, In ch (list_ascii_of_string rest) -> ch <> "/"%char) ->
  after_last_slash cur (String.append dir (String "/" rest)) = rest.
Proof.
  induction dir as [|c dir IH]; intros cur Hno.
  - simpl. now apply after_last_slash_none.
  - simpl. destruct (Ascii.eqb c "/"%char); apply IH; assumption.
Qed.

Lemma split_head_cons sep c s :
  split_head sep (String c s)
  = if String.prefix sep (String c s) then EmptyString
    else String c (split_head sep s).
Proof. reflexivity. Qed.

Lemma prefix_cons a s1 b s2 :
  String.prefix (String a s1) (String b s2)
  = if ascii_dec a b then String.prefix s1 s2 else false.
Proof. reflexivity. Qed.

Lemma split_head_suffix stem :
  (forall ch, In ch (list_ascii_of_string stem) -> ch <> "."%char) ->
  split_head ".csv" (String.append stem ".csv") = stem.
Proof.
  induction stem as [|c stem IH]; intros Hno; [reflexivity|].
  change (String.append (String c stem) ".csv")
    with (String c (String.append stem ".csv")).
  rewrite split_head_cons, prefix_cons.
  destruct (ascii_dec "."%char c) as [<-|_].
  - exfalso. apply (Hno "."%char); [now left|reflexivity].
  - f_equal. apply IH. intros ch Hch. apply Hno. now right.
Qed.

Lemma In_append ch s1 s2 :
  In ch (list_ascii_of_string (String.append s1 s2)) ->
  In ch (list_ascii_of_string s1) \/ In ch (list_ascii_of_string s2).
Proof.
  induction s1 as [|c s1 IH]; cbn; [now right|].
  intros [->|H]; [left; now left|].
  destruct (IH H) as [H1|H2]; [left; now right|now right].
Qed.

(** X21. The account a file belongs to is read off its name: for an object
    named [dir/stem.csv], with neither slash nor dot in [stem], it is
    [stem].  In the frame a unit builds from a rectangular table, row by
    row, the [account_id] cell holds the account read off the name of
    the object, whatever the file holds, an [account_id] column of its
    own included. *)
Theorem every_row_carries_the_account_of_its_file :
  (forall dir stem,
      (forall ch, In ch (list_ascii_of_string stem) ->
                  ch <> "/"%char /\ ch <> "."%char) ->
      split_head ".csv"
        (basename (String.append dir (String "/" (String.append stem ".csv"))))
      = stem) /\
  (forall blob_name df0 i r0,
      aligned df0 -> rows df0 !! i = Some r0 ->
      exists r,
        rows (coerce (prepare blob_name df0)) !! i = Some r /\
        cell (columns (coerce (prepare blob_name df0))) r "account_id"
        = Some (VStr (split_head ".csv" (basename blob_name)))).
Proof.
  clear md5_hexdigest float_str.
  split.
  - intros dir stem Hno. unfold basename.
    rewrite after_last_slash_app.
    + apply split_head_suffix. intros ch Hch. now apply Hno.
    + intros ch Hch. apply In_append in Hch as [H|H].
      * now apply Hno.
      * cbn in H. intuition (subst; discriminate).
  - intros blob_name df0 i r0 Hal Hr0.
    destruct (coerced_lookup to_datetime_strftime numeric_of_text blob_name df0 i r0
                Hal Hr0) as (r & Hr & Hid & _).
    eauto.
Qed.

(** X22. The frame after the coercion loop against the cells of the file,
    row by row, for a rectangular table whose column names are distinct
    after the renames.  Under [symbol], [trade_type] and [lot_size] row
    [i] holds the cell of row [i] of the file exactly as it was read: the
    lot size is not in the coercion list, so text stays text.  Under a
    column of the coercion list it holds what [pd.to_numeric] makes of
    that cell, and nothing when the file has no such column.  The cell is
    the one under the column whose name, after the renames, is the
    column's. *)
Theorem coerced_columns_come_from_the_file (blob_name : string)
  (df0 : DataFrame) (i : nat) (r0 : list Val) :
  aligned df0 -> List.NoDup (map rename_column (columns df0)) ->
  rows df0 !! i = Some r0 ->
  exists r,
    rows (coerce (prepare blob_name df0)) !! i = Some r /\
    (forall c, In c ["symbol"; "trade_type"; "lot_size"] ->
       cell (columns (coerce (prepare blob_name df0))) r c
       = cell (map rename_column (columns df0)) r0 c) /\
    (forall c, In c numeric_columns ->
       cell (columns (coerce (prepare blob_name df0))) r c
       = option_map to_numeric (cell (map rename_column (columns df0)) r0 c)).
Proof.
  clear md5_hexdigest float_str.
  intros Hal _ Hr0.
  destruct (coerced_lookup to_datetime_strftime numeric_of_text blob_name df0 i r0
              Hal Hr0) as (r & Hr & _ & Hcells).
  exists r. split; [exact Hr|]. split.
  - intros c Hc. rewrite Hcells.
    + simpl in Hc. repeat (destruct Hc as [<-|Hc]; [reflexivity|]). contradiction.
    + intros ->. revert Hc. apply seen_not_In. reflexivity.
    + intros ->. revert Hc. apply seen_not_In. reflexivity.
  - intros c Hc. rewrite Hcells.
    + now rewrite (proj2 (seen_In c numeric_columns) Hc).
    + intros ->. revert Hc. apply seen_not_In. reflexivity.
    + intros ->. revert Hc. apply seen_not_In. reflexivity.
Qed.

End Libraries.

(** ** On the samples *)



(** On the samples: a bucket whose first file lacks the [Profit] column. *)
Lemma failed_file_does_not_disturb_the_run_witness :
  db (Csv.main Samples.to_datetime_strftime Samples.md5_hexdigest Samples.float_str
        Samples.numeric_of_text
        [Samples.blob Samples.frame_without_profit; Samples.blob Samples.frame]
        Samples.world0)
  = db (Csv.main Samples.to_datetime_strftime Samples.md5_hexdigest
          Samples.float_str Samples.numeric_of_text [Samples.blob Samples.frame]
          Samples.world0).
Proof.
  apply (failed_file_does_not_disturb_the_run Samples.to_datetime_strftime
           Samples.md5_hexdigest Samples.float_str Samples.numeric_of_text []
           [Samples.blob Samples.frame]
           (Samples.blob Samples.frame_without_profit) Samples.world0).
  intros w0.
  rewrite (CsvFacts.process_blob_skips Samples.to_datetime_strftime
             Samples.md5_hexdigest Samples.float_str Samples.numeric_of_text
             (Samples.blob Samples.frame_without_profit)
             Samples.frame_without_profit w0 eq_refl);
    [reflexivity|vm_compute; reflexivity].
Defined.

(** On the samples: the object [testcsvs/1001.csv] and the first row of
    its frame. *)
Lemma every_row_carries_the_account_of_its_file_witness :
  split_head ".csv" (basename "testcsvs/1001.csv") = "1001" /\
  exists r,
    rows (Csv.coerce Samples.numeric_of_text
            (Csv.prepare Samples.to_datetime_strftime "testcsvs/1001.csv"
               Samples.frame)) !! 0%nat = Some r /\
    cell (columns (Csv.coerce Samples.numeric_of_text
                     (Csv.prepare Samples.to_datetime_strftime "testcsvs/1001.csv"
                        Samples.frame))) r "account_id"
    = Some (VStr "1001").
Proof.
  destruct (every_row_carries_the_account_of_its_file
              Samples.to_datetime_strftime Samples.numeric_of_text)
    as [Hname Hrow].
  split.
  - apply (Hname "testcsvs" "1001").
    intros ch Hch. vm_compute in Hch.
    repeat (destruct Hch as [<-|Hch]; [split; discriminate|]). contradiction.
  - apply (Hrow "testcsvs/1001.csv" Samples.frame 0%nat
             (Samples.trade_row (VInt 55) (VInt 1))).
    + unfold aligned. simpl. repeat constructor.
    + reflexivity.
Defined.

(** On the samples: the first row of the export whose close prices are
    text: the lot size is kept as read, the close price [1.12] is read as
    a number. *)
Lemma coerced_columns_come_from_the_file_witness :
  exists r,
    rows (Csv.coerce Samples.numeric_of_text
            (Csv.prepare Samples.to_datetime_strftime "testcsvs/1001.csv"
               Samples.frame_with_garbage_price)) !! 0%nat = Some r /\
    cell (columns (Csv.coerce Samples.numeric_of_text
                     (Csv.prepare Samples.to_datetime_strftime "testcsvs/1001.csv"
                        Samples.frame_with_garbage_price))) r "lot_size"
    = Some (VInt 1) /\
    cell (columns (Csv.coerce Samples.numeric_of_text
                     (Csv.prepare Samples.to_datetime_strftime "testcsvs/1001.csv"
                        Samples.frame_with_garbage_price))) r "exit_price"
    = Some (VFloat (FFin (28 # 25))).
Proof.
  destruct (coerced_columns_come_from_the_file Samples.to_datetime_strftime
              Samples.numeric_of_text "testcsvs/1001.csv"
              Samples.frame_with_garbage_price 0%nat
              [VInt 55; VStr "EURUSD"; VStr "buy"; VFloat (FFin (11 # 10));
               VStr "1.12"; VInt 1; VInt 200; VStr "2024.01.02 03:04:05"])
    as (r & Hr & Hplain & Hnum).
  - unfold aligned. simpl. repeat constructor.
  - cbv. repeat (constructor; [apply seen_not_In; reflexivity|]). constructor.
  - reflexivity.
  - exists r. split; [exact Hr|]. split.
    + rewrite (Hplain "lot_size") by (simpl; tauto). reflexivity.
    + rewrite (Hnum "exit_price") by (simpl; tauto). reflexivity.
Defined.

End CsvUnits.

(* ===================================================================== *)
(** * Running a unit again                                                *)
(* ===================================================================== *)

Module Rerun.

Import SqlFacts ProcFacts StoreFacts.

(** ** A unit run again *)

Section RssUnit.

Variable strptime_isoformat : string -> option string.

Lemma committed_after_twice row feed d :
  Rss.committed_after strptime_isoformat row feed
    (Rss.committed_after strptime_isoformat row feed d)
  = Rss.committed_after strptime_isoformat row feed d.
Proof.
  unfold Rss.committed_after.
  destruct (Rss.getitem row "username") as [sa|e]; cbn [Py.bind]; [|reflexivity].
  destruct (Rss.getitem row "account_url") as [url|e]; cbn [Py.bind]; [|reflexivity].
  destruct (Rss.getitem row "rss_url") as [rss|e]; cbn [Py.bind]; [|reflexivity].
  destruct (Rss.to_pct (Rss.get row "trade win")) as [win|e]; cbn [Py.bind];
    [|reflexivity].
  destruct (Rss.to_pct (Rss.get row "Total return")) as [ret|e]; cbn [Py.bind];
    [|reflexivity].
  destruct (Rss.to_pct (Rss.get row "Trades per day")) as [tpd|e]; cbn [Py.bind];
    [|reflexivity].
  destruct (execute Rss.META_UPSERT [sa; url; rss; win; ret; tpd] d) as [v|e] eqn:Hv;
    cbn [Py.bind]; [|rewrite Hv; reflexivity].
  destruct (Rss.normalize_feed strptime_isoformat _ feed Rss.no_summary)
    as [recs|e] eqn:Hn; cbn [Py.bind].
  2:{ rewrite Hv. cbn [Py.bind]. reflexivity. }
  destruct (executemany Rss.trades_stmt recs v) as [d1|e] eqn:Hd1.
  2:{ rewrite Hv. cbn [Py.bind]. rewrite Hd1. reflexivity. }
  apply executemany_rejected in Hd1 as [-> ->]; [|reflexivity].
  assert (execute Rss.META_UPSERT [sa; url; rss; win; ret; tpd] v = Ok v) as Habs.
  { pose proof (execute_twice Rss.META_UPSERT [sa; url; rss; win; ret; tpd] d
                  (proj2 META_UPSERT_well_formed)) as Htwice.
    rewrite Hv in Htwice. exact Htwice. }
  rewrite Habs. reflexivity.
Qed.

(** X23. Running an account again, on the same feed, right after its unit
    changes nothing in the store: what the second run commits is what
    the first one left.  The two runs need not use the same batch
    size. *)
Theorem account_run_again_changes_nothing (B1 B2 : Z) (row : Rss.RosterRow)
  (feed : list Rss.Entry) (w : World) :
  let w1 := snd (Rss.process_account strptime_isoformat B1 row feed w) in
  db (snd (Rss.process_account strptime_isoformat B2 row feed w1)) = db w1.
Proof.
  cbv zeta. rewrite !RssFacts.process_account_commits.
  apply committed_after_twice.
Qed.

End RssUnit.

End Rerun.

(* ===================================================================== *)
(** * What no run takes away                                              *)
(* ===================================================================== *)

Module Annotations.

Import SqlFacts ProcFacts StoreFacts.

(** ** What no upsert takes away *)

(** Between two stores every row of table [t] is still there, with its
    columns outside [S] as they were. *)
Abbreviation kept t S d d' :=
  (forall (k : Key) (old : Row),
      get_table d t !! k = Some old ->
      exists new, get_table d' t !! k = Some new /\
                  forall c : string, ~ In c S -> new !! c = old !! c).

Lemma kept_refl t S d : kept t S d d.
Proof. intros k old H. exists old. auto. Qed.

Lemma kept_trans t S d1 d2 d3 : kept t S d1 d2 -> kept t S d2 d3 -> kept t S d1 d3.
Proof.
  intros H12 H23 k old H. destruct (H12 k old H) as (r2 & H2 & Hc2).
  destruct (H23 k r2 H2) as (r3 & H3 & Hc3).
  exists r3. split; [exact H3|]. intros c Hc. now rewrite Hc3, Hc2.
Qed.

Lemma execute_kept stmt p d d' t S :
  execute stmt p d = Ok d' ->
  (t = table stmt -> incl (update_set stmt) S) ->
  kept t S d d'.
Proof.
  intros Hp Hincl k old Hold.
  destruct (String.eqb_spec t (table stmt)) as [->|Hne].
  - destruct (execute_keeps_unlisted stmt p d d' k old Hp Hold) as (new & Hnew & Hc).
    exists new. split; [exact Hnew|]. intros c Hout. apply Hc.
    intros Hin. apply Hout. now apply (Hincl eq_refl).
  - exists old. split; [|reflexivity].
    rewrite (get_table_other d d' t); [exact Hold|].
    eapply execute_other_table; eauto.
Qed.

Lemma executemany_kept stmt seq t S : forall d d',
  executemany stmt seq d = Ok d' ->
  (t = table stmt -> incl (update_set stmt) S) ->
  kept t S d d'.
Proof.
  induction seq as [|p seq IH]; intros d d' H Hincl.
  - injection H as <-. apply kept_refl.
  - cbn [executemany] in H.
    destruct (execute stmt p d) as [d1|e] eqn:E; cbn [Py.bind] in H; [|discriminate].
    eapply kept_trans; [eapply execute_kept; eauto|eapply IH; eauto].
Qed.

(** ** A run of gcp_rss.py *)

Section RssRun.

Variable strptime_isoformat : string -> option string.

Lemma committed_after_kept row feed d t S :
  (t = "account_metadata" -> incl (update_set Rss.META_UPSERT) S) ->
  (t = "rss_trades" -> incl (update_set Rss.trades_stmt) S) ->
  kept t S d (Rss.committed_after strptime_isoformat row feed d).
Proof.
  intros Hmeta Htrades. unfold Rss.committed_after.
  destruct (Rss.getitem row "username") as [sa|e]; cbn [Py.bind]; [|apply kept_refl].
  destruct (Rss.getitem row "account_url") as [url|e]; cbn [Py.bind];
    [|apply kept_refl].
  destruct (Rss.getitem row "rss_url") as [rss|e]; cbn [Py.bind]; [|apply kept_refl].
  destruct (Rss.to_pct (Rss.get row "trade win")) as [win|e]; cbn [Py.bind];
    [|apply kept_refl].
  destruct (Rss.to_pct (Rss.get row "Total return")) as [ret|e]; cbn [Py.bind];
    [|apply kept_refl].
  destruct (Rss.to_pct (Rss.get row "Trades per day")) as [tpd|e]; cbn [Py.bind];
    [|apply kept_refl].
  destruct (execute Rss.META_UPSERT [sa; url; rss; win; ret; tpd] d) as [v|e] eqn:Hv;
    cbn [Py.bind]; [|apply kept_refl].
  destruct (Rss.normalize_feed strptime_isoformat _ feed Rss.no_summary)
    as [recs|e]; cbn [Py.bind]; [|apply kept_refl].
  destruct (executemany Rss.trades_stmt recs v) as [d1|e] eqn:Hd1; [|apply kept_refl].
  eapply kept_trans.
  - eapply execute_kept; [exact Hv|exact Hmeta].
  - eapply executemany_kept; [exact Hd1|exact Htrades].
Qed.

(** X25. No run of the Cloud pipeline takes anything away.  Whatever the
    roster and the feeds, every row that [rss_trades] and
    [account_metadata] held before the run is still there after it, and
    every column of it that the statement of its table does not list
    after [SET] is as it was: the ticket and the five enrichment columns
    of a trade, the account id and the two annotations of an account,
    and any column the statements do not know. *)
Theorem rss_run_takes_nothing_away (BATCH_SIZE : Z)
  (units : list (Rss.RosterRow * list Rss.Entry)) (w : World) :
  kept "rss_trades" (update_set Rss.trades_stmt) (db w)
       (db (Rss.main strptime_isoformat BATCH_SIZE units w)) /\
  kept "account_metadata" (update_set Rss.META_UPSERT) (db w)
       (db (Rss.main strptime_isoformat BATCH_SIZE units w)).
Proof.
  rewrite RssUnits.main_commits.
  generalize (db w) as d. induction units as [|u units IH]; intros d.
  - split; apply kept_refl.
  - cbn [fold_left]. destruct (IH (Rss.committed_after strptime_isoformat u.1 u.2 d))
      as [IHt IHm].
    split.
    + eapply kept_trans; [|exact IHt].
      apply committed_after_kept; [discriminate|intros _; apply incl_refl].
    + eapply kept_trans; [|exact IHm].
      apply committed_after_kept; [intros _; apply incl_refl|discriminate].
Qed.

End RssRun.

(** ** A run of gcp_csv.py *)

Section CsvRun.

Variable to_datetime_strftime : list Val -> list Val.
Variable md5_hexdigest : string -> string.
Variable float_str : pyfloat -> string.
Variable numeric_of_text : string -> option pyfloat.

Lemma process_blob_kept blob w :
  kept "historical_trades" (update_set Csv.UPSERT_SQL) (db w)
       (db (snd (Csv.process_blob to_datetime_strftime md5_hexdigest float_str
                   numeric_of_text blob w))).
Proof.
  destruct (CsvFacts.process_blob_frame to_datetime_strftime md5_hexdigest
              float_str numeric_of_text blob w) as (_ & -> & _).
  apply kept_refl.
Qed.

(** X26. No run of the CSV pipeline takes anything away.  Whatever the files
    of the bucket, every row that [historical_trades] held before the run
    is still there after it, and every column of it that the statement
    does not list after [SET] is as it was: its ticket, its six
    enrichment columns, and any column the statement does not know. *)
Theorem csv_run_takes_nothing_away (blobs : list Csv.Blob) (w : World) :
  kept "historical_trades" (update_set Csv.UPSERT_SQL) (db w)
       (db (Csv.main to_datetime_strftime md5_hexdigest float_str numeric_of_text
              blobs w)).
Proof.
  unfold Csv.main. revert w. induction blobs as [|b blobs IH]; intros w.
  - apply kept_refl.
  - cbn [fold_left]. eapply kept_trans; [apply process_blob_kept|apply IH].
Qed.

End CsvRun.

(** On the samples: the annotated row of ticket 55 after a run over the
    sample export, which holds that ticket. *)
Lemma csv_run_takes_nothing_away_witness :
  exists new,
    get_table
      (db (Csv.main Samples.to_datetime_strftime Samples.md5_hexdigest
             Samples.float_str Samples.numeric_of_text
             [Samples.blob Samples.frame]
             {| db := Samples.store_with_annotation; log := [];
                open_conns := 0; sent := [] |}))
      "historical_trades" !! KInt 55 = Some new /\
    new !! "gpt_inferred_strategy" = Some (VStr "scalping").
Proof.
  destruct (csv_run_takes_nothing_away Samples.to_datetime_strftime
              Samples.md5_hexdigest Samples.float_str Samples.numeric_of_text
              [Samples.blob Samples.frame]
              {| db := Samples.store_with_annotation; log := [];
                 open_conns := 0; sent := [] |}
              (KInt 55) Samples.annotated)
    as (new & Hnew & Hkeep).
  - cbn [db]. unfold Samples.store_with_annotation, get_table.
    rewrite lookup_singleton_eq. apply lookup_singleton_eq.
  - exists new. split; [exact Hnew|].
    rewrite (Hkeep "gpt_inferred_strategy").
    + apply lookup_insert_eq.
    + vm_compute. intuition discriminate.
Defined.

End Annotations.
